(** * The QR attendance capture flow of the attendance console

    A shallow embedding of the camera hook, the live and image-file QR
    scanners, the reader, the page list, the attendance history page and
    the API client of the front end with its services, and the
    properties proved (or refuted) on it.

    Conventions.
    - A JavaScript value is a [JS.value]; an object is a finite map from
      property names to values.  Numbers are carried as integers: the
      code asks for their truthiness, their decimal text and whole-number
      arithmetic only; where it divides, the model says up to which size
      the result in doubles is the exact one.
    - A string is a sequence of code units below 256, one [ascii] each.
    - A function that can throw returns a [JS.result].
    - An [async] function is cut at its [await]s: every piece between two
      suspension points is one transition of the component, and the browser
      decides when the suspended piece resumes.
    - A handler of a React component is a closure of the render that
      created it; where a handler reads a state variable, the model says
      which render's value it reads.
    - Timer handles are [positive]: the handles returned by [setInterval]
      and [requestAnimationFrame] are integers greater than zero, hence
      truthy in the [if (ref.current)] guards. *)

From Stdlib Require Import Ascii ZArith Lia.
From stdpp Require Import gmap strings pretty list fin_maps sorting.

Set Warnings "-register-all".

(* ===================================================================== *)
(** * Part I. Definitions                                                 *)
(* ===================================================================== *)

(** ** JavaScript values *)

Module JS.

Inductive value :=
| VUndef
| VNull
| VBool (b : bool)
| VNum (n : Z)
| VStr (s : string)
| VArr (l : list value)
| VObj (m : gmap string value).

(** [ToBoolean]: what [if (v)], [!v], [a || b] and [c ? x : y] test. *)
Definition truthy (v : value) : bool :=
  match v with
  | VUndef | VNull => false
  | VBool b => b
  | VNum n => negb (n =? 0)%Z
  | VStr s => negb (String.eqb s "")
  | VArr _ | VObj _ => true
  end.

(** [a || b] *)
Definition or_else (a b : value) : value := if truthy a then a else b.

(** [v === 'text'] *)
Definition is_string (v : value) (text : string) : bool :=
  match v with
  | VStr s => String.eqb s text
  | _ => false
  end.

(** The response of an HTTP exchange as axios hands it over. *)
Record http_response := { status : Z; data : value }.

(** A thrown [Error]: its message and, for an axios rejection that got
    an answer from the server, the [response] it carries. *)
Record exn := { message : string; response : option http_response }.

Definition Error (msg : string) : exn := {| message := msg; response := None |}.

Inductive result (A : Type) :=
| Ok (a : A)
| Throw (e : exn).
Arguments Ok {A} a.
Arguments Throw {A} e.

(** [v.k].  Reading a property of [undefined] or [null] throws a
    [TypeError], here with the message V8 gives it (the wording is the
    engine's own); the property names read by this program
    ([indexNumber], [name], [status], ...) exist on objects only. *)
Definition member (v : value) (k : string) : result value :=
  match v with
  | VUndef =>
      Throw (Error ("Cannot read properties of undefined (reading '" +:+ k +:+ "')"))
  | VNull =>
      Throw (Error ("Cannot read properties of null (reading '" +:+ k +:+ "')"))
  | VObj m => Ok (default VUndef (m !! k))
  | _ => Ok VUndef
  end.

(** [v?.k] *)
Definition opt_member (v : value) (k : string) : value :=
  match v with
  | VObj m => default VUndef (m !! k)
  | _ => VUndef
  end.

(** The code units matched by [\s] among those below 256: tab, line
    feed, vertical tab, form feed, carriage return, space and the
    no-break space. *)
Definition is_space (c : ascii) : bool :=
  let n := nat_of_ascii c in
  ((9 <=? n) && (n <=? 13) || (n =? 32) || (n =? 160))%nat.

(** [s.replace(/\s+/g, '')]: the scan drops every run of white space
    and copies everything else. *)
Fixpoint replace_spaces (s : string) : string :=
  match s with
  | EmptyString => EmptyString
  | String c rest =>
      if is_space c then replace_spaces rest else String c (replace_spaces rest)
  end.

(** [s.includes(pat)] *)
Fixpoint includes (s pat : string) : bool :=
  String.prefix pat s ||
  match s with
  | EmptyString => false
  | String _ rest => includes rest pat
  end.

(** [ToString], as used by template literals. *)
Fixpoint to_text (v : value) : string :=
  match v with
  | VUndef => "undefined"
  | VNull => "null"
  | VBool b => if b then "true" else "false"
  | VNum n => pretty n
  | VStr s => s
  | VArr l =>
      (fix join (l : list value) : string :=
         match l with
         | [] => ""
         | x :: rest =>
             match x with VUndef | VNull => "" | _ => to_text x end
             +:+ match rest with [] => "" | _ => "," +:+ join rest end
         end) l
  | VObj _ => "[object Object]"
  end.

(** The characters of a string, for statements about its content. *)
Fixpoint chars (s : string) : list ascii :=
  match s with
  | EmptyString => []
  | String c rest => c :: chars rest
  end.

End JS.

Import JS.

(** ** The API client (services/api.js) *)

Module Api.

Definition API_URL : string := "http://localhost:5001/api".

Record request := {
  req_method : string;
  req_url : string;
  req_timeout : Z;
  req_headers : gmap string string;
  req_data : option value
}.

(** What the backend does with the two exchanges of one API call: the
    probe of the health endpoint ([None] when [axios.get] throws, on a
    network failure or when the probe's own timeout expires) and the
    request itself. *)
Record backend := {
  health : option http_response;
  serve : request -> result http_response
}.

(** The probe sent by [checkServerConnectivity]. *)
Definition health_probe : request :=
  {| req_method := "GET";
     req_url := API_URL +:+ "/health";
     req_timeout := 5000;
     req_headers := ∅;
     req_data := None |}.

Definition checkServerConnectivity (probe : option http_response) : bool :=
  match probe with
  | Some r => (status r =? 200)%Z && is_string (opt_member (data r) "status") "ok"
  | None => false
  end.

Definition not_responding : string :=
  "Server is not responding. Please check if the server is running.".

(** [storage.getItem('token')], then the truthiness test on it. *)
Definition stored_token (storage : gmap string string) : option string :=
  match storage !! "token" with
  | Some t => if String.eqb t "" then None else Some t
  | None => None
  end.

(** The request interceptor, after its probe has been answered. *)
Definition request_interceptor (probe : option http_response)
    (localStorage sessionStorage : gmap string string)
    (config : request) : result request :=
  if negb (checkServerConnectivity probe) then Throw (Error not_responding)
  else
    let token :=
      match stored_token localStorage with
      | Some t => Some t
      | None => stored_token sessionStorage
      end in
    match token with
    | Some t =>
        Ok {| req_method := req_method config;
              req_url := req_url config;
              req_timeout := req_timeout config;
              req_headers := <["Authorization" := "Bearer " +:+ t]> (req_headers config);
              req_data := req_data config |}
    | None => Ok config
    end.

(** The configuration [api.<method>(url, data)] starts from: the
    defaults given to [axios.create]. *)
Definition api_config (method url : string) (body : option value) : request :=
  {| req_method := method;
     req_url := API_URL +:+ url;
     req_timeout := 15000;
     req_headers := {[ "Content-Type" := "application/json" ]};
     req_data := body |}.

(** The request stage of one call through the [api] instance: the
    exchanges put on the wire, in order, and what the stage ends with.
    The request interceptor runs first and the request is dispatched only
    with the configuration it returns. *)
Definition api_request (net : backend)
    (localStorage sessionStorage : gmap string string)
    (method url : string) (body : option value)
    : list request * result http_response :=
  match request_interceptor (health net) localStorage sessionStorage
          (api_config method url body) with
  | Throw e => ([health_probe], Throw e)
  | Ok config => ([health_probe; config], serve net config)
  end.

(** The rejection handler of the response interceptor, as far as the
    error it passes on is concerned (its toasts, the clearing of the
    session on 401 and the redirect are left out): an error without a
    response is replaced, every other one is passed on unchanged. *)
Definition response_rejected (e : exn) : exn :=
  match response e with
  | None => Error "Server connection failed"
  | Some r => if (status r =? 0)%Z then Error "Server connection failed" else e
  end.

(** One call through the [api] instance as its caller sees it.  axios
    chains the request interceptor, the dispatch and the response
    interceptor as links [promise.then(fulfilled, rejected)]: a rejection
    raised by the request interceptor skips the dispatch and reaches the
    rejection handler of the response interceptor like any other; a
    response goes through the response interceptor unchanged. *)
Definition api_call (net : backend)
    (localStorage sessionStorage : gmap string string)
    (method url : string) (body : option value)
    : list request * result http_response :=
  let staged := api_request net localStorage sessionStorage method url body in
  (fst staged,
   match snd staged with
   | Ok answer => Ok answer
   | Throw e => Throw (response_rejected e)
   end).

(** [qrCodeService.markAttendance], up to its [api.post]: the body it
    builds.  [qrData] is an object (every caller has read
    [qrData.indexNumber] from it), [userAgent] is
    [navigator.userAgent].  A truthy [parent_telephone] that is not a
    string has no [replace] method. *)
Definition markAttendance_body (userAgent : string)
    (qrData : gmap string value) : result value :=
  let parent_telephone := default VUndef (qrData !! "parent_telephone") in
  let sanitized :=
    if truthy parent_telephone then
      match parent_telephone with
      | VStr s => Ok (VStr (replace_spaces s))
      | _ => Throw (Error "qrData.parent_telephone.replace is not a function")
      end
    else Ok (VStr "") in
  match sanitized with
  | Throw e => Throw e
  | Ok telephone =>
      let sanitizedQrData := <["parent_telephone" := telephone]> qrData in
      Ok (VObj (<["qrCodeData" := VObj sanitizedQrData]>
               (<["deviceInfo" := VStr userAgent]>
               (<["scanLocation" := VStr "QR Scanner App"]> ∅))))
  end.

(** [qrCodeService.markAttendance]: the exchanges and the outcome. *)
Definition markAttendance (net : backend)
    (localStorage sessionStorage : gmap string string)
    (userAgent : string) (qrData : gmap string value)
    : list request * result http_response :=
  match markAttendance_body userAgent qrData with
  | Throw e => ([], Throw e)
  | Ok body =>
      api_call net localStorage sessionStorage
        "POST" "/students/mark-attendance" (Some body)
  end.

End Api.

(** ** What the QR decoder reports for one raster buffer *)

Inductive decoded :=
| NoSymbol                      (* [jsQR] returned [null] *)
| Symbol (data : string)        (* [code.data] of the symbol found *)
| DecoderThrew (msg : string).  (* reading or decoding the buffer threw *)

(** ** What a component lets out: console lines, toasts and the calls of
    the two callbacks the parent may pass *)

Inductive output_event :=
| ConsoleLog (line : string)
| ConsoleError (line : string)
| ToastSuccess (msg : value)
| ToastError (msg : value)
| ScanSuccess (outcome : value)   (* [onScanSuccess(outcome)] *)
| ScanError (e : exn).            (* [onScanError(e)] *)

(** ** Camera streams *)

Module Media.

(** A stream is the list of its tracks, [true] for a live one.  The
    camera world is the list of the streams handed out so far; the handle
    of a stream is its position in that list. *)
Abbreviation stream := (list bool).

(** [navigator.mediaDevices.getUserMedia], when it resolves: a fresh
    stream with one track and [more] further ones, all live. *)
Definition getUserMedia (more : nat) (world : list stream) : nat * list stream :=
  (length world, world ++ [replicate (S more) true]).

(** [stream.getTracks().forEach(track => track.stop())] *)
Definition stop_tracks (h : nat) (world : list stream) : list stream :=
  alter (fmap (fun _ => false)) h world.



End Media.

(** ** The camera hook ([useQRScanner]) *)

Module Hook.

(** The [<video>] element behind [videoRef]. *)
Record video := {
  srcObject : option nat;
  playing : bool;
  onloadedmetadata : bool   (* the handler that schedules the first frame *)
}.

Record hook := {
  (* React state *)
  scanning : bool;
  scannedData : option value;
  error : option string;
  (* refs *)
  videoRef : option video;       (* [None] while no element is mounted *)
  canvasRef : bool;
  streamRef : option nat;
  animationRef : option positive;
  (* browser *)
  media : list Media.stream;
  frames : list positive;        (* animation frames requested, not yet run *)
  next_frame : positive;
  console : list string;
  (* video elements React has taken out of the document, as they were
     left *)
  removed : list video
}.

Definition initial : hook :=
  {| scanning := false; scannedData := None; error := None;
     videoRef := None; canvasRef := false;
     streamRef := None; animationRef := None;
     media := []; frames := []; next_frame := 1%positive; console := [];
     removed := [] |}.

Definition set_scanning (b : bool) (s : hook) : hook :=
  {| scanning := b; scannedData := scannedData s; error := error s;
     videoRef := videoRef s; canvasRef := canvasRef s;
     streamRef := streamRef s; animationRef := animationRef s;
     media := media s; frames := frames s; next_frame := next_frame s;
     console := console s; removed := removed s |}.

Definition set_scannedData (d : option value) (s : hook) : hook :=
  {| scanning := scanning s; scannedData := d; error := error s;
     videoRef := videoRef s; canvasRef := canvasRef s;
     streamRef := streamRef s; animationRef := animationRef s;
     media := media s; frames := frames s; next_frame := next_frame s;
     console := console s; removed := removed s |}.

Definition set_error (e : option string) (s : hook) : hook :=
  {| scanning := scanning s; scannedData := scannedData s; error := e;
     videoRef := videoRef s; canvasRef := canvasRef s;
     streamRef := streamRef s; animationRef := animationRef s;
     media := media s; frames := frames s; next_frame := next_frame s;
     console := console s; removed := removed s |}.

Definition set_videoRef (v : option video) (s : hook) : hook :=
  {| scanning := scanning s; scannedData := scannedData s; error := error s;
     videoRef := v; canvasRef := canvasRef s;
     streamRef := streamRef s; animationRef := animationRef s;
     media := media s; frames := frames s; next_frame := next_frame s;
     console := console s; removed := removed s |}.

Definition set_streamRef (h : option nat) (s : hook) : hook :=
  {| scanning := scanning s; scannedData := scannedData s; error := error s;
     videoRef := videoRef s; canvasRef := canvasRef s;
     streamRef := h; animationRef := animationRef s;
     media := media s; frames := frames s; next_frame := next_frame s;
     console := console s; removed := removed s |}.

Definition set_animationRef (a : option positive) (s : hook) : hook :=
  {| scanning := scanning s; scannedData := scannedData s; error := error s;
     videoRef := videoRef s; canvasRef := canvasRef s;
     streamRef := streamRef s; animationRef := a;
     media := media s; frames := frames s; next_frame := next_frame s;
     console := console s; removed := removed s |}.

Definition set_media (w : list Media.stream) (s : hook) : hook :=
  {| scanning := scanning s; scannedData := scannedData s; error := error s;
     videoRef := videoRef s; canvasRef := canvasRef s;
     streamRef := streamRef s; animationRef := animationRef s;
     media := w; frames := frames s; next_frame := next_frame s;
     console := console s; removed := removed s |}.

Definition set_frames (fs : list positive) (next : positive) (s : hook) : hook :=
  {| scanning := scanning s; scannedData := scannedData s; error := error s;
     videoRef := videoRef s; canvasRef := canvasRef s;
     streamRef := streamRef s; animationRef := animationRef s;
     media := media s; frames := fs; next_frame := next;
     console := console s; removed := removed s |}.

Definition log (line : string) (s : hook) : hook :=
  {| scanning := scanning s; scannedData := scannedData s; error := error s;
     videoRef := videoRef s; canvasRef := canvasRef s;
     streamRef := streamRef s; animationRef := animationRef s;
     media := media s; frames := frames s; next_frame := next_frame s;
     console := console s ++ [line]; removed := removed s |}.

(** [animationRef.current = requestAnimationFrame(processFrame)] *)
Definition requestFrame (s : hook) : hook :=
  let id := next_frame s in
  set_animationRef (Some id) (set_frames (frames s ++ [id]) (Pos.succ id) s).

(** [cancelAnimationFrame(id)] *)
Definition cancelFrame (id : positive) (s : hook) : hook :=
  set_frames (filter (fun f => f ≠ id) (frames s)) (next_frame s) s.

(** [startScanner], up to its [await]. *)
Definition startScanner_call (s : hook) : hook :=
  set_scanning true (set_scannedData None (set_error None s)).

(** [startScanner], resumed with the stream [getUserMedia] resolved to. *)
Definition startScanner_granted (more : nat) (s : hook) : hook :=
  let (stream, world) := Media.getUserMedia more (media s) in
  let s := set_streamRef (Some stream) (set_media world s) in
  match videoRef s with
  | Some _ =>
      set_videoRef (Some {| srcObject := Some stream; playing := true;
                            onloadedmetadata := true |}) s
  | None => s
  end.

(** [startScanner], resumed in its [catch] with the message of the
    rejection. *)
Definition startScanner_denied (msg : string) (s : hook) : hook :=
  set_scanning false (set_error (Some ("Failed to access camera: " +:+ msg)) s).


(** The [loadedmetadata] event of the video element. *)
Definition loadedmetadata (s : hook) : hook :=
  match videoRef s with
  | Some v => if onloadedmetadata v then requestFrame s else s
  | None => s
  end.

Definition stopScanner (s : hook) : hook :=
  let s :=
    match animationRef s with
    | Some id => set_animationRef None (cancelFrame id s)
    | None => s
    end in
  let s :=
    match streamRef s with
    | Some stream => set_streamRef None (set_media (Media.stop_tracks stream (media s)) s)
    | None => s
    end in
  let s :=
    match videoRef s with
    | Some v =>
        set_videoRef (Some {| srcObject := None; playing := playing v;
                              onloadedmetadata := onloadedmetadata v |}) s
    | None => s
    end in
  set_scanning false s.

(** What React does to the component that uses the hook when it
    unmounts it, before any cleanup of a passive effect runs: the video
    and the canvas leave the document and the refs they were attached to
    are set to [null]. *)
Definition detach (s : hook) : hook :=
  {| scanning := scanning s; scannedData := scannedData s; error := error s;
     videoRef := None; canvasRef := false;
     streamRef := streamRef s; animationRef := animationRef s;
     media := media s; frames := frames s; next_frame := next_frame s;
     console := console s;
     removed := removed s ++ match videoRef s with Some v => [v] | None => [] end |}.

(** The unmount: the refs are detached, then the cleanup of the unmount
    effect runs [stopScanner], which finds [videoRef.current] [null]. *)
Definition unmount (s : hook) : hook := stopScanner (detach s).

Section ProcessFrame.

(** [JSON.parse]: [None] when it throws. *)
Variable JSON_parse : string -> option value.

(** One run of [processFrame].  [seen_scanning] is the value of
    [scanning] in the render that created the closure being run (the one
    [startScanner] schedules belongs to the first render, [startScanner]
    having no dependencies), [ready] tells whether [video.readyState] is
    [HAVE_ENOUGH_DATA], and [frame] what the decoder makes of the raster
    buffer. *)
Definition processFrame (seen_scanning ready : bool) (frame : decoded) (s : hook) : hook :=
  if negb seen_scanning || negb (bool_decide (is_Some (videoRef s))) || negb (canvasRef s)
  then s
  else if negb ready then requestFrame s
  else
    match frame with
    | Symbol text =>
        let s := log ("QR Code detected: " +:+ text) s in
        match JSON_parse text with
        | Some qrData => stopScanner (set_scannedData (Some qrData) s)
        | None =>
            stopScanner (set_scannedData (Some (VObj {[ "rawData" := VStr text ]})) s)
        end
    | DecoderThrew msg => requestFrame (log ("Error processing frame: " +:+ msg) s)
    | NoSymbol => requestFrame s
    end.

End ProcessFrame.

End Hook.

(** ** The live scanner (components/scanner/QRScanner.jsx, [QRScanner])

    The component is a function that React calls once per render.  The
    handlers it defines are closures over the variables of that call, and
    [useCallback] hands back the closure of an earlier render as long as
    the listed dependencies have not changed.  Which closure runs decides
    what it reads, so every render leaves a [scope] behind and every
    pending callback remembers the render its closure comes from. *)

Module Scanner.

Inductive facing := Environment | User.

Record scope := {
  (* [cameraPermission] as this render saw it *)
  seen_cameraPermission : option bool;
  (* the render whose closure [useCallback(..., [cameraPermission])]
     returned as [startScanning] *)
  bound_startScanning : nat;
  (* the render whose closure [useCallback(..., [stopScanning, onScanError])]
     returned as [captureAndProcessFrame] *)
  bound_capture : nat
}.

Record state := {
  (* React state; [error] is [VNull] when there is none *)
  scanning : bool;
  loading : bool;
  error : value;
  cameraPermission : option bool;
  facingMode : facing;
  (* ref *)
  intervalRef : option positive;
  (* the renders so far, oldest first *)
  renders : list scope;
  (* running [setInterval] timers, each with the render whose
     [captureAndProcessFrame] its callback calls *)
  intervals : list (positive * nat);
  next_timer : positive;
  (* pending [setTimeout]s: the delay and the render whose
     [handleQRCodeDetected] set it *)
  timeouts : list (Z * nat);
  (* images whose [onload] is pending: what the decoder will find in
     them and the render of the [captureAndProcessFrame] that made them *)
  images : list (decoded * nat);
  (* [getUserMedia] probes of [checkCameraPermission] not yet settled *)
  probes : nat;
  (* [markAttendance] calls awaiting their answer: the payload and the
     render of the [handleQRCodeDetected] that awaits *)
  inflight : list (gmap string value * nat);
  (* what the component has let out, oldest first *)
  output : list output_event
}.

Definition set_scanning (x : bool) (s : state) : state :=
  {| scanning := x; loading := loading s; error := error s;
     cameraPermission := cameraPermission s; facingMode := facingMode s;
     intervalRef := intervalRef s; renders := renders s;
     intervals := intervals s; next_timer := next_timer s;
     timeouts := timeouts s; images := images s; probes := probes s;
     inflight := inflight s; output := output s |}.

Definition set_loading (x : bool) (s : state) : state :=
  {| scanning := scanning s; loading := x; error := error s;
     cameraPermission := cameraPermission s; facingMode := facingMode s;
     intervalRef := intervalRef s; renders := renders s;
     intervals := intervals s; next_timer := next_timer s;
     timeouts := timeouts s; images := images s; probes := probes s;
     inflight := inflight s; output := output s |}.

Definition set_error (x : value) (s : state) : state :=
  {| scanning := scanning s; loading := loading s; error := x;
     cameraPermission := cameraPermission s; facingMode := facingMode s;
     intervalRef := intervalRef s; renders := renders s;
     intervals := intervals s; next_timer := next_timer s;
     timeouts := timeouts s; images := images s; probes := probes s;
     inflight := inflight s; output := output s |}.

Definition set_cameraPermission (x : option bool) (s : state) : state :=
  {| scanning := scanning s; loading := loading s; error := error s;
     cameraPermission := x; facingMode := facingMode s;
     intervalRef := intervalRef s; renders := renders s;
     intervals := intervals s; next_timer := next_timer s;
     timeouts := timeouts s; images := images s; probes := probes s;
     inflight := inflight s; output := output s |}.

Definition set_facingMode (x : facing) (s : state) : state :=
  {| scanning := scanning s; loading := loading s; error := error s;
     cameraPermission := cameraPermission s; facingMode := x;
     intervalRef := intervalRef s; renders := renders s;
     intervals := intervals s; next_timer := next_timer s;
     timeouts := timeouts s; images := images s; probes := probes s;
     inflight := inflight s; output := output s |}.

Definition set_intervalRef (x : option positive) (s : state) : state :=
  {| scanning := scanning s; loading := loading s; error := error s;
     cameraPermission := cameraPermission s; facingMode := facingMode s;
     intervalRef := x; renders := renders s; intervals := intervals s;
     next_timer := next_timer s; timeouts := timeouts s; images := images s;
     probes := probes s; inflight := inflight s; output := output s |}.

Definition set_renders (x : list scope) (s : state) : state :=
  {| scanning := scanning s; loading := loading s; error := error s;
     cameraPermission := cameraPermission s; facingMode := facingMode s;
     intervalRef := intervalRef s; renders := x; intervals := intervals s;
     next_timer := next_timer s; timeouts := timeouts s; images := images s;
     probes := probes s; inflight := inflight s; output := output s |}.

Definition set_intervals (x : list (positive * nat)) (s : state) : state :=
  {| scanning := scanning s; loading := loading s; error := error s;
     cameraPermission := cameraPermission s; facingMode := facingMode s;
     intervalRef := intervalRef s; renders := renders s; intervals := x;
     next_timer := next_timer s; timeouts := timeouts s; images := images s;
     probes := probes s; inflight := inflight s; output := output s |}.

Definition set_next_timer (x : positive) (s : state) : state :=
  {| scanning := scanning s; loading := loading s; error := error s;
     cameraPermission := cameraPermission s; facingMode := facingMode s;
     intervalRef := intervalRef s; renders := renders s;
     intervals := intervals s; next_timer := x; timeouts := timeouts s;
     images := images s; probes := probes s; inflight := inflight s;
     output := output s |}.

Definition set_timeouts (x : list (Z * nat)) (s : state) : state :=
  {| scanning := scanning s; loading := loading s; error := error s;
     cameraPermission := cameraPermission s; facingMode := facingMode s;
     intervalRef := intervalRef s; renders := renders s;
     intervals := intervals s; next_timer := next_timer s; timeouts := x;
     images := images s; probes := probes s; inflight := inflight s;
     output := output s |}.

Definition set_images (x : list (decoded * nat)) (s : state) : state :=
  {| scanning := scanning s; loading := loading s; error := error s;
     cameraPermission := cameraPermission s; facingMode := facingMode s;
     intervalRef := intervalRef s; renders := renders s;
     intervals := intervals s; next_timer := next_timer s;
     timeouts := timeouts s; images := x; probes := probes s;
     inflight := inflight s; output := output s |}.

Definition set_probes (x : nat) (s : state) : state :=
  {| scanning := scanning s; loading := loading s; error := error s;
     cameraPermission := cameraPermission s; facingMode := facingMode s;
     intervalRef := intervalRef s; renders := renders s;
     intervals := intervals s; next_timer := next_timer s;
     timeouts := timeouts s; images := images s; probes := x;
     inflight := inflight s; output := output s |}.

Definition set_inflight (x : list (gmap string value * nat)) (s : state) : state :=
  {| scanning := scanning s; loading := loading s; error := error s;
     cameraPermission := cameraPermission s; facingMode := facingMode s;
     intervalRef := intervalRef s; renders := renders s;
     intervals := intervals s; next_timer := next_timer s;
     timeouts := timeouts s; images := images s; probes := probes s;
     inflight := x; output := output s |}.

Definition set_output (x : list output_event) (s : state) : state :=
  {| scanning := scanning s; loading := loading s; error := error s;
     cameraPermission := cameraPermission s; facingMode := facingMode s;
     intervalRef := intervalRef s; renders := renders s;
     intervals := intervals s; next_timer := next_timer s;
     timeouts := timeouts s; images := images s; probes := probes s;
     inflight := inflight s; output := x |}.

Definition emit (o : output_event) (s : state) : state :=
  set_output (output s ++ [o]) s.

Definition first_scope : scope :=
  {| seen_cameraPermission := None; bound_startScanning := 0; bound_capture := 0 |}.

Definition scope_at (r : nat) (s : state) : scope :=
  default first_scope (renders s !! r).

(** The render on screen. *)
Definition current (s : state) : nat := pred (length (renders s)).

Section Handlers.

(** [JSON.parse] ([None] when it throws) and [navigator.userAgent]. *)
Variable JSON_parse : string -> option value.
Variable userAgent : string.

(** [checkCameraPermission], up to its [await]. *)
Definition checkCameraPermission (s : state) : state :=
  set_probes (S (probes s)) s.

(** [checkCameraPermission], resumed: the probe stream is stopped at once
    when there is one. *)
Definition permission_settled (granted : bool) (s : state) : state :=
  if granted then set_error VNull (set_cameraPermission (Some true) s)
  else
    emit (ToastError
            (VStr "Camera access denied. Please allow camera access in your browser settings."))
      (emit (ScanError (Error "Camera access denied"))
         (set_error (VStr "Camera access denied. Please allow camera access to scan QR codes.")
            (set_cameraPermission (Some false)
               (emit (ConsoleError "Camera permission error") s)))).

(** [startScanning] as created by render [r]. *)
Definition startScanning (r : nat) (s : state) : state :=
  match seen_cameraPermission (scope_at r s) with
  | Some true =>
      let id := next_timer s in
      set_intervalRef (Some id)
        (set_next_timer (Pos.succ id)
           (set_intervals (intervals s ++ [(id, bound_capture (scope_at r s))])
              (set_error VNull (set_scanning true s))))
  | _ => checkCameraPermission s
  end.

Definition stopScanning (s : state) : state :=
  let s :=
    match intervalRef s with
    | Some id =>
        set_intervalRef None
          (set_intervals (filter (fun t => t.1 ≠ id) (intervals s)) s)
    | None => s
    end in
  set_scanning false s.

Definition toggleCamera (s : state) : state :=
  set_facingMode (match facingMode s with Environment => User | User => Environment end) s.

(** The [Webcam] element, and with it [webcamRef.current], exists unless
    the permission is known to be refused; the canvas always does. *)
Definition webcam_mounted (s : state) : bool :=
  negb (bool_decide (cameraPermission s = Some false)).

(** [captureAndProcessFrame] as created by render [c], up to the load of
    the image: [shot] is [None] when [getScreenshot] has nothing, and
    otherwise tells what the decoder will find in the picture taken.
    (Failures of the canvas and of the image itself are left out.) *)
Definition captureAndProcessFrame (c : nat) (shot : option decoded) (s : state) : state :=
  if negb (webcam_mounted s) then s
  else
    match shot with
    | None => s
    | Some frame => set_images (images s ++ [(frame, c)]) s
    end.

(** The inner [catch] of [processImageData]. *)
Definition rejected_code (e : exn) (s : state) : state :=
  emit (ToastError (VStr (message e)))
    (emit (ScanError e)
       (set_error (VStr (message e))
          (emit (ConsoleError "Error processing QR code data") s))).

Definition processImageData (frame : decoded) (s : state) : state * option value :=
  match frame with
  | NoSymbol => (s, None)
  | Symbol text =>
      let s := emit (ConsoleLog ("QR Code detected: " +:+ text)) s in
      match JSON_parse text with
      | None =>
          (rejected_code (Error "Invalid QR code format. Please scan a valid QR code.")
             (emit (ConsoleError "Failed to parse QR code data") s), None)
      | Some qrData =>
          if negb (truthy qrData) || negb (truthy (opt_member qrData "indexNumber"))
          then (rejected_code (Error "Invalid QR code data. Missing required information.") s,
                None)
          else (s, Some qrData)
      end
  | DecoderThrew msg =>
      (emit (ScanError (Error msg))
         (set_error (VStr ("QR code processing error: " +:+ msg))
            (emit (ConsoleError "Error in QR code processing") s)), None)
  end.

(** The message chosen in the [catch] of [handleQRCodeDetected]. *)
Definition errorMessage (err : exn) : value :=
  match response err with
  | Some r =>
      if (status r =? 404)%Z then VStr "Student not found in the database"
      else if (status r =? 409)%Z then VStr "Attendance already marked for this student today"
      else or_else (opt_member (data r) "message") (VStr "Failed to mark attendance")
  | None => VStr "Failed to mark attendance"
  end.

(** The [catch] and [finally] of [handleQRCodeDetected] as created by
    render [c]. *)
Definition submission_failed (c : nat) (err : exn) (s : state) : state :=
  set_loading false
    (set_timeouts (timeouts s ++ [(3000%Z, c)])
       (emit (ScanError err)
          (emit (ToastError (errorMessage err))
             (set_error (errorMessage err)
                (emit (ConsoleError "Error marking attendance") s))))).

(** [handleQRCodeDetected] as created by render [c], up to its [await].
    Its guard [!qrData || !qrData.indexNumber] lets objects through only. *)
Definition handleQRCodeDetected (c : nat) (qrData : value) (s : state) : state :=
  let s := set_loading true s in
  match qrData with
  | VObj payload =>
      if truthy (default VUndef (payload !! "indexNumber")) then
        match Api.markAttendance_body userAgent payload with
        | Ok _ => set_inflight (inflight s ++ [(payload, c)]) s
        | Throw e =>
            submission_failed c e
              (emit (ConsoleError "Error marking attendance via QR code") s)
        end
      else submission_failed c (Error "Invalid QR code data. Missing student information.") s
  | _ => submission_failed c (Error "Invalid QR code data. Missing student information.") s
  end.

(** The object handed to [onScanSuccess]; [now] is
    [new Date().toISOString()]. *)
Definition scan_outcome (payload : gmap string value) (answer : value) (now : string) : value :=
  VObj (<["timestamp" := or_else (opt_member answer "timestamp") (VStr now)]>
       (<["status" := or_else (opt_member answer "status") (VStr "present")]> payload)).

(** [handleQRCodeDetected], resumed with the outcome of [markAttendance]. *)
Definition submission_settled (c : nat) (payload : gmap string value)
    (outcome : result http_response) (now : string) (s : state) : state :=
  match outcome with
  | Ok answer =>
      if truthy (data answer) then
        set_loading false
          (emit (ScanSuccess (scan_outcome payload (data answer) now))
             (emit (ToastSuccess
                      (or_else (opt_member (data answer) "message")
                               (VStr "Attendance marked successfully"))) s))
      else submission_failed c (Error "Invalid response from server") s
  | Throw err => submission_failed c err s
  end.

(** [image.onload] of a picture taken by the [captureAndProcessFrame] of
    render [c]. *)
Definition image_loaded (c : nat) (frame : decoded) (s : state) : state :=
  match processImageData frame s with
  | (s, Some qrData) => handleQRCodeDetected c qrData (stopScanning s)
  | (s, None) => s
  end.

(** The callback of the [setTimeout] set by the [handleQRCodeDetected] of
    render [c]: the [startScanning] it calls is the one bound in that
    render. *)
Definition cooldown_elapsed (c : nat) (s : state) : state :=
  startScanning (bound_startScanning (scope_at c s)) (set_error VNull s).

(** [onUserMediaError] of the [Webcam] element. *)
Definition webcam_failed (msg : string) (s : state) : state :=
  emit (ScanError (Error msg))
    (set_cameraPermission (Some false)
       (set_error (VStr ("Error accessing camera: " +:+ msg))
          (emit (ConsoleError "Webcam error") s))).

(** One render.  [new_props] tells whether the parent handed over an
    [onScanError] other than the one of the render before.  [useCallback]
    keeps the closure of the earlier render unless a dependency changed;
    then the effect on [cameraPermission] runs, when that changed. *)
Definition render (new_props : bool) (s : state) : state :=
  let r := length (renders s) in
  let sc :=
    match last (renders s) with
    | None =>
        {| seen_cameraPermission := cameraPermission s;
           bound_startScanning := r; bound_capture := r |}
    | Some before =>
        {| seen_cameraPermission := cameraPermission s;
           bound_startScanning :=
             if bool_decide (cameraPermission s = seen_cameraPermission before)
             then bound_startScanning before else r;
           bound_capture := if new_props then r else bound_capture before |}
    end in
  let changed :=
    match last (renders s) with
    | None => true
    | Some before =>
        negb (bool_decide (cameraPermission s = seen_cameraPermission before))
    end in
  let s := set_renders (renders s ++ [sc]) s in
  if changed && bool_decide (cameraPermission s = Some true)
  then startScanning (bound_startScanning sc) s
  else s.

Definition unmounted : state :=
  {| scanning := false; loading := false; error := VNull;
     cameraPermission := None; facingMode := Environment;
     intervalRef := None; renders := [];
     intervals := []; next_timer := 1%positive; timeouts := []; images := [];
     probes := 0; inflight := []; output := [] |}.

(** The first render and the effect of the mount, which asks for the
    camera.  (The enumeration of the devices, which feeds the button that
    switches cameras, is left out.) *)
Definition mounted : state := checkCameraPermission (render false unmounted).

(** What can happen to a mounted scanner. *)
Inductive event :=
| PermissionSettled (granted : bool)
| IntervalFired (id : positive) (shot : option decoded)
| ImageLoaded (i : nat)
| SubmissionSettled (i : nat) (outcome : result http_response) (now : string)
| TimeoutFired (i : nat)
| ScanAgainClicked
| TryAgainClicked
| ToggleCameraClicked
| WebcamFailed (msg : string)
| ParentRendered.

(** The handler an event runs, if it can run at all: a timer fires only
    while it is armed, a button is pressed only while it is shown (the one
    that switches cameras also needs a second camera, which is left out
    with the enumeration). *)
Definition handle (e : event) (s : state) : state :=
  match e with
  | PermissionSettled granted =>
      match probes s with
      | S n => permission_settled granted (set_probes n s)
      | O => s
      end
  | IntervalFired id shot =>
      match filter (fun t => t.1 = id) (intervals s) with
      | (_, c) :: _ => captureAndProcessFrame c shot s
      | [] => s
      end
  | ImageLoaded i =>
      match images s !! i with
      | Some (frame, c) => image_loaded c frame (set_images (delete i (images s)) s)
      | None => s
      end
  | SubmissionSettled i outcome now =>
      match inflight s !! i with
      | Some (payload, c) =>
          submission_settled c payload outcome now
            (set_inflight (delete i (inflight s)) s)
      | None => s
      end
  | TimeoutFired i =>
      match timeouts s !! i with
      | Some (_, c) => cooldown_elapsed c (set_timeouts (delete i (timeouts s)) s)
      | None => s
      end
  | ScanAgainClicked =>
      if negb (scanning s) && negb (loading s) && negb (truthy (error s))
      then startScanning (bound_startScanning (scope_at (current s) s)) s
      else s
  | TryAgainClicked =>
      if bool_decide (cameraPermission s = Some false) then checkCameraPermission s else s
  | ToggleCameraClicked => if webcam_mounted s then toggleCamera s else s
  | WebcamFailed msg => if webcam_mounted s then webcam_failed msg s else s
  | ParentRendered => s
  end.

(** An event runs its handler and the component renders again. *)
Definition step (s : state) (e : event) : state :=
  render (match e with ParentRendered => true | _ => false end) (handle e s).

Definition run (events : list event) : state := foldl step mounted events.

End Handlers.

End Scanner.

(** ** The outcome object of the file scanner and of the reader

    [DigitalQRScanner.handleQRCodeDetected] and [handleScan] build the
    same [processedData] from the body [answer] of the response (known to
    be truthy there), the payload and [now], the value of
    [new Date().toISOString()]. *)

Definition processedData (answer : value) (qrData : gmap string value) (now : string) : value :=
  let studentInfo := opt_member answer "studentInfo" in
  let student := opt_member answer "student" in
  let of_card (k : string) := default VUndef (qrData !! k) in
  VObj (<["id" := opt_member studentInfo "id"]>
       (<["indexNumber" := or_else (opt_member studentInfo "indexNumber") (of_card "indexNumber")]>
       (<["name" := or_else (opt_member studentInfo "name") (of_card "name")]>
       (<["status" := or_else (opt_member answer "attendanceStatus") (VStr "entered")]>
       (<["timestamp" := VStr now]>
       (<["messageStatus" :=
            or_else (or_else (opt_member studentInfo "messageStatus")
                             (opt_member answer "messageStatus")) (VStr "pending")]>
       (<["parent_telephone" :=
            or_else (opt_member studentInfo "parent_telephone") (of_card "parent_telephone")]>
       (<["student_email" :=
            or_else (or_else (opt_member studentInfo "student_email")
                             (opt_member student "student_email")) (VStr "")]>
       (<["address" :=
            or_else (or_else (opt_member studentInfo "address")
                             (opt_member student "address")) (VStr "")]> ∅))))))))).

(** ** The file scanner (components/scanner/QRScanner.jsx, [DigitalQRScanner]) *)

Module Digital.

Record state := {
  loading : bool;
  error : value;
  apiError : value;
  processingStatus : string;
  inflight : list (gmap string value);
  output : list output_event
}.

Definition initial : state :=
  {| loading := false; error := VNull; apiError := VNull; processingStatus := "";
     inflight := []; output := [] |}.

Definition set_loading (x : bool) (s : state) : state :=
  {| loading := x; error := error s; apiError := apiError s;
     processingStatus := processingStatus s; inflight := inflight s; output := output s |}.

Definition set_error (x : value) (s : state) : state :=
  {| loading := loading s; error := x; apiError := apiError s;
     processingStatus := processingStatus s; inflight := inflight s; output := output s |}.

Definition set_apiError (x : value) (s : state) : state :=
  {| loading := loading s; error := error s; apiError := x;
     processingStatus := processingStatus s; inflight := inflight s; output := output s |}.

Definition set_processingStatus (x : string) (s : state) : state :=
  {| loading := loading s; error := error s; apiError := apiError s;
     processingStatus := x; inflight := inflight s; output := output s |}.

Definition set_inflight (x : list (gmap string value)) (s : state) : state :=
  {| loading := loading s; error := error s; apiError := apiError s;
     processingStatus := processingStatus s; inflight := x; output := output s |}.

Definition emit (o : output_event) (s : state) : state :=
  {| loading := loading s; error := error s; apiError := apiError s;
     processingStatus := processingStatus s; inflight := inflight s;
     output := output s ++ [o] |}.

(** [resetScanner], on the state kept here (the file input and the
    preview are left out). *)
Definition resetScanner (s : state) : state :=
  set_loading false (set_processingStatus "" (set_apiError VNull (set_error VNull s))).

Section Handlers.

Variable JSON_parse : string -> option value.
(** [new URL(text)], [None] when it throws, and [searchParams.get] of the
    result, [None] for [null]. *)
Variable URL_searchParams : string -> option (string -> option string).
Variable userAgent : string.

(** The reading of the text of a symbol in [detectQRCode]: JSON first,
    then a link that carries [indexNumber=], then the text as it is. *)
Definition interpret (text : string) : result value :=
  match JSON_parse text with
  | Some qrData => Ok qrData
  | None =>
      if includes text "indexNumber=" then
        match URL_searchParams text with
        | None => Throw (Error "Invalid URL")
        | Some get =>
            match get "indexNumber" with
            | Some indexNumber =>
                if String.eqb indexNumber "" then Throw (Error "Invalid QR code URL format")
                else Ok (VObj {[ "indexNumber" := VStr indexNumber;
                                 "name" := from_option VStr VNull (get "name") ]})
            | None => Throw (Error "Invalid QR code URL format")
            end
        end
      else Ok (VObj {[ "rawData" := VStr text ]})
  end.

(** The [catch] of [handleQRCodeDetected]. *)
Definition submission_failed (err : exn) (s : state) : state :=
  let shown := if String.eqb (message err) "" then "Failed to process attendance"
               else message err in
  emit (ScanError err)
    (emit (ToastError (VStr shown))
       (set_apiError (VStr shown)
          (set_loading false (emit (ConsoleError "Error processing QR code") s)))).

(** [handleQRCodeDetected], up to its [await]. *)
Definition handleQRCodeDetected (qrData : value) (s : state) : state :=
  let s := emit (ConsoleLog "Processing QR data") s in
  match member qrData "indexNumber" with
  | Throw e => submission_failed e s
  | Ok indexNumber =>
      match qrData with
      | VObj payload =>
          if truthy indexNumber then
            let s := set_processingStatus "Marking attendance..." s in
            match Api.markAttendance_body userAgent payload with
            | Ok _ => set_inflight (inflight s ++ [payload]) s
            | Throw e =>
                submission_failed e
                  (emit (ConsoleError "Error marking attendance via QR code") s)
            end
          else submission_failed
                 (Error "Invalid QR code data. Missing student index number.") s
      | _ => submission_failed
               (Error "Invalid QR code data. Missing student index number.") s
      end
  end.

(** [handleQRCodeDetected], resumed with the outcome of [markAttendance]. *)
Definition submission_settled (payload : gmap string value)
    (outcome : result http_response) (now : string) (s : state) : state :=
  match outcome with
  | Throw err => submission_failed err s
  | Ok answer =>
      let s := emit (ConsoleLog "API response") s in
      if truthy (data answer) then
        resetScanner
          (emit (ToastSuccess (or_else (opt_member (data answer) "message")
                                       (VStr "Attendance marked successfully")))
             (emit (ScanSuccess (processedData (data answer) payload now)) s))
      else submission_failed (Error "Invalid response from server") s
  end.

Definition detectQRCode (frame : decoded) (s : state) : state :=
  match frame with
  | Symbol text =>
      let s := set_processingStatus "QR code found! Verifying..."
                 (emit (ConsoleLog ("QR Code detected: " +:+ text)) s) in
      match interpret text with
      | Ok qrData => handleQRCodeDetected qrData s
      | Throw _ =>
          set_error
            (VStr "QR code found but data format is not recognized. Please try a different QR code.")
            (set_loading false (emit (ConsoleError "Failed to process QR code data") s))
      end
  | NoSymbol =>
      set_error
        (VStr "No QR code found in the image. Please try a different image with a clearer QR code.")
        (set_loading false s)
  | DecoderThrew msg =>
      set_error (VStr ("Error processing image: " +:+ msg
                       +:+ ". Please try a different image."))
        (set_loading false (emit (ConsoleError "Error processing QR code") s))
  end.

End Handlers.

End Digital.

(** ** The reader (components/QRScanner.jsx, [QRScanner] over [QrReader]) *)

Module Reader.

Record state := {
  hasPermission : option bool;
  loading : bool;
  error : value;
  scannedData : value;
  scanning : bool;
  inflight : list (gmap string value);
  output : list output_event
}.

Definition initial : state :=
  {| hasPermission := None; loading := false; error := VNull; scannedData := VNull;
     scanning := true; inflight := []; output := [] |}.

Definition set_loading (x : bool) (s : state) : state :=
  {| hasPermission := hasPermission s; loading := x; error := error s;
     scannedData := scannedData s; scanning := scanning s; inflight := inflight s;
     output := output s |}.

Definition set_error (x : value) (s : state) : state :=
  {| hasPermission := hasPermission s; loading := loading s; error := x;
     scannedData := scannedData s; scanning := scanning s; inflight := inflight s;
     output := output s |}.

Definition set_scannedData (x : value) (s : state) : state :=
  {| hasPermission := hasPermission s; loading := loading s; error := error s;
     scannedData := x; scanning := scanning s; inflight := inflight s;
     output := output s |}.

Definition set_scanning (x : bool) (s : state) : state :=
  {| hasPermission := hasPermission s; loading := loading s; error := error s;
     scannedData := scannedData s; scanning := x; inflight := inflight s;
     output := output s |}.

Definition set_inflight (x : list (gmap string value)) (s : state) : state :=
  {| hasPermission := hasPermission s; loading := loading s; error := error s;
     scannedData := scannedData s; scanning := scanning s; inflight := x;
     output := output s |}.

Definition emit (o : output_event) (s : state) : state :=
  {| hasPermission := hasPermission s; loading := loading s; error := error s;
     scannedData := scannedData s; scanning := scanning s; inflight := inflight s;
     output := output s ++ [o] |}.

Section Handlers.

Variable JSON_parse : string -> option value.
Variable userAgent : string.

(** The reading of the text in [handleScan]: the object assigned in the
    [catch] of the parse is dropped by the [throw] that follows it. *)
Definition parse (text : string) : result value :=
  match JSON_parse text with
  | Some qrData => Ok qrData
  | None => Throw (Error "Invalid QR code format. Please scan a valid student QR code.")
  end.

(** The [catch] and [finally] of [handleScan]. *)
Definition scan_failed (err : exn) (s : state) : state :=
  let shown := if String.eqb (message err) "" then "Failed to process QR code"
               else message err in
  set_loading false
    (emit (ScanError err)
       (emit (ToastError (VStr shown))
          (set_error (VStr shown) (emit (ConsoleError "Error processing QR code") s)))).

(** [handleScan] up to its [await].  [seen_loading] is [loading] as the
    render that created the closure saw it; [text] is [None] when the
    reader reports no result. *)
Definition handleScan (seen_loading : bool) (text : option string) (s : state) : state :=
  match text with
  | None => s
  | Some text =>
      if seen_loading then s
      else
        let s := emit (ConsoleLog ("QR code scanned: " +:+ text)) (set_loading true s) in
        match parse text with
        | Throw e => scan_failed e s
        | Ok qrData =>
            match member qrData "indexNumber" with
            | Throw e => scan_failed e s
            | Ok indexNumber =>
                match qrData with
                | VObj card =>
                    if negb (truthy indexNumber)
                       || negb (truthy (default VUndef (card !! "name")))
                    then scan_failed
                           (Error "Invalid QR code. Missing required student information.") s
                    else
                      let card :=
                        if truthy (default VUndef (card !! "parent_telephone")) then card
                        else <["parent_telephone" := VStr ""]> card in
                      match Api.markAttendance_body userAgent card with
                      | Ok _ => set_inflight (inflight s ++ [card]) s
                      | Throw e =>
                          scan_failed e
                            (emit (ConsoleError "Error marking attendance via QR code") s)
                      end
                | _ => scan_failed
                         (Error "Invalid QR code. Missing required student information.") s
                end
            end
        end
  end.

(** [handleScan], resumed with the outcome of [markAttendance]. *)
Definition scan_settled (card : gmap string value)
    (outcome : result http_response) (now : string) (s : state) : state :=
  match outcome with
  | Throw err => scan_failed err s
  | Ok answer =>
      let s := emit (ConsoleLog "API response") s in
      if truthy (data answer) then
        let processed := processedData (data answer) card now in
        set_loading false
          (set_scanning false
             (emit (ScanSuccess processed)
                (emit (ToastSuccess
                         (VStr (to_text (opt_member processed "name") +:+ "'s attendance "
                                +:+ (if is_string (opt_member processed "status") "left"
                                     then "exit" else "entry")
                                +:+ " recorded!")))
                   (set_scannedData processed s))))
      else scan_failed (Error "Invalid response from server") s
  end.

End Handlers.

End Reader.


(** ** Closures of the live scanner that outlive their render *)

(** Render [c] saw no permission yet, and the [startScanning] it binds is
    the one of the first render. *)
Definition stale (rs : list Scanner.scope) (c : nat) : Prop :=
  ∃ sc, rs !! c = Some sc
        ∧ Scanner.seen_cameraPermission sc = None
        ∧ Scanner.bound_startScanning sc = 0.

(** What every render of a run without a refusal looks like: either it
    saw no permission yet, binds the first [startScanning] and a
    [captureAndProcessFrame] of such a render; or it saw the permission
    granted, and the [startScanning] it binds comes from a render that saw
    it granted too and whose [captureAndProcessFrame] is one of a render
    that saw none. *)
Definition scope_ok (rs : list Scanner.scope) (sc : Scanner.scope) : Prop :=
  (Scanner.seen_cameraPermission sc = None
   ∧ Scanner.bound_startScanning sc = 0
   ∧ stale rs (Scanner.bound_capture sc))
  ∨ (Scanner.seen_cameraPermission sc = Some true
     ∧ ∃ sk, rs !! Scanner.bound_startScanning sc = Some sk
             ∧ Scanner.seen_cameraPermission sk = Some true
             ∧ stale rs (Scanner.bound_capture sk)).

(** Every callback that is pending, and every one a reachable
    [startScanning] can arm, belongs to a render that saw no permission. *)
Record closures_stale (s : Scanner.state) : Prop := {
  cs_first : Scanner.renders s !! 0 = Some Scanner.first_scope;
  cs_scopes : ∀ r sc, Scanner.renders s !! r = Some sc → scope_ok (Scanner.renders s) sc;
  cs_intervals : ∀ id c, (id, c) ∈ Scanner.intervals s → stale (Scanner.renders s) c;
  cs_images : ∀ f c, (f, c) ∈ Scanner.images s → stale (Scanner.renders s) c;
  cs_inflight : ∀ p c, (p, c) ∈ Scanner.inflight s → stale (Scanner.renders s) c;
  cs_timeouts : ∀ d c, (d, c) ∈ Scanner.timeouts s → stale (Scanner.renders s) c
}.

(** The render on screen shows the current permission. *)
Definition rendered (s : Scanner.state) : Prop :=
  ∃ sc, last (Scanner.renders s) = Some sc
        ∧ Scanner.seen_cameraPermission sc = Scanner.cameraPermission s.

(** The permission has just been granted and the render on screen has
    not seen it yet. *)
Definition granted_now (s : Scanner.state) : Prop :=
  ∃ sc, last (Scanner.renders s) = Some sc
        ∧ Scanner.seen_cameraPermission sc = None
        ∧ Scanner.cameraPermission s = Some true.

(** The events of a run in which the camera is never refused. *)
Definition never_refused (e : Scanner.event) : bool :=
  match e with
  | Scanner.PermissionSettled false | Scanner.WebcamFailed _ => false
  | _ => true
  end.

(** ** Inputs used in the examples *)

Module Sample.

(** The double quote. *)
Definition dq : string := String "034"%char "".

(** The text of a student card, [{"indexNumber":"S1","name":"Ann"}], and
    the object it stands for. *)
Definition card_text : string :=
  "{" +:+ dq +:+ "indexNumber" +:+ dq +:+ ":" +:+ dq +:+ "S1" +:+ dq +:+ ","
      +:+ dq +:+ "name" +:+ dq +:+ ":" +:+ dq +:+ "Ann" +:+ dq +:+ "}".

Definition card : gmap string value :=
  {[ "indexNumber" := VStr "S1"; "name" := VStr "Ann" ]}.

(** [JSON.parse] on the texts of the examples: the card, the empty object
    [{}], and texts that are no JSON at all, such as a bare index number
    or a link. *)
Definition JSON_parse (text : string) : option value :=
  if String.eqb text card_text then Some (VObj card)
  else if String.eqb text "{}" then Some (VObj ∅)
  else None.

Definition userAgent : string := "Mozilla/5.0".

(** A link to a student, and [new URL] with [searchParams.get] on it;
    the other texts of the examples are no links. *)
Definition link : string := "https://school.example/scan?indexNumber=S1&name=Ann".

Definition URL_searchParams (text : string) : option (string -> option string) :=
  if String.eqb text link
  then Some (fun k => if String.eqb k "indexNumber" then Some "S1"
                      else if String.eqb k "name" then Some "Ann" else None)
  else None.

(** An answer of the backend with status 409. *)
Definition conflict : exn :=
  {| message := "Request failed with status code 409";
     response := Some {| status := 409;
                         data := VObj {[ "message" := VStr "already marked today" ]} |} |}.

(** An answer of the attendance endpoint in the shape its interface
    gives it, [{studentInfo, attendanceStatus, message}], for a student
    who has just entered. *)
Definition entered : http_response :=
  {| status := 200;
     data := VObj {[ "studentInfo" := VObj {[ "id" := VStr "42";
                                             "indexNumber" := VStr "S1";
                                             "name" := VStr "Ann" ]};
                     "attendanceStatus" := VStr "entered";
                     "message" := VStr "Attendance marked" ]} |}.

End Sample.

(** The [status] and the [timestamp] of every outcome handed to
    [onScanSuccess], oldest first. *)
Definition outcomes (out : list output_event) : list (value * value) :=
  omap (fun o => match o with
                 | ScanSuccess v => Some (opt_member v "status", opt_member v "timestamp")
                 | _ => None
                 end) out.

(** ** More of the string methods the services use *)

Module Text.





(** [s.slice(n)] *)
Fixpoint slice (n : nat) (s : string) : string :=
  match n, s with
  | S n, String _ rest => slice n rest
  | _, _ => s
  end.

(** [s.replace(pat, rep)] with a string for a pattern: the first
    occurrence only. *)
Fixpoint replace (pat rep s : string) : string :=
  if String.prefix pat s then rep +:+ slice (String.length pat) s
  else
    match s with
    | EmptyString => EmptyString
    | String c rest => String c (replace pat rep rest)
    end.

(** [s.split(sep)[0]] for a separator of one character. *)
Fixpoint before (sep : ascii) (s : string) : string :=
  match s with
  | EmptyString => EmptyString
  | String c rest => if Ascii.eqb c sep then EmptyString else String c (before sep rest)
  end.

(** The serialisation of [URLSearchParams.toString()]: letters, digits
    and [*-._] stand for themselves, a space becomes [+], and every other
    code point is written as the bytes of its UTF-8 form, each as [%]
    and two upper-case hexadecimal digits. *)
Definition hex (n : nat) : ascii :=
  if (n <? 10)%nat then ascii_of_nat (48 + n) else ascii_of_nat (55 + n).

Definition percent (n : nat) : string :=
  String "%" (String (hex (n / 16)) (String (hex (n mod 16)) EmptyString)).

Definition unreserved (c : ascii) : bool :=
  let n := nat_of_ascii c in
  ((48 <=? n) && (n <=? 57) || (65 <=? n) && (n <=? 90) || (97 <=? n) && (n <=? 122)
   || (n =? 42) || (n =? 45) || (n =? 46) || (n =? 95))%nat.

Definition encode_unit (c : ascii) : string :=
  let n := nat_of_ascii c in
  if unreserved c then String c EmptyString
  else if (n =? 32)%nat then "+"
  else if (n <? 128)%nat then percent n
  else percent (192 + n / 64) +:+ percent (128 + n mod 64).

Fixpoint encode (s : string) : string :=
  match s with
  | EmptyString => EmptyString
  | String c rest => encode_unit c +:+ encode rest
  end.

(** [name=value] pairs joined by [&]. *)
Fixpoint serialize (pairs : list (string * string)) : string :=
  match pairs with
  | [] => ""
  | [(k, v)] => encode k +:+ "=" +:+ encode v
  | (k, v) :: rest => encode k +:+ "=" +:+ encode v +:+ "&" +:+ serialize rest
  end.

End Text.

(** ** The services of the API client over the browser (services/api.js)

    What a service does besides answering: the exchanges it puts on the
    wire, its console lines (by their label), the toasts of
    [react-toastify], the questions of [window.confirm], what it keeps in
    the two storages and where it sends the window. *)

Module Client.

Inductive console_level := LOG | WARN | ERROR.
Inductive toast_type := TSuccess | TError | TWarning | TLoading.

(** A request as axios is asked to send it: the configuration, the
    [params] to be written into the query and the [responseType]. *)
Record exchange := {
  sent : Api.request;
  params : value;
  responseType : option string
}.

Inductive effect :=
| Wire (x : exchange)
| Console (l : console_level) (label : string)
| Toast (t : toast_type) (content : value)
| ToastUpdate (id : nat) (t : toast_type) (content : value)
| Confirm (question : string).

Record browser := {
  localStorage : gmap string string;
  sessionStorage : gmap string string;
  href : option string;          (* the last value assigned to [window.location.href] *)
  trace : list effect            (* oldest first *)
}.

Definition set_localStorage (x : gmap string string) (b : browser) : browser :=
  {| localStorage := x; sessionStorage := sessionStorage b; href := href b; trace := trace b |}.

Definition set_sessionStorage (x : gmap string string) (b : browser) : browser :=
  {| localStorage := localStorage b; sessionStorage := x; href := href b; trace := trace b |}.

Definition set_href (x : option string) (b : browser) : browser :=
  {| localStorage := localStorage b; sessionStorage := sessionStorage b; href := x;
     trace := trace b |}.

Definition note (e : effect) (b : browser) : browser :=
  {| localStorage := localStorage b; sessionStorage := sessionStorage b; href := href b;
     trace := trace b ++ [e] |}.

(** The exchanges, the toasts and the questions of a trace. *)
Definition wire (t : list effect) : list exchange :=
  omap (fun e => match e with Wire x => Some x | _ => None end) t.

Definition toasts (t : list effect) : list (toast_type * value) :=
  omap (fun e => match e with Toast k c => Some (k, c) | _ => None end) t.

Definition questions (t : list effect) : list string :=
  omap (fun e => match e with Confirm q => Some q | _ => None end) t.

(** *** Computations that act on the browser and may throw *)

Definition M (A : Type) : Type := browser -> browser * result A.

Definition ret {A} (a : A) : M A := fun b => (b, Ok a).

Definition throw {A} (e : exn) : M A := fun b => (b, Throw e).

Definition bind {A B} (m : M A) (k : A -> M B) : M B :=
  fun b =>
    match m b with
    | (b', Ok a) => k a b'
    | (b', Throw e) => (b', Throw e)
    end.

(** [try { m } catch (e) { h e }] *)
Definition try_catch {A} (m : M A) (h : exn -> M A) : M A :=
  fun b =>
    match m b with
    | (b', Throw e) => h e b'
    | done => done
    end.

Definition lift {A} (r : result A) : M A := fun b => (b, r).

Definition act (f : browser -> browser) : M unit := fun b => (f b, Ok tt).

Definition console (l : console_level) (label : string) : M unit := act (note (Console l label)).

Definition toast (t : toast_type) (content : value) : M unit := act (note (Toast t content)).


Definition toast_update (id : nat) (t : toast_type) (content : value) : M unit :=
  act (note (ToastUpdate id t content)).

Definition local_set (k v : string) : M unit :=
  act (fun b => set_localStorage (<[k := v]> (localStorage b)) b).

Definition local_remove (k : string) : M unit :=
  act (fun b => set_localStorage (delete k (localStorage b)) b).

Definition session_set (k v : string) : M unit :=
  act (fun b => set_sessionStorage (<[k := v]> (sessionStorage b)) b).

Definition session_remove (k : string) : M unit :=
  act (fun b => set_sessionStorage (delete k (sessionStorage b)) b).

Definition read {A} (f : browser -> A) : M A := fun b => (b, Ok (f b)).

#[global] Instance M_ret : MRet M := @ret.
#[global] Instance M_bind : MBind M := fun A B k m => bind m k.

Definition TypeError (msg : string) : exn := Error msg.
Definition RangeError (msg : string) : exn := Error msg.

(** [storage.getItem('token')] behind a truthiness test, first in the
    local storage and then in the session storage. *)
Definition current_token (b : browser) : option string :=
  match Api.stored_token (localStorage b) with
  | Some t => Some t
  | None => Api.stored_token (sessionStorage b)
  end.

Definition probe : exchange :=
  {| sent := Api.health_probe; params := VUndef; responseType := None |}.

(** What the caller adds to a request. *)
Record options := {
  body : option value;
  query : value;
  headers : gmap string string;
  expect : option string          (* [responseType] *)
}.

Definition plain : options :=
  {| body := None; query := VUndef; headers := ∅; expect := None |}.

Definition with_body (v : value) : options :=
  {| body := Some v; query := VUndef; headers := ∅; expect := None |}.

(** The configuration of a request: the headers of the call come over
    the defaults of the instance. *)
Definition config (method url : string) (o : options) : Api.request :=
  {| Api.req_method := method;
     Api.req_url := Api.API_URL +:+ url;
     Api.req_timeout := 15000;
     Api.req_headers := headers o ∪ {[ "Content-Type" := "application/json" ]};
     Api.req_data := body o |}.

(** What the backend makes of an exchange: the response or the
    rejection, and the headers that came with it. *)
Record reply := {
  settled : result http_response;
  reply_headers : gmap string string
}.

Record server := {
  health : option http_response;      (* the answer to the probe, if any *)
  serve : exchange -> reply
}.

(** What the client takes from the number functions of the runtime:
    [parseInt], [None] for [NaN], otherwise the whole number it yields;
    and the text that [Math.ceil(n / 60)] leaves in a template for a
    whole number [n] of 2^53 or more in size, where the division rounds
    to the nearest double and the text is the one of that double. *)
Record runtime := {
  parseInt : value -> option Z;
  minutes_beyond : Z -> string
}.

(** The runtime of the examples: [parseInt] on the texts they use, of
    which "90" alone is a number. *)
Definition sample_runtime : runtime :=
  {| parseInt := fun v => match v with VStr "90" => Some 90%Z | _ => None end;
     minutes_beyond := fun _ => "" |}.

Section Services.

Variable js : runtime.

(** [Math.ceil(n / 60)] for a whole number [n] below 2^53 in size.  A
    double holds such an [n] exactly, and its quotient by 60, below 2^48
    in size, is rounded by 1/64 at most; the exact quotient is whole or
    at least 1/60 away from the whole numbers around it, so the quotient
    in doubles is the same whole number or lies strictly between the
    same two, and rounds up to the exact ceiling. *)
Definition minutes (n : Z) : Z := (- ((- n) / 60))%Z.

(** [${Math.ceil(n / 60)}] *)
Definition minutes_text (n : Z) : string :=
  if (Z.abs n <? 2 ^ 53)%Z then pretty (minutes n) else minutes_beyond js n.

(** The rejection handler of the response interceptor (lines 57-119).
    [url] is [config.url] of the request, [hdrs] the headers of the
    response in [error]. *)
Definition response_rejected (url : string) (hdrs : gmap string string)
    (error : exn) : M http_response :=
  match response error with
  | None =>
      toast TError (VStr "Cannot connect to server. Please check your connection and try again.");;
      throw (Error "Server connection failed")
  | Some r =>
      if (status r =? 0)%Z then
        toast TError (VStr "Cannot connect to server. Please check your connection and try again.");;
        throw (Error "Server connection failed")
      else if (status r =? 401)%Z then
        local_remove "token";;
        local_remove "user";;
        act (set_href (Some "/login"));;
        throw error
      else if (status r =? 403)%Z then
        toast TError (VStr "You do not have permission to perform this action");;
        throw error
      else if (status r =? 400)%Z && includes url "/reports/" then
        let message := or_else (opt_member (data r) "message")
                               (VStr "Invalid report parameters") in
        (if is_string (opt_member (data r) "error") "future_date" then
           toast TError (VStr "Reports cannot be generated for future dates")
         else if is_string (opt_member (data r) "error") "date_range_invalid" then
           toast TError (VStr "Invalid date range. The start date must be before the end date.")
         else if is_string (opt_member (data r) "error") "no_data" then
           toast TWarning (VStr "No attendance data found for the selected period")
         else toast TError message);;
        throw error
      else if (status r =? 422)%Z then
        toast TError (or_else (opt_member (data r) "message") (VStr "Validation failed"));;
        throw error
      else if (status r =? 429)%Z then
        let retryAfter :=
          match parseInt js (from_option VStr VUndef (hdrs !! "retry-after")) with
          | Some n => if (n =? 0)%Z then 60%Z else n
          | None => 60%Z
          end in
        toast TWarning
          (VStr ("Too many attempts. Please wait " +:+ minutes_text retryAfter
                 +:+ " minutes."));;
        throw error
      else if (500 <=? status r)%Z then
        toast TError (VStr "Server error. Please try again later.");;
        throw error
      else throw error
  end.

(** One call through the [api] instance: the request interceptor with
    its probe, the dispatch, and the response interceptor, chained as
    axios chains them. *)
Definition api (net : server) (method url : string) (o : options) : M http_response :=
  act (note (Wire probe));;
  b ← read id;
  match Api.request_interceptor (health net) (localStorage b) (sessionStorage b)
          (config method url o) with
  | Throw e => response_rejected url ∅ e
  | Ok cfg =>
      let x := {| sent := cfg; params := query o; responseType := expect o |} in
      act (note (Wire x));;
      match settled (serve net x) with
      | Ok answer => ret answer
      | Throw e => response_rejected url (reply_headers (serve net x)) e
      end
  end.

(** [JSON.stringify] of a value that came out of a response. *)
Variable JSON_stringify : value -> string.
(** [navigator.userAgent] *)
Variable userAgent : string.

(** *** [authService] *)

(** The [if (!error.response) toast.error(...)] of the [catch] blocks. *)
Definition toast_unreachable (error : exn) (msg : string) : M unit :=
  match response error with
  | None => toast TError (VStr msg)
  | Some _ => mret tt
  end.

(** [authService.login] (lines 124-164). *)
Definition login (net : server) (credentials : value) : M http_response :=
  try_catch
    (_ ← lift (member credentials "email");
     _ ← lift (member credentials "password");
     console LOG "Attempting login with:";;
     response ← api net "POST" "/admin/login" (with_body credentials);
     console LOG "Login response received:";;
     (if truthy (data response) then
        let token := or_else (opt_member (data response) "token")
                             (opt_member (data response) "accessToken") in
        let userData := or_else (or_else (opt_member (data response) "user")
                                         (opt_member (data response) "admin"))
                                (opt_member (data response) "userData") in
        if truthy token then
          local_set "token" (to_text token);;
          if truthy userData then local_set "user" (JSON_stringify userData) else mret tt
        else mret tt
      else mret tt);;
     mret response)
    (fun error =>
       console ERROR "Login error details:";;
       toast_unreachable error "Cannot connect to server. Please check if the server is running.";;
       throw error).

(** The three [removeItem] calls of [logout]. *)
Definition clear_session : M unit :=
  local_remove "token";; local_remove "user";; session_remove "token".

(** [authService.logout] (lines 166-191). *)
Definition logout (net : server) : M http_response :=
  try_catch
    (response ← api net "POST" "/admin/logout" plain;
     clear_session;;
     console LOG "User logged out successfully";;
     mret response)
    (fun error =>
       console ERROR "Logout error:";;
       clear_session;;
       toast_unreachable error "Cannot connect to server. Your session has been cleared locally.";;
       throw error).




(** [authService.updateProfile] (lines 261-298). *)
Definition updateProfile (net : server) (changes : value) : M http_response :=
  try_catch
    (console LOG "Updating profile with data:";;
     response ← api net "PATCH" "/admin/profile" (with_body changes);
     console LOG "Profile update response:";;
     (let updatedUser := or_else (opt_member (data response) "admin")
                                 (opt_member (data response) "user") in
      if truthy (data response) && truthy updatedUser then
        b ← read id;
        if bool_decide (is_Some (Api.stored_token (localStorage b))) then
          local_set "user" (JSON_stringify updatedUser)
        else if bool_decide (is_Some (Api.stored_token (sessionStorage b))) then
          session_set "user" (JSON_stringify updatedUser)
        else mret tt
      else mret tt);;
     mret response)
    (fun error =>
       console ERROR "Profile update error details:";;
       toast_unreachable error "Cannot connect to server. Please check if the server is running.";;
       throw error).

(** [authService.refreshToken] (lines 337-360). *)
Definition refreshToken : M value :=
  b ← read id;
  match current_token b with
  | None => throw (Error "No token available to refresh")
  | Some token =>
      console LOG "Token refresh requested - using current token as fallback";;
      mret (VObj {[ "data" := VObj {[ "token" := VStr token ]} ]})
  end.

(** *** [studentService] *)

(** [if (params.k) queryParams.append('k', params.k)] *)
Definition append_if (params : value) (k : string) (pairs : list (string * string))
    : result (list (string * string)) :=
  match member params k with
  | Throw e => Throw e
  | Ok v => Ok (if truthy v then pairs ++ [(k, to_text v)] else pairs)
  end.

(** The parameters [getStudentAttendanceHistory] puts into the query,
    in the order of its six tests. *)
Definition history_query (params : value) : result (list (string * string)) :=
  match append_if params "startDate" [] with
  | Throw e => Throw e
  | Ok q =>
  match append_if params "endDate" q with
  | Throw e => Throw e
  | Ok q =>
  match append_if params "limit" q with
  | Throw e => Throw e
  | Ok q =>
  match append_if params "offset" q with
  | Throw e => Throw e
  | Ok q =>
  match append_if params "sortBy" q with
  | Throw e => Throw e
  | Ok q => append_if params "sortOrder" q
  end end end end end.

(** The path and query it asks for. *)
Definition history_url (studentId params : value) : result string :=
  match history_query params with
  | Throw e => Throw e
  | Ok q =>
      let queryString := Text.serialize q in
      Ok ("/admin/students/" +:+ to_text studentId +:+ "/attendance"
          +:+ (if String.eqb queryString "" then "" else "?" +:+ queryString))
  end.

(** [studentService.getStudentAttendanceHistory] (lines 402-424);
    [params] is [{}] when the caller passes none. *)
Definition getStudentAttendanceHistory (net : server) (studentId params : value) : M value :=
  try_catch
    (url ← lift (history_url studentId (match params with VUndef => VObj ∅ | p => p end));
     response ← api net "GET" url plain;
     mret (data response))
    (fun error =>
       console ERROR "Error fetching student attendance history:";;
       toast TError (VStr "Failed to fetch attendance history. Please try again.");;
       throw error).

(** [studentService.clearAttendanceHistory] (lines 426-441);
    [confirmed] is the answer to [window.confirm]. *)
Definition clearAttendanceHistory (confirmed : bool) (net : server) (studentId : value)
    : M value :=
  try_catch
    (act (note (Confirm "Are you sure you want to clear all attendance history for this student? This action cannot be undone."));;
     if negb confirmed then mret (VObj {[ "cancelled" := VBool true ]})
     else
       response ← api net "DELETE"
                    ("/admin/students/" +:+ to_text studentId +:+ "/attendance/clear") plain;
       toast TSuccess (VStr "Successfully cleared attendance history");;
       mret (data response))
    (fun error =>
       console ERROR "Error clearing attendance history:";;
       toast TError (VStr "Failed to clear attendance history. Please try again.");;
       throw error).

(** [studentService.deleteAttendanceRecord] (lines 443-458). *)
Definition deleteAttendanceRecord (confirmed : bool) (net : server)
    (studentId recordId : value) : M value :=
  try_catch
    (act (note (Confirm "Are you sure you want to delete this attendance record? This action cannot be undone."));;
     if negb confirmed then mret (VObj {[ "cancelled" := VBool true ]})
     else
       response ← api net "DELETE"
                    ("/admin/students/" +:+ to_text studentId +:+ "/attendance/"
                     +:+ to_text recordId) plain;
       toast TSuccess (VStr "Successfully deleted attendance record");;
       mret (data response))
    (fun error =>
       console ERROR "Error deleting attendance record:";;
       toast TError (VStr "Failed to delete attendance record. Please try again.");;
       throw error).

(** *** [qrCodeService] *)

(** [qrCodeService.markAttendance] (lines 477-503) with its console
    lines and the toasts of the interceptor. *)
Definition markAttendance (net : server) (qrData : gmap string value) : M http_response :=
  try_catch
    (enrichedData ← lift (Api.markAttendance_body userAgent qrData);
     response ← api net "POST" "/students/mark-attendance" (with_body enrichedData);
     console LOG "Full attendance API response:";;
     mret response)
    (fun error =>
       console ERROR "Error marking attendance via QR code:";;
       throw error).

(** *** [attendanceService] *)

(** [{ ...data, deviceInfo: data.deviceInfo || navigator.userAgent,
       scanLocation: data.scanLocation || location }] *)
Definition attendanceData (location : string) (entry : gmap string value) : value :=
  VObj (<["scanLocation" := or_else (default VUndef (entry !! "scanLocation")) (VStr location)]>
       (<["deviceInfo" := or_else (default VUndef (entry !! "deviceInfo")) (VStr userAgent)]>
        entry)).

(** [attendanceService.markAttendance] (lines 531-539). *)
Definition attendance_markAttendance (net : server) (entry : gmap string value)
    : M http_response :=
  api net "POST" "/admin/attendance" (with_body (attendanceData "Main Entrance" entry)).

(** [attendanceService.markStudentAttendance] (lines 619-627). *)
Definition markStudentAttendance (net : server) (entry : gmap string value)
    : M http_response :=
  api net "POST" "/admin/attendance/student" (with_body (attendanceData "Main Entrance" entry)).

(** [attendanceService.markAttendanceByQR] (lines 630-638). *)
Definition markAttendanceByQR (net : server) (qrData : value) : M http_response :=
  api net "POST" "/students/mark-attendance"
    (with_body (VObj {[ "qrCodeData" := qrData;
                        "deviceInfo" := VStr userAgent;
                        "scanLocation" := VStr "QR Scanner" ]})).

(** [error.response?.data?.message] *)
Definition server_message (error : exn) : value :=
  match response error with
  | Some r => opt_member (data r) "message"
  | None => VUndef
  end.

(** [attendanceService.markManualAttendance] (lines 542-567); [now] is
    [new Date().toISOString()], [options] is [{}] when the caller passes
    none. *)
Definition markManualAttendance (now : string) (net : server)
    (studentId status options : value) : M value :=
  let options := match options with VUndef => VObj ∅ | o => o end in
  try_catch
    (location ← lift (member options "location");
     adminNote ← lift (member options "adminNote");
     sendNotification ← lift (member options "sendNotification");
     date ← lift (member options "date");
     console LOG "Marking manual attendance:";;
     response ← api net "POST" "/admin/attendance"
       (with_body (VObj {[
          "studentId" := studentId;
          "status" := status;
          "deviceInfo" := VStr userAgent;
          "scanLocation" := or_else location (VStr "Manual Entry");
          "adminNote" := or_else adminNote (VStr "Manually marked by admin");
          "sendNotification" :=
            VBool (match sendNotification with VBool false => false | _ => true end);
          "date" := or_else date (VStr now) ]}));
     (if (JS.status response =? 200)%Z || (JS.status response =? 201)%Z then
        toast TSuccess
          (VStr ("Student "
                 +:+ (if is_string status "entered" then "checked in"
                      else if is_string status "left" then "checked out"
                      else "marked as " +:+ to_text status)
                 +:+ " successfully"))
      else mret tt);;
     mret (data response))
    (fun error =>
       console ERROR "Error marking manual attendance:";;
       toast TError (or_else (server_message error) (VStr "Failed to mark attendance"));;
       throw error).



(** [new Date(v).getTime()], [None] for [NaN], and [toISOString] of a
    valid time value. *)
Variable Date_time : value -> option Z.
Variable toISOString : Z -> string.

(** [attendanceService.getAttendanceByDate] (lines 642-646):
    [toISOString] throws on an invalid date, before anything is sent. *)
Definition getAttendanceByDate (net : server) (date : value) : M http_response :=
  match Date_time date with
  | None => throw (RangeError "Invalid time value")
  | Some t => api net "GET" ("/admin/attendance/" +:+ Text.before "T" (toISOString t)) plain
  end.

(** [attendanceService.getFormattedDate] (lines 705-710). *)
Definition getFormattedDate (date : value) : string :=
  if negb (truthy date) then ""
  else
    match Date_time date with
    | None => ""
    | Some t => Text.before "T" (toISOString t)
    end.

(** [attendanceService.getDateRange] (lines 712-717). *)
Definition getDateRange (startDate endDate : value) : value :=
  VObj {[ "startDate" := VStr (getFormattedDate startDate);
          "endDate" := VStr (getFormattedDate endDate) ]}.

(** [if (formattedParams.k) formattedParams.k = getFormattedDate(formattedParams.k)] *)
Definition format_if (k : string) (formattedParams : gmap string value) : gmap string value :=
  match formattedParams !! k with
  | Some v => if truthy v then <[k := VStr (getFormattedDate v)]> formattedParams
              else formattedParams
  | None => formattedParams
  end.

(** [attendanceService.formatReportParams] (lines 720-743); the first
    argument is not used. *)
Definition formatReportParams (reportType : value) (params : gmap string value)
    : gmap string value :=
  <["includeLocation" := VBool true]>
  (<["includeDuration" := VBool true]>
  (<["includeLeaveTime" := VBool true]>
  (<["includeEntryTime" := VBool true]>
  (format_if "endDate" (format_if "startDate" (format_if "date" params)))))).

(** [date.setHours(0, 0, 0, 0)] on [new Date(v)], then [getTime()]: the
    local midnight of the day of [v], [None] for an invalid date; and the
    local midnight of today. *)
Variable local_midnight : value -> option Z.
Variable today : Z.

(** The search of [canCheckOut] for the record of today: the callback
    reads [record.date]. *)
Fixpoint find_today (records : list value) : result (option value) :=
  match records with
  | [] => Ok None
  | record :: rest =>
      match member record "date" with
      | Throw e => Throw e
      | Ok date =>
          if bool_decide (local_midnight date = Some today) then Ok (Some record)
          else find_today rest
      end
  end.

(** [attendanceService.canCheckOut] (lines 757-774). *)
Definition canCheckOut (student : value) : result value :=
  if negb (truthy student) then Ok (VBool false)
  else
    match opt_member student "attendanceHistory" with
    | VUndef | VNull => Ok VUndef
    | VArr records =>
        match find_today records with
        | Throw e => Throw e
        | Ok None => Ok VUndef
        | Ok (Some todayRecord) =>
            if truthy todayRecord then
              Ok (VBool ((is_string (opt_member todayRecord "status") "entered"
                          || is_string (opt_member todayRecord "status") "present")
                         && negb (truthy (opt_member todayRecord "leaveTime"))))
            else Ok todayRecord
        end
    | _ => Throw (TypeError "student.attendanceHistory?.find is not a function")
    end.

(** *** [reportService] *)

(** The headers every report request carries. *)
Definition format_headers : gmap string string :=
  {[ "preserve-mongodb-format" := "true";
     "time-format" := "preserve-null";
     "mongodb-date-format" := "true";
     "Content-Type" := "application/json" ]}.

(** The four previews (lines 997-1047): the fixed headers are written
    after the ones of the caller. *)
Definition preview (path : string) (net : server) (params : value)
    (headers : gmap string string) : M http_response :=
  api net "GET" path
    {| body := None; query := params; headers := format_headers ∪ headers; expect := None |}.

Definition getDailyReportPreview := preview "/reports/daily/preview".
Definition getWeeklyReportPreview := preview "/reports/weekly/preview".
Definition getMonthlyReportPreview := preview "/reports/monthly/preview".
Definition getIndividualReportPreview := preview "/reports/individual/preview".

Definition reportEndpoints : gmap string string :=
  {[ "daily" := "/reports/dailyAttendanceReport";
     "weekly" := "/reports/weeklyAttendanceReport";
     "monthly" := "/reports/monthlyAttendanceReport";
     "individual" := "/reports/individualStudentReport" ]}.

(** The names every object literal inherits from [Object.prototype]:
    [reportEndpoints[name]] finds a function (or the prototype) for them. *)
Definition Object_prototype : list string :=
  [ "constructor"; "hasOwnProperty"; "isPrototypeOf"; "propertyIsEnumerable";
    "toLocaleString"; "toString"; "valueOf"; "__proto__";
    "__defineGetter__"; "__defineSetter__"; "__lookupGetter__"; "__lookupSetter__" ].

(** What [api.get] does when it is handed something that is no string
    for a URL. *)
Variable get_no_string : M http_response.

(** [reportService.generateReport] (lines 1049-1073): the headers of the
    caller are written after the fixed ones. *)
Definition generateReport (net : server) (reportType : string) (params : value)
    (headers : gmap string string) : M http_response :=
  match reportEndpoints !! reportType with
  | Some url =>
      api net "GET" url
        {| body := None; query := params;
           headers := headers
                      ∪ <["Accept" := "application/vnd.openxmlformats-officedocument.spreadsheetml.sheet"]>
                          format_headers;
           expect := Some "blob" |}
  | None =>
      if bool_decide (reportType ∈ Object_prototype) then get_no_string
      else throw (Error ("Unknown report type: " +:+ reportType))
  end.

(** [attendanceService.generateReport] (lines 746-754), the deprecated
    entry that takes the name of the endpoint. *)
Definition attendance_generateReport (net : server) (reportType : string) (params : value)
    (headers : gmap string string) : M http_response :=
  console LOG ("Generating " +:+ reportType +:+ " with params:");;
  console WARN "attendanceService.generateReport is deprecated. Please use reportService.generateReport instead.";;
  generateReport net (Text.replace "AttendanceReport" "" reportType) params headers.

(** *** [messagingService] *)

(** The text [formatAttendanceMessage] builds for a student. *)
Variable formatAttendanceMessage : gmap string value -> string.



(** [messagingService.getWhatsAppStatus] (lines 901-916). *)
Definition getWhatsAppStatus (net : server) : M value :=
  try_catch
    (response ← api net "GET" "/whatsapp/status" plain;
     let status := opt_member (data response) "status" in
     if truthy status then
       mret (VObj {[ "isReady" := opt_member status "isReady";
                     "error" := opt_member status "error";
                     "qrCode" := opt_member status "qrCode" ]})
     else mret (VObj {[ "isReady" := VBool false; "error" := VNull ]}))
    (fun error =>
       console ERROR "Error getting WhatsApp status:";;
       throw error).

(** [messagingService.refreshQRCode] (lines 928-950): three calls, each
    answered by the backend as it is then; the [Date] of the result is
    carried as its ISO text [now]. *)
Definition refreshQRCode (now : string) (net1 net2 net3 : server) : M value :=
  try_catch
    (api net1 "GET" "/whatsapp/status" plain;;
     response ← api net2 "POST" "/whatsapp/qr/refresh" plain;
     success ← lift (member (data response) "success");
     if negb (truthy success) then
       throw (Error (to_text (or_else (opt_member (data response) "message")
                                      (VStr "Failed to refresh QR code"))))
     else
       qrResponse ← api net3 "GET" "/whatsapp/qr" plain;
       qrCode ← lift (member (data qrResponse) "qrCode");
       mret (VObj {[ "qrCode" := qrCode; "timestamp" := VStr now ]}))
    (fun error =>
       console ERROR "Error refreshing QR code:";;
       throw error).

(** [messagingService.logoutWhatsApp] (lines 981-992). *)
Definition logoutWhatsApp (net : server) : M value :=
  try_catch
    (response ← api net "POST" "/whatsapp/logout" plain;
     if (JS.status response =? 200)%Z then mret (data response)
     else throw (Error (to_text (or_else (opt_member (data response) "message")
                                         (VStr "Failed to logout from WhatsApp")))))
    (fun error =>
       console ERROR "Error logging out WhatsApp:";;
       throw error).

End Services.

(** The backend of the plain client behind a server: a request without
    [params] and [responseType] and the answer to it. *)
Definition backend_of (net : server) : Api.backend :=
  {| Api.health := health net;
     Api.serve := fun r => settled (serve net {| sent := r; params := VUndef;
                                                 responseType := None |}) |}.

End Client.

(** ** Runs of the camera hook

    What can happen to a component that uses [useQRScanner]: it attaches
    the two refs, calls [startScanner] and [stopScanner], the camera
    request settles, the video reports its metadata, the browser runs a
    requested animation frame, and the component unmounts.

    [startScanner] is memoised with no dependencies, so the [processFrame]
    its [onloadedmetadata] handler names is the one of the first render,
    and the [processFrame] that one names for the next frame is again
    itself: every frame callback runs the closure that saw [scanning] as
    [useState(false)] gave it. *)

Module HookRun.

Record state := {
  hook : Hook.hook;
  requests : nat          (* [getUserMedia] calls of [startScanner] not yet settled *)
}.

Definition mounted : state := {| hook := Hook.initial; requests := 0 |}.

Inductive event :=
| Attached                                   (* the video and the canvas are mounted *)
| StartCalled
| CameraSettled (camera : nat + string)
| LoadedMetadata
| FrameRun (id : positive) (ready : bool) (frame : decoded)
| StopCalled
| Unmounted.

Section Run.

Variable JSON_parse : string -> option value.

Definition attach (s : Hook.hook) : Hook.hook :=
  {| Hook.scanning := Hook.scanning s; Hook.scannedData := Hook.scannedData s;
     Hook.error := Hook.error s;
     Hook.videoRef :=
       match Hook.videoRef s with
       | Some v => Some v
       | None => Some {| Hook.srcObject := None; Hook.playing := false;
                         Hook.onloadedmetadata := false |}
       end;
     Hook.canvasRef := true;
     Hook.streamRef := Hook.streamRef s; Hook.animationRef := Hook.animationRef s;
     Hook.media := Hook.media s; Hook.frames := Hook.frames s;
     Hook.next_frame := Hook.next_frame s; Hook.console := Hook.console s;
     Hook.removed := Hook.removed s |}.

Definition handle (e : event) (s : state) : state :=
  match e with
  | Attached => {| hook := attach (hook s); requests := requests s |}
  | StartCalled =>
      {| hook := Hook.startScanner_call (hook s); requests := S (requests s) |}
  | CameraSettled camera =>
      match requests s with
      | O => s
      | S n =>
          {| hook := match camera with
                     | inl more => Hook.startScanner_granted more (hook s)
                     | inr msg => Hook.startScanner_denied msg (hook s)
                     end;
             requests := n |}
      end
  | LoadedMetadata => {| hook := Hook.loadedmetadata (hook s); requests := requests s |}
  | FrameRun id ready frame =>
      if bool_decide (id ∈ Hook.frames (hook s)) then
        {| hook := Hook.processFrame JSON_parse false ready frame
                     (Hook.cancelFrame id (hook s));
           requests := requests s |}
      else s
  | StopCalled => {| hook := Hook.stopScanner (hook s); requests := requests s |}
  | Unmounted => {| hook := Hook.unmount (hook s); requests := requests s |}
  end.

Definition run (events : list event) : state :=
  foldl (fun s e => handle e s) mounted events.

End Run.

End HookRun.

(** ** The attendance history page (pages/AttendanceHistoryPage.jsx) *)

Module HistoryPage.

Import Client.


(** [Math.ceil(totalRecords / recordsPerPage)], the number of pages
    handed to [Pagination] (line 494). *)
Definition totalPages (totalRecords recordsPerPage : Z) : Z :=
  (- ((- totalRecords) / recordsPerPage))%Z.

Section Handlers.

Variable js : runtime.

(** [handleDeleteRecord] (lines 132-150); the answer tells whether the
    list is fetched again. *)
Definition handleDeleteRecord (confirmed : bool) (net : server)
    (studentId recordId : value) : M bool :=
  try_catch
    (result ← deleteAttendanceRecord js confirmed net studentId recordId;
     cancelled ← lift (member result "cancelled");
     if truthy cancelled then mret false
     else if is_string (opt_member result "status") "success" then
       toast TSuccess (VStr "Attendance record deleted successfully");;
       mret true
     else
       toast TError (or_else (opt_member result "message")
                             (VStr "Failed to delete attendance record"));;
       mret false)
    (fun err =>
       console ERROR "Error deleting attendance record:";;
       toast TError (VStr "An error occurred while deleting the attendance record");;
       mret false).

(** [handleClearHistory] (lines 153-171). *)
Definition handleClearHistory (confirmed : bool) (net : server)
    (studentId : value) : M bool :=
  try_catch
    (result ← clearAttendanceHistory js confirmed net studentId;
     cancelled ← lift (member result "cancelled");
     if truthy cancelled then mret false
     else if is_string (opt_member result "status") "success" then
       toast TSuccess (VStr "Attendance history cleared successfully");;
       mret true
     else
       toast TError (or_else (opt_member result "message")
                             (VStr "Failed to clear attendance history"));;
       mret false)
    (fun err =>
       console ERROR "Error clearing attendance history:";;
       toast TError (VStr "An error occurred while clearing the attendance history");;
       mret false).

End Handlers.

End HistoryPage.

(** ** The page list (components/common/Pagination.jsx) *)

Module Pagination.

(** An entry of the list: a page number or the dots. *)
Inductive item := Page (n : Z) | Dots.

(** [getPageNumbers] (lines 28-68). *)
Definition getPageNumbers (currentPage totalPages : Z) : list item :=
  if (totalPages <=? 5)%Z then Page <$> seqZ 1 totalPages
  else
    let startPage := Z.max 2 (currentPage - 1) in
    let endPage := Z.min (totalPages - 1) (currentPage + 1) in
    [Page 1]
    ++ (if (2 <? startPage)%Z then [Dots] else [])
    ++ (Page <$> seqZ startPage (endPage - startPage + 1))
    ++ (if (endPage <? totalPages - 1)%Z then [Dots] else [])
    ++ [Page totalPages].


(** What a click can ask [handlePageChange] for: a number of the list,
    the page before or the page after. *)
Definition clickable (currentPage totalPages : Z) : list Z :=
  omap (fun i => match i with Page n => Some n | Dots => None end)
       (getPageNumbers currentPage totalPages)
  ++ [(currentPage - 1)%Z; (currentPage + 1)%Z].

End Pagination.

(** ** Choosing a file in the file scanner ([DigitalQRScanner])

    The part of the component around [Digital]: the file chosen, its
    preview and the object URL behind it.  Object URLs are the positions
    of a list that tells which of them have not been revoked yet.  A
    chain that starts with a file runs in the closures of the render in
    which the file was chosen; the [resetScanner] at its end reads the
    [previewUrl] of that render. *)

Module Upload.

Record file := { file_name : string; file_type : string; file_size : Z }.

Definition MAX_FILE_SIZE : Z := 5 * 1024 * 1024.

Definition ALLOWED_FILE_TYPES : list string :=
  ["image/jpeg"; "image/png"; "image/gif"; "image/webp"].

(** [(n / d).toFixed(2)] for a size [n] and a power of two [d], where
    the quotient is exact: the nearest number of hundredths, the larger
    one of two equally near, written with two decimals. *)
Definition toFixed2 (n d : Z) : string :=
  let hundredths := ((200 * n + d) / (2 * d))%Z in
  pretty (hundredths / 100)%Z +:+ "."
  +:+ (if (hundredths mod 100 <? 10)%Z then "0" else "") +:+ pretty (hundredths mod 100)%Z.

(** [validateFile] (lines 566-586) on the state of [Digital]. *)
Definition validateFile (f : option file) (s : Digital.state) : Digital.state * bool :=
  match f with
  | None => (Digital.set_error (VStr "No file selected") s, false)
  | Some f =>
      if negb (bool_decide (file_type f ∈ ALLOWED_FILE_TYPES)) then
        (Digital.set_error
           (VStr "File type not supported. Please upload a JPEG, PNG, GIF, or WebP image.") s,
         false)
      else if (MAX_FILE_SIZE <? file_size f)%Z then
        (Digital.set_error
           (VStr ("File size exceeds 5MB limit. Your file is "
                  +:+ toFixed2 (file_size f) (1024 * 1024) +:+ "MB.")) s,
         false)
      else (s, true)
  end.

Record state := {
  core : Digital.state;
  previewUrl : option nat;
  fileInfo : option (string * string * string);   (* name, size, type *)
  urls : list bool;                (* object URLs created so far, [true] until revoked *)
  (* what is pending, each with the [previewUrl] its closures saw *)
  reads : list (option nat);       (* [FileReader]s at work *)
  loads : list (option nat);       (* images loading *)
  seen : list (option nat)         (* one per submission in flight in [core] *)
}.

Definition initial : state :=
  {| core := Digital.initial; previewUrl := None; fileInfo := None; urls := [];
     reads := []; loads := []; seen := [] |}.

Definition set_core (x : Digital.state) (s : state) : state :=
  {| core := x; previewUrl := previewUrl s; fileInfo := fileInfo s; urls := urls s;
     reads := reads s; loads := loads s; seen := seen s |}.

Definition set_fileInfo (x : option (string * string * string)) (s : state) : state :=
  {| core := core s; previewUrl := previewUrl s; fileInfo := x; urls := urls s;
     reads := reads s; loads := loads s; seen := seen s |}.

Definition set_reads (x : list (option nat)) (s : state) : state :=
  {| core := core s; previewUrl := previewUrl s; fileInfo := fileInfo s; urls := urls s;
     reads := x; loads := loads s; seen := seen s |}.

Definition set_loads (x : list (option nat)) (s : state) : state :=
  {| core := core s; previewUrl := previewUrl s; fileInfo := fileInfo s; urls := urls s;
     reads := reads s; loads := x; seen := seen s |}.

Definition set_seen (x : list (option nat)) (s : state) : state :=
  {| core := core s; previewUrl := previewUrl s; fileInfo := fileInfo s; urls := urls s;
     reads := reads s; loads := loads s; seen := x |}.

(** [URL.revokeObjectURL(u)] *)
Definition revokeObjectURL (u : nat) (s : state) : state :=
  {| core := core s; previewUrl := previewUrl s; fileInfo := fileInfo s;
     urls := <[u := false]> (urls s);
     reads := reads s; loads := loads s; seen := seen s |}.

(** [URL.createObjectURL(file)] *)
Definition createObjectURL (s : state) : nat * state :=
  (length (urls s),
   {| core := core s; previewUrl := previewUrl s; fileInfo := fileInfo s;
      urls := urls s ++ [true];
      reads := reads s; loads := loads s; seen := seen s |}).

(** [if (previewUrl) URL.revokeObjectURL(previewUrl)] in a closure that
    saw [previewUrl] as [p]. *)
Definition revoke_seen (p : option nat) (s : state) : state :=
  match p with
  | Some u => revokeObjectURL u s
  | None => s
  end.

(** [setPreviewUrl(x)] and the render that follows: when the value has
    changed, the cleanup of the effect on [previewUrl] revokes the one
    before. *)
Definition setPreviewUrl (x : option nat) (s : state) : state :=
  let before := previewUrl s in
  let s := {| core := core s; previewUrl := x; fileInfo := fileInfo s; urls := urls s;
              reads := reads s; loads := loads s; seen := seen s |} in
  if bool_decide (before = x) then s else revoke_seen before s.

(** [resetScanner] (lines 546-564) of a render that saw [previewUrl] as
    [p]. *)
Definition resetScanner (p : option nat) (s : state) : state :=
  let s := set_fileInfo None (set_core (Digital.resetScanner (core s)) s) in
  match p with
  | Some u => setPreviewUrl None (revokeObjectURL u s)
  | None => s
  end.

(** [processImage] (lines 626-683), up to the work of the reader. *)
Definition processImage (p : option nat) (s : state) : state :=
  set_reads (reads s ++ [p])
    (set_core (Digital.set_processingStatus "Reading image file..."
                 (Digital.set_loading true (core s))) s).

(** [handleFileChange] (lines 588-624) of the render on screen;
    [created] tells whether [URL.createObjectURL] succeeds. *)
Definition handleFileChange (f : option file) (created : bool) (s : state) : state :=
  let p := previewUrl s in
  let s := set_core (Digital.set_processingStatus ""
                       (Digital.set_apiError VNull (Digital.set_error VNull (core s)))) s in
  let s := revoke_seen p s in
  match validateFile f (core s), f with
  | (c, true), Some f =>
      let s := set_fileInfo
                 (Some (file_name f, toFixed2 (file_size f) 1024 +:+ " KB", file_type f))
                 (set_core c s) in
      if created then
        let (u, s) := createObjectURL s in
        processImage p (setPreviewUrl (Some u) s)
      else
        set_core (Digital.set_error (VStr "Failed to create image preview")
                    (Digital.emit (ConsoleError "Error creating preview URL") (core s))) s
  | (c, _), _ => set_core c s
  end.

(** What becomes of an image that was read. *)
Inductive image :=
| Broken                                          (* [img.onerror] *)
| Drawn (problem : option string) (frame : decoded).
    (* [img.onload]; [problem] is the message of what the canvas threw *)

Section Handlers.

Variable JSON_parse : string -> option value.
Variable URL_searchParams : string -> option (string -> option string).
Variable userAgent : string.

(** [reader.onload] and [reader.onerror]. *)
Definition read_settled (p : option nat) (ok : bool) (s : state) : state :=
  if ok then set_loads (loads s ++ [p]) s
  else set_core (Digital.set_error
                   (VStr "Failed to read file. Please try again with a different file.")
                   (Digital.set_loading false (core s))) s.

(** [img.onload] and [img.onerror]. *)
Definition image_settled (p : option nat) (i : image) (s : state) : state :=
  match i with
  | Broken =>
      set_core (Digital.set_error
                  (VStr "Failed to load image. The file may be corrupted or not a valid image.")
                  (Digital.set_loading false (core s))) s
  | Drawn (Some msg) _ =>
      set_core (Digital.set_error (VStr ("Error processing image: " +:+ msg))
                  (Digital.set_loading false
                     (Digital.emit (ConsoleError "Error processing image")
                        (Digital.set_processingStatus "Processing image..." (core s))))) s
  | Drawn None frame =>
      let c := Digital.set_processingStatus "Scanning for QR code..."
                 (Digital.set_processingStatus "Processing image..." (core s)) in
      let c' := Digital.detectQRCode JSON_parse URL_searchParams userAgent frame c in
      let s := set_core c' s in
      if (length (Digital.inflight c) <? length (Digital.inflight c'))%nat
      then set_seen (seen s ++ [p]) s else s
  end.

(** The rest of [handleQRCodeDetected] once [markAttendance] has
    settled: on success it ends with the [resetScanner] of its render. *)
Definition answered (p : option nat) (payload : gmap string value)
    (outcome : result http_response) (now : string) (s : state) : state :=
  let s := set_core (Digital.submission_settled payload outcome now (core s)) s in
  match outcome with
  | Ok answer =>
      if truthy (data answer) then
        let s := set_fileInfo None s in
        match p with
        | Some u => setPreviewUrl None (revokeObjectURL u s)
        | None => s
        end
      else s
  | Throw _ => s
  end.

Inductive event :=
| FileChosen (f : option file) (created : bool)
| ReadSettled (i : nat) (ok : bool)
| ImageSettled (i : nat) (img : image)
| Answered (i : nat) (outcome : result http_response) (now : string)
| ResetClicked.

Definition handle (e : event) (s : state) : state :=
  match e with
  | FileChosen f created => handleFileChange f created s
  | ReadSettled i ok =>
      match reads s !! i with
      | Some p => read_settled p ok (set_reads (delete i (reads s)) s)
      | None => s
      end
  | ImageSettled i img =>
      match loads s !! i with
      | Some p => image_settled p img (set_loads (delete i (loads s)) s)
      | None => s
      end
  | Answered i outcome now =>
      match Digital.inflight (core s) !! i, seen s !! i with
      | Some payload, Some p =>
          answered p payload outcome now
            (set_seen (delete i (seen s))
               (set_core (Digital.set_inflight (delete i (Digital.inflight (core s)))
                            (core s)) s))
      | _, _ => s
      end
  | ResetClicked =>
      if bool_decide (is_Some (previewUrl s)) && negb (Digital.loading (core s))
      then resetScanner (previewUrl s) s else s
  end.

Definition run (events : list event) : state :=
  foldl (fun s e => handle e s) initial events.

(** The cleanup of the effect on [previewUrl] when the component goes. *)
Definition unmount (s : state) : state := revoke_seen (previewUrl s) s.

End Handlers.

End Upload.

(** No object URL is live but the one in [previewUrl]. *)
Definition one_preview (s : Upload.state) : Prop :=
  ∀ u, Upload.urls s !! u = Some true → Upload.previewUrl s = Some u.

(** No object URL is live. *)
Definition none_live (s : Upload.state) : Prop :=
  ∀ u, Upload.urls s !! u ≠ Some true.

(** ** What the reader shows (components/QRScanner.jsx)

    The component returns the first of five views whose condition holds
    (lines 120-208); [QrReader], which calls [handleScan] and
    [handleError], exists in the last one only, and there only while
    [scanning] is set. *)

Module ReaderView.

Inductive view :=
| Processing          (* the spinner *)
| Failed              (* the error with its Try Again button *)
| Denied              (* "Camera access denied", no button *)
| Recorded            (* the student and the Scan Another button *)
| Frame (reader : bool).   (* the frame, with [QrReader] inside or not *)

Definition render (s : Reader.state) : view :=
  if Reader.loading s then Processing
  else if truthy (Reader.error s) then Failed
  else if bool_decide (Reader.hasPermission s = Some false) then Denied
  else if truthy (Reader.scannedData s) then Recorded
  else Frame (Reader.scanning s).

Definition set_hasPermission (x : option bool) (s : Reader.state) : Reader.state :=
  {| Reader.hasPermission := x; Reader.loading := Reader.loading s;
     Reader.error := Reader.error s; Reader.scannedData := Reader.scannedData s;
     Reader.scanning := Reader.scanning s; Reader.inflight := Reader.inflight s;
     Reader.output := Reader.output s |}.

(** [requestCameraPermission] (lines 15-24), resumed after its [await]. *)
Definition permission_settled (granted : bool) (s : Reader.state) : Reader.state :=
  if granted then set_hasPermission (Some true) s
  else
    Reader.set_error
      (VStr "Camera access denied. Please enable camera permissions in your browser settings.")
      (set_hasPermission (Some false)
         (Reader.emit (ConsoleError "Error accessing camera") s)).

(** [handleError] (lines 112-118). *)
Definition handleError (msg : string) (s : Reader.state) : Reader.state :=
  Reader.emit (ScanError (Error msg))
    (Reader.set_error (VStr ("Error accessing camera: " +:+ msg))
       (Reader.emit (ConsoleError "QR Scanner error") s)).

(** The buttons Try Again (lines 139-142) and Scan Another (lines 173-176). *)
Definition tryAgain (s : Reader.state) : Reader.state :=
  Reader.set_scanning true (Reader.set_error VNull s).

Definition scanAnother (s : Reader.state) : Reader.state :=
  Reader.set_scanning true (Reader.set_scannedData VNull s).

Record state := {
  reader : Reader.state;
  probing : bool            (* the camera request of the mount has not settled *)
}.

Definition mounted : state := {| reader := Reader.initial; probing := true |}.

Inductive event :=
| PermissionSettled (granted : bool)
| Result (seen_loading : bool) (text : option string)
| ReaderFailed (msg : string)
| Settled (i : nat) (outcome : result http_response) (now : string)
| TryAgainClicked
| ScanAnotherClicked.

Section Run.

Variable JSON_parse : string -> option value.
Variable userAgent : string.

(** The handler an event runs, if it can run: the camera request of the
    mount settles once, [QrReader] reports while it exists, a button is
    pressed while it is shown. *)
Definition handle (e : event) (s : state) : state :=
  match e with
  | PermissionSettled granted =>
      if probing s then {| reader := permission_settled granted (reader s); probing := false |}
      else s
  | Result seen_loading text =>
      if match render (reader s) with Frame true => true | _ => false end
      then {| reader := Reader.handleScan JSON_parse userAgent seen_loading text (reader s);
              probing := probing s |}
      else s
  | ReaderFailed msg =>
      if match render (reader s) with Frame true => true | _ => false end
      then {| reader := handleError msg (reader s); probing := probing s |}
      else s
  | Settled i outcome now =>
      match Reader.inflight (reader s) !! i with
      | Some card =>
          {| reader := Reader.scan_settled card outcome now
                         (Reader.set_inflight (delete i (Reader.inflight (reader s)))
                            (reader s));
             probing := probing s |}
      | None => s
      end
  | TryAgainClicked =>
      if match render (reader s) with Failed => true | _ => false end
      then {| reader := tryAgain (reader s); probing := probing s |} else s
  | ScanAnotherClicked =>
      if match render (reader s) with Recorded => true | _ => false end
      then {| reader := scanAnother (reader s); probing := probing s |} else s
  end.

Definition run (events : list event) : state :=
  foldl (fun s e => handle e s) mounted events.

End Run.

End ReaderView.

(* ===================================================================== *)
(** * Part II. Properties                                                 *)
(* ===================================================================== *)

(** ** Strings *)

Lemma chars_replace_spaces (s : string) :
  chars (replace_spaces s) = filter (fun c => is_space c = false) (chars s).
Proof.
  induction s as [|c rest IH]; simpl; [done|].
  destruct (is_space c) eqn:Hc.
  - rewrite filter_cons_False; [done | congruence].
  - rewrite filter_cons_True by done. simpl. by rewrite IH.
Qed.


Lemma replace_spaces_keeps (s : string) (c : ascii) :
  c ∈ chars s → is_space c = false → c ∈ chars (replace_spaces s).
Proof.
  rewrite chars_replace_spaces. intros Hin Hc.
  by apply list_elem_of_filter.
Qed.

Example replace_spaces_telephone : replace_spaces "077 123 4567" = "0771234567".
Proof. reflexivity. Qed.

(** ** The API client *)

Lemma checkServerConnectivity_spec (probe : option http_response) :
  Api.checkServerConnectivity probe = true ↔
  ∃ r, probe = Some r ∧ status r = 200%Z ∧ opt_member (data r) "status" = VStr "ok".
Proof.
  unfold Api.checkServerConnectivity. split.
  - destruct probe as [r|]; [|done].
    intros [Hs Hd]%andb_prop. exists r. split; [done|]. split; [lia|].
    destruct (opt_member (data r) "status"); simpl in Hd; try done.
    apply String.eqb_eq in Hd. by subst.
  - intros (r & -> & Hs & Hd). rewrite Hs, Hd. done.
Qed.

Lemma request_interceptor_keeps (probe : option http_response)
    (ls ss : gmap string string) (config config' : Api.request) :
  Api.request_interceptor probe ls ss config = Ok config' →
  Api.req_method config' = Api.req_method config ∧
  Api.req_url config' = Api.req_url config ∧
  Api.req_timeout config' = Api.req_timeout config ∧
  Api.req_data config' = Api.req_data config.
Proof.
  unfold Api.request_interceptor.
  destruct (negb _); [done|].
  destruct (Api.stored_token ls); [|destruct (Api.stored_token ss)];
    intros [= <-]; done.
Qed.

Lemma response_rejected_conflict (e : exn) (r : http_response) :
  response e = Some r → status r = 409%Z → Api.response_rejected e = e.
Proof. unfold Api.response_rejected. intros -> ->. done. Qed.

Lemma api_request_cases (net : Api.backend)
    (ls ss : gmap string string) (method url : string) (body : option value) :
  if Api.checkServerConnectivity (Api.health net)
  then ∃ config,
      Api.api_request net ls ss method url body
      = ([Api.health_probe; config], Api.serve net config)
      ∧ Api.req_method config = method
      ∧ Api.req_url config = Api.API_URL +:+ url
      ∧ Api.req_data config = body
  else Api.api_request net ls ss method url body
       = ([Api.health_probe], Throw (Error Api.not_responding))
       ∧ Api.request_interceptor (Api.health net) ls ss
           (Api.api_config method url body) = Throw (Error Api.not_responding).
Proof.
  unfold Api.api_request.
  destruct (Api.request_interceptor _ _ _ _) as [config|e] eqn:Hi.
  - assert (Hp : Api.checkServerConnectivity (Api.health net) = true).
    { unfold Api.request_interceptor in Hi.
      destruct (Api.checkServerConnectivity _); [done|simpl in Hi; done]. }
    rewrite Hp. exists config.
    apply request_interceptor_keeps in Hi as (? & ? & ? & ?). done.
  - unfold Api.request_interceptor in Hi.
    destruct (Api.checkServerConnectivity _); simpl in Hi.
    + destruct (Api.stored_token ls); [done|]. by destruct (Api.stored_token ss).
    + by injection Hi as <-.
Qed.

(** With a health endpoint that answers 503, the request interceptor
    throws "Server is not responding..." and only the probe is sent, but
    the call is rejected with another error: the rejection handler of the
    response interceptor has replaced the one without a response. *)
Lemma failed_probe_rejection_is_relabelled :
  Api.request_interceptor (Some {| status := 503; data := VNull |}) ∅ ∅
    (Api.api_config "POST" "/students/mark-attendance" None)
  = Throw (Error Api.not_responding)
  ∧ Api.api_call
      {| Api.health := Some {| status := 503; data := VNull |};
         Api.serve := fun _ => Ok {| status := 200; data := VNull |} |}
      ∅ ∅ "POST" "/students/mark-attendance" None
    = ([Api.health_probe], Throw (Error "Server connection failed"))
  ∧ Error "Server connection failed" ≠ Error Api.not_responding.
Proof. split; [done|]. split; [done|]. discriminate. Qed.

(** C10, as the code has it.  Every call through the [api] instance first
    probes the health endpoint, with a time limit of 5000 ms of its own.
    When the probe does not come back with status 200 and a body whose
    [status] is ['ok'], the request interceptor throws "Server is not
    responding...", nothing but the probe is put on the wire, and the
    caller receives "Server connection failed", the error by which the
    response interceptor replaces every rejection without a response.
    Otherwise the request follows the probe, and the caller receives the
    answer, or the rejection as the response interceptor passes it on.
    The attendance submission is such a call. *)
Theorem api_call_probes_first (net : Api.backend)
    (ls ss : gmap string string) (method url : string) (body : option value) :
  let probed := Api.checkServerConnectivity (Api.health net) in
  let call := Api.api_call net ls ss method url body in
  head (fst call) = Some Api.health_probe
  ∧ Api.req_url Api.health_probe = Api.API_URL +:+ "/health"
  ∧ Api.req_timeout Api.health_probe = 5000%Z
  ∧ (probed = true ↔
       ∃ r, Api.health net = Some r ∧ status r = 200%Z
            ∧ opt_member (data r) "status" = VStr "ok")
  ∧ (if probed
     then ∃ config, fst call = [Api.health_probe; config]
                    ∧ Api.req_method config = method
                    ∧ Api.req_url config = Api.API_URL +:+ url
                    ∧ Api.req_data config = body
                    ∧ snd call = match Api.serve net config with
                                 | Ok answer => Ok answer
                                 | Throw e => Throw (Api.response_rejected e)
                                 end
     else fst call = [Api.health_probe]
          ∧ Api.request_interceptor (Api.health net) ls ss
              (Api.api_config method url body) = Throw (Error Api.not_responding)
          ∧ snd call = Throw (Error "Server connection failed"))
  ∧ (∀ userAgent qrData payload,
       Api.markAttendance_body userAgent qrData = Ok payload →
       Api.markAttendance net ls ss userAgent qrData
       = Api.api_call net ls ss "POST" "/students/mark-attendance" (Some payload)).
Proof.
  cbv zeta. unfold Api.api_call.
  pose proof (api_request_cases net ls ss method url body) as H.
  pose proof (checkServerConnectivity_spec (Api.health net)) as Hspec.
  destruct (Api.checkServerConnectivity (Api.health net)).
  - destruct H as (config & -> & Hm & Hu & Hd). simpl.
    split; [done|]. split; [done|]. split; [done|].
    split; [exact Hspec|].
    split; [by exists config|].
    intros ua qrData payload Hb. unfold Api.markAttendance. by rewrite Hb.
  - destruct H as (-> & Hi). simpl.
    split; [done|]. split; [done|]. split; [done|].
    split; [exact Hspec|].
    split; [done|].
    intros ua qrData payload Hb. unfold Api.markAttendance. by rewrite Hb.
Qed.

(** The statement above at a backend whose health endpoint answers 503. *)
Lemma api_call_probes_first_witness :
  Api.api_call
    {| Api.health := Some {| status := 503; data := VNull |};
       Api.serve := fun _ => Ok {| status := 200; data := VNull |} |}
    ∅ ∅ "POST" "/students/mark-attendance" None
  = ([Api.health_probe], Throw (Error "Server connection failed")).
Proof.
  pose proof (api_call_probes_first
    {| Api.health := Some {| status := 503; data := VNull |};
       Api.serve := fun _ => Ok {| status := 200; data := VNull |} |}
    ∅ ∅ "POST" "/students/mark-attendance" None)
    as (_ & _ & _ & _ & H & _).
  simpl in H. destruct H as (H1 & _ & H2).
  apply injective_projections; assumption.
Defined.

(** ** The attendance request *)

Lemma markAttendance_body_ok (userAgent : string) (qrData : gmap string value) (body : value) :
  Api.markAttendance_body userAgent qrData = Ok body →
  let telephone :=
    match qrData !! "parent_telephone" with
    | Some (VStr s) => replace_spaces s
    | _ => ""
    end in
  body = VObj (<["qrCodeData" := VObj (<["parent_telephone" := VStr telephone]> qrData)]>
              (<["deviceInfo" := VStr userAgent]>
              (<["scanLocation" := VStr "QR Scanner App"]> ∅))).
Proof.
  unfold Api.markAttendance_body.
  destruct (qrData !! "parent_telephone") as [v|]; simpl.
  - destruct v as [| |b|n|s|l|m]; simpl; try (intros [= <-]; done).
    + destruct b; simpl; [done|]. by intros [= <-].
    + destruct (negb (n =? 0)%Z); simpl; [done|]. by intros [= <-].
    + destruct (String.eqb_spec s ""); simpl; intros [= <-]; by subst.
  - by intros [= <-].
Qed.

(** The white space of [\s] among the code units below 256: the tab,
    the line feed, the vertical tab, the form feed, the carriage return,
    the space and the no-break space. *)
Lemma is_space_codes (c : ascii) :
  is_space c = true ↔ nat_of_ascii c ∈ [9; 10; 11; 12; 13; 32; 160].
Proof.
  unfold is_space. cbv zeta.
  rewrite !orb_true_iff, andb_true_iff, !Nat.leb_le, !Nat.eqb_eq.
  rewrite !elem_of_cons, elem_of_nil. lia.
Qed.

Lemma chars_inj (s t : string) : chars s = chars t → s = t.
Proof.
  revert t. induction s as [|c s IH]; intros [|d t]; simpl; try done.
  intros [= -> H]. by rewrite (IH t H).
Qed.

(** C9. Every request that [qrCodeService.markAttendance] puts on the wire
    besides the connectivity probe is a POST to the mark-attendance
    endpoint whose body has exactly the three properties [qrCodeData],
    [deviceInfo] and [scanLocation]: [qrCodeData] is the payload with
    [parent_telephone] replaced by the text that is left of it when its
    white space (tab, line feed, vertical tab, form feed, carriage
    return, space, no-break space) is taken out, every other character
    kept in its place, or by the empty string when it is absent or
    falsy; [deviceInfo] is the user agent and [scanLocation] is
    "QR Scanner App".  Such a request is sent whenever the backend passes
    the probe and [parent_telephone] is a string or falsy. *)
Theorem markAttendance_request_shape (net : Api.backend)
    (ls ss : gmap string string) (userAgent : string) (qrData : gmap string value) :
  let sent := fst (Api.markAttendance net ls ss userAgent qrData) in
  (∀ c, is_space c = true ↔ nat_of_ascii c ∈ [9; 10; 11; 12; 13; 32; 160])
  ∧ (∀ r, r ∈ sent → r ≠ Api.health_probe →
       Api.req_method r = "POST"
       ∧ Api.req_url r = Api.API_URL +:+ "/students/mark-attendance"
       ∧ ∃ (body : gmap string value) (telephone : string),
           Api.req_data r = Some (VObj body)
           ∧ dom body = {[ "qrCodeData"; "deviceInfo"; "scanLocation" ]}
           ∧ body !! "qrCodeData"
             = Some (VObj (<["parent_telephone" := VStr telephone]> qrData))
           ∧ match qrData !! "parent_telephone" with
             | Some (VStr s) =>
                 chars telephone = filter (fun c => is_space c = false) (chars s)
             | _ => telephone = ""
             end
           ∧ body !! "deviceInfo" = Some (VStr userAgent)
           ∧ body !! "scanLocation" = Some (VStr "QR Scanner App"))
  ∧ (Api.checkServerConnectivity (Api.health net) = true →
     (∀ v, qrData !! "parent_telephone" = Some v → truthy v = true → ∃ s, v = VStr s) →
     ∃ r, sent = [Api.health_probe; r]).
Proof.
  cbv zeta. split; [|split].
  - apply is_space_codes.
  - intros r Hr Hne. unfold Api.markAttendance in Hr.
    destruct (Api.markAttendance_body userAgent qrData) as [payload|e] eqn:Hb;
      [|by apply elem_of_nil in Hr].
    apply markAttendance_body_ok in Hb. cbv zeta in Hb.
    unfold Api.api_call in Hr. cbn [fst] in Hr.
    pose proof (api_request_cases net ls ss "POST"
                  "/students/mark-attendance" (Some payload)) as H.
    destruct (Api.checkServerConnectivity (Api.health net)).
    + destruct H as (config & Hs & Hm & Hu & Hd). rewrite Hs in Hr. simpl in Hr.
      apply elem_of_cons in Hr as [->|Hr]; [done|].
      apply list_elem_of_singleton in Hr as ->.
      split; [done|]. split; [done|].
      eexists _, _. rewrite Hd, Hb. split; [done|].
      split; [rewrite !dom_insert_L, dom_empty_L; set_solver|].
      split; [by simplify_map_eq|].
      split; [|by simplify_map_eq].
      destruct (qrData !! "parent_telephone") as [[| | | |s| |]|]; try done.
      apply chars_replace_spaces.
    + destruct H as (Hs & _). rewrite Hs in Hr. simpl in Hr.
      by apply list_elem_of_singleton in Hr.
  - intros Hp Hty. unfold Api.markAttendance.
    assert (∃ payload, Api.markAttendance_body userAgent qrData = Ok payload) as [payload ->].
    { unfold Api.markAttendance_body.
      destruct (qrData !! "parent_telephone") as [v|] eqn:Hv; simpl; [|by eexists].
      destruct (truthy v) eqn:Ht; [|by eexists].
      destruct (Hty v eq_refl Ht) as [s ->]. by eexists. }
    unfold Api.api_call. cbn [fst].
    pose proof (api_request_cases net ls ss "POST"
                  "/students/mark-attendance" (Some payload)) as H.
    rewrite Hp in H. destruct H as (config & -> & _). by exists config.
Qed.

(** The statement above for a card whose telephone number is written
    with blanks, at a backend that passes the probe: one request follows
    the probe, and the number in its body is "0771234567". *)
Lemma markAttendance_request_shape_witness :
  let card : gmap string value :=
    {[ "indexNumber" := VStr "S1"; "parent_telephone" := VStr "077 123 4567" ]} in
  let sent :=
    fst (Api.markAttendance
           {| Api.health := Some {| status := 200;
                                    data := VObj {[ "status" := VStr "ok" ]} |};
              Api.serve := fun _ => Ok {| status := 200; data := VNull |} |}
           ∅ ∅ "Mozilla/5.0" card) in
  ∃ r body,
    sent = [Api.health_probe; r]
    ∧ Api.req_data r = Some (VObj body)
    ∧ body !! "qrCodeData"
      = Some (VObj {[ "indexNumber" := VStr "S1";
                      "parent_telephone" := VStr "0771234567" ]}).
Proof.
  cbv zeta.
  set (card := ({[ "indexNumber" := VStr "S1";
                   "parent_telephone" := VStr "077 123 4567" ]} : gmap string value)).
  set (net := {| Api.health := Some {| status := 200;
                                       data := VObj {[ "status" := VStr "ok" ]} |};
                 Api.serve := fun _ => Ok {| status := 200; data := VNull |} |}).
  destruct (markAttendance_request_shape net ∅ ∅ "Mozilla/5.0" card)
    as (_ & Hbody & Hsent).
  destruct Hsent as [r Hr].
  - reflexivity.
  - intros v Hv _. vm_compute in Hv. injection Hv as <-. by eexists.
  - destruct (Hbody r) as (_ & _ & body & telephone & Hd & _ & Hq & Ht & _).
    + rewrite Hr. apply elem_of_cons. right. by apply list_elem_of_singleton.
    + intros ->. apply (f_equal (fun l => l !! 1)) in Hr. vm_compute in Hr. discriminate.
    + exists r, body. split; [exact Hr|]. split; [exact Hd|].
      rewrite Hq. do 2 f_equal.
      assert (telephone = "0771234567") as ->.
      { apply chars_inj. rewrite Ht. reflexivity. }
      apply map_eq. intros k. subst card.
      destruct (decide (k = "parent_telephone")) as [->|Hk]; [by simplify_map_eq|].
      rewrite lookup_insert_ne by done.
      destruct (decide (k = "indexNumber")) as [->|Hi]; by simplify_map_eq.
Defined.

(** ** Camera streams *)




(** ** The camera hook *)





(** ** Frames without a symbol *)

(** C7. A decode cycle whose raster buffer holds no symbol changes
    nothing: in the live scanner the state after [image.onload] is the
    state before it (the load of such a picture only takes it off the
    pending ones), so the scanner keeps scanning, no submission starts,
    no line is logged and no error is set or reported; taking the picture
    itself only adds the pending image.  In the camera hook the run of
    [processFrame] at most requests the next animation frame. *)
Theorem no_symbol_changes_nothing (JSON_parse : string → option value)
    (userAgent : string) (c : nat) (shot : option decoded)
    (s : Scanner.state) (seen_scanning ready : bool) (h : Hook.hook) :
  Scanner.processImageData JSON_parse NoSymbol s = (s, None)
  ∧ Scanner.image_loaded JSON_parse userAgent c NoSymbol s = s
  ∧ (∀ i, Scanner.images s !! i = Some (NoSymbol, c) →
          Scanner.handle JSON_parse userAgent (Scanner.ImageLoaded i) s
          = Scanner.set_images (delete i (Scanner.images s)) s)
  ∧ (let s' := Scanner.captureAndProcessFrame c shot s in
     Scanner.scanning s' = Scanner.scanning s
     ∧ Scanner.error s' = Scanner.error s
     ∧ Scanner.inflight s' = Scanner.inflight s
     ∧ Scanner.output s' = Scanner.output s
     ∧ Scanner.intervalRef s' = Scanner.intervalRef s
     ∧ Scanner.intervals s' = Scanner.intervals s)
  ∧ (let h' := Hook.processFrame JSON_parse seen_scanning ready NoSymbol h in
     (h' = h ∨ h' = Hook.requestFrame h)
     ∧ Hook.scanning h' = Hook.scanning h
     ∧ Hook.error h' = Hook.error h
     ∧ Hook.scannedData h' = Hook.scannedData h
     ∧ Hook.console h' = Hook.console h
     ∧ Hook.streamRef h' = Hook.streamRef h
     ∧ Hook.media h' = Hook.media h).
Proof.
  split; [done|]. split; [done|]. split; [by intros i; simpl; intros ->|]. split.
  - unfold Scanner.captureAndProcessFrame.
    destruct (negb (Scanner.webcam_mounted s)); [done|]. by destruct shot.
  - cbv zeta. unfold Hook.processFrame.
    destruct (negb seen_scanning || _ || _); [by split; [left|]|].
    destruct (negb ready); by split; [right|].
Qed.

(** ** Payloads without an index number *)

Lemma digital_submission_failed_inflight (e : exn) (d0 d : Digital.state) :
  Digital.inflight d0 = Digital.inflight d →
  Digital.inflight (Digital.submission_failed e d0) = Digital.inflight d
  ∧ Digital.loading (Digital.submission_failed e d0) = false
  ∧ truthy (Digital.apiError (Digital.submission_failed e d0)) = true.
Proof.
  intros <-. unfold Digital.submission_failed. simpl.
  destruct (String.eqb_spec (message e) ""); simpl; [done|].
  split; [done|]. split; [done|].
  by destruct (String.eqb_spec (message e) "").
Qed.

(** C2. A text that decodes to a payload without a truthy [indexNumber]
    is classified as invalid by the decode cycle of the live scanner: the
    error "Invalid QR code data. Missing required information." is set,
    reported and shown as a toast; no submission starts, and the scanning
    flag, the sampling timer and the loading flag are left as they were.
    The submitter of the live scanner and the one of the file scanner turn
    such a payload down themselves before any request is built. *)
Theorem missing_indexNumber_never_submitted (JSON_parse : string → option value)
    (userAgent : string) (c : nat) (text : string) (qrData : value)
    (s : Scanner.state) (d : Digital.state) :
  JSON_parse text = Some qrData →
  truthy (opt_member qrData "indexNumber") = false →
  let invalid := "Invalid QR code data. Missing required information." in
  let s' := Scanner.image_loaded JSON_parse userAgent c (Symbol text) s in
  Scanner.error s' = VStr invalid
  ∧ Scanner.output s'
    = Scanner.output s ++ [ConsoleLog ("QR Code detected: " +:+ text);
                           ConsoleError "Error processing QR code data";
                           ScanError (Error invalid);
                           ToastError (VStr invalid)]
  ∧ Scanner.inflight s' = Scanner.inflight s
  ∧ Scanner.scanning s' = Scanner.scanning s
  ∧ Scanner.intervalRef s' = Scanner.intervalRef s
  ∧ Scanner.intervals s' = Scanner.intervals s
  ∧ Scanner.loading s' = Scanner.loading s
  ∧ Scanner.timeouts s' = Scanner.timeouts s
  ∧ Scanner.inflight (Scanner.handleQRCodeDetected userAgent c qrData s)
    = Scanner.inflight s
  ∧ (let d' := Digital.handleQRCodeDetected userAgent qrData d in
     Digital.inflight d' = Digital.inflight d
     ∧ Digital.loading d' = false
     ∧ truthy (Digital.apiError d') = true).
Proof.
  intros Hparse Hmissing. cbv zeta.
  unfold Scanner.image_loaded, Scanner.processImageData. rewrite Hparse, Hmissing.
  rewrite orb_true_r. simpl.
  split; [done|]. split; [by rewrite <- !(assoc_L (++))|].
  do 6 (split; [done|]).
  split.
  - unfold Scanner.handleQRCodeDetected.
    destruct qrData as [| | | | | |payload]; try done.
    simpl in Hmissing. by rewrite Hmissing.
  - unfold Digital.handleQRCodeDetected.
    destruct qrData as [| | | | | |payload]; cbn [member];
      try (by apply digital_submission_failed_inflight).
    change (truthy (default VUndef (payload !! "indexNumber")) = false) in Hmissing.
    rewrite Hmissing. by apply digital_submission_failed_inflight.
Qed.

(** The statement above for a card that is the empty object. *)
Lemma missing_indexNumber_never_submitted_witness :
  Scanner.inflight
    (Scanner.image_loaded Sample.JSON_parse Sample.userAgent 0 (Symbol "{}")
       (Scanner.run Sample.JSON_parse Sample.userAgent [Scanner.PermissionSettled true]))
  = []
  ∧ Scanner.scanning
      (Scanner.image_loaded Sample.JSON_parse Sample.userAgent 0 (Symbol "{}")
         (Scanner.run Sample.JSON_parse Sample.userAgent [Scanner.PermissionSettled true]))
    = true.
Proof.
  pose proof (missing_indexNumber_never_submitted Sample.JSON_parse Sample.userAgent
                0 "{}" (VObj ∅)
                (Scanner.run Sample.JSON_parse Sample.userAgent [Scanner.PermissionSettled true])
                Digital.initial eq_refl eq_refl)
    as (_ & _ & Hin & Hsc & _).
  split; [exact Hin | exact Hsc].
Defined.

(** ** The outcome of a submission *)

Lemma or_else_truthy (a b : value) : truthy b = true → truthy (or_else a b) = true.
Proof. unfold or_else. by destruct (truthy a) eqn:Ha. Qed.


Lemma truthy_nonempty (text : string) : text ≠ "" → truthy (VStr text) = true.
Proof. intros H. simpl. by destruct (String.eqb_spec text ""). Qed.

(** The live scanner takes the status of its outcome from [status] in
    the body of the answer and from nowhere else: without a truthy
    [status] there the outcome says "present", whatever
    [attendanceStatus] says. *)
Lemma live_outcome_status (payload : gmap string value) (answer : value) (now : string) :
  opt_member (Scanner.scan_outcome payload answer now) "status"
  = or_else (opt_member answer "status") (VStr "present").
Proof.
  unfold Scanner.scan_outcome. simpl.
  rewrite lookup_insert_ne by done. by rewrite lookup_insert_eq.
Qed.

(** The reader and the file scanner take it from [attendanceStatus], and
    the time of the scan for the [timestamp]. *)
Lemma processedData_status (answer : value) (payload : gmap string value) (now : string) :
  opt_member (processedData answer payload now) "status"
  = or_else (opt_member answer "attendanceStatus") (VStr "entered")
  ∧ opt_member (processedData answer payload now) "timestamp" = VStr now.
Proof.
  unfold processedData. simpl.
  rewrite !lookup_insert_ne by done. rewrite !lookup_insert_eq. simpl.
  split; [done|]. rewrite !lookup_insert_ne by done. by rewrite lookup_insert_eq.
Qed.

(** C8 on the three scanners.  The card of a student is scanned and the
    backend answers the submission as the attendance endpoint does, with
    [attendanceStatus] "entered".  The reader and the file scanner hand
    on an outcome whose [status] is "entered"; the live scanner, which
    looks for the status under [status], hands on "present".  The
    [timestamp] is set in all three. *)
Theorem live_scanner_reports_present_for_entered :
  let now := "2025-01-01T12:00:00.000Z" in
  let shot := Some (Symbol Sample.card_text) in
  let live :=
    Scanner.run Sample.JSON_parse Sample.userAgent
      [Scanner.PermissionSettled true; Scanner.IntervalFired 1 shot;
       Scanner.ImageLoaded 0; Scanner.SubmissionSettled 0 (Ok Sample.entered) now] in
  let reader :=
    ReaderView.run Sample.JSON_parse Sample.userAgent
      [ReaderView.PermissionSettled true; ReaderView.Result false (Some Sample.card_text);
       ReaderView.Settled 0 (Ok Sample.entered) now] in
  let file :=
    Upload.run Sample.JSON_parse Sample.URL_searchParams Sample.userAgent
      [Upload.FileChosen
         (Some {| Upload.file_name := "card.png"; Upload.file_type := "image/png";
                  Upload.file_size := 2048 |}) true;
       Upload.ReadSettled 0 true;
       Upload.ImageSettled 0 (Upload.Drawn None (Symbol Sample.card_text));
       Upload.Answered 0 (Ok Sample.entered) now] in
  opt_member (data Sample.entered) "attendanceStatus" = VStr "entered"
  ∧ outcomes (Scanner.output live) = [(VStr "present", VStr now)]
  ∧ outcomes (Reader.output (ReaderView.reader reader)) = [(VStr "entered", VStr now)]
  ∧ outcomes (Digital.output (Upload.core file)) = [(VStr "entered", VStr now)].
Proof. cbv zeta. repeat split; vm_compute; reflexivity. Qed.

(** ** Releasing the camera *)







(** ** Starting the camera *)





(** ** Reading the text of a symbol *)





(** ** One submission at a time *)

Lemma processImageData_timers (JSON_parse : string → option value)
    (frame : decoded) (s : Scanner.state) :
  let s' := fst (Scanner.processImageData JSON_parse frame s) in
  Scanner.intervalRef s' = Scanner.intervalRef s
  ∧ Scanner.intervals s' = Scanner.intervals s
  ∧ Scanner.inflight s' = Scanner.inflight s
  ∧ Scanner.scanning s' = Scanner.scanning s.
Proof.
  unfold Scanner.processImageData. destruct frame as [|text|msg]; try done.
  destruct (JSON_parse text) as [qrData|]; [|done].
  by destruct (negb (truthy qrData) || _).
Qed.

Lemma handleQRCodeDetected_timers (userAgent : string) (c : nat) (qrData : value)
    (s : Scanner.state) :
  let s' := Scanner.handleQRCodeDetected userAgent c qrData s in
  Scanner.intervalRef s' = Scanner.intervalRef s
  ∧ Scanner.intervals s' = Scanner.intervals s
  ∧ Scanner.scanning s' = Scanner.scanning s.
Proof.
  unfold Scanner.handleQRCodeDetected.
  destruct qrData as [| | | | | |payload]; try done.
  destruct (truthy _); [|done].
  by destruct (Api.markAttendance_body userAgent payload).
Qed.

Lemma stopScanning_timers (s : Scanner.state) :
  Scanner.intervalRef (Scanner.stopScanning s) = None
  ∧ Scanner.scanning (Scanner.stopScanning s) = false
  ∧ (∀ id c, Scanner.intervalRef s = Some id →
             (id, c) ∉ Scanner.intervals (Scanner.stopScanning s))
  ∧ Scanner.inflight (Scanner.stopScanning s) = Scanner.inflight s.
Proof.
  unfold Scanner.stopScanning. destruct (Scanner.intervalRef s) as [id|] eqn:Hid.
  - simpl. split; [done|]. split; [done|]. split; [|done].
    intros id' c [= <-]. intros [Hne _]%list_elem_of_filter. done.
  - simpl. split; [done|]. split; [done|]. split; [|done]. by intros id c.
Qed.

(** When [image.onload] starts a submission, the timer held in
    [intervalRef] has been cleared before, and the reference emptied. *)
Lemma sampling_stopped_before_submission (JSON_parse : string → option value)
    (userAgent : string) (c : nat) (frame : decoded) (s : Scanner.state) :
  let s' := Scanner.image_loaded JSON_parse userAgent c frame s in
  Scanner.inflight s' ≠ Scanner.inflight s →
  Scanner.intervalRef s' = None
  ∧ Scanner.scanning s' = false
  ∧ ∀ id c', Scanner.intervalRef s = Some id → (id, c') ∉ Scanner.intervals s'.
Proof.
  cbv zeta. unfold Scanner.image_loaded.
  pose proof (processImageData_timers JSON_parse frame s) as Hp. cbv zeta in Hp.
  destruct (Scanner.processImageData JSON_parse frame s) as [s1 [qrData|]];
    simpl in Hp; destruct Hp as (Hr & Hi & Hf & Hs); [|by rewrite Hf].
  intros _.
  pose proof (handleQRCodeDetected_timers userAgent c qrData (Scanner.stopScanning s1))
    as (Hr' & Hi' & Hs').
  pose proof (stopScanning_timers s1) as (Hr'' & Hs'' & Hi'' & _).
  rewrite Hr', Hs', Hi'. split; [done|]. split; [done|].
  intros id c' Hid. apply Hi''. by rewrite Hr.
Qed.

(** The reader does guard its submitter: a result that arrives while the
    closure sees [loading] set is dropped. *)
Lemma reader_drops_result_while_loading (JSON_parse : string → option value)
    (userAgent : string) (text : option string) (s : Reader.state) :
  Reader.handleScan JSON_parse userAgent true text s = s.
Proof. by destruct text. Qed.

(** C1, at two schedules the browser can produce.  In the first the
    timer fires twice before the picture of the first tick has loaded;
    both pictures show the card, the first [onload] clears the timer and
    submits, and the second [onload], which no one cancelled, submits
    again.  In the second the webcam reports an error while the timer
    runs, the operator asks for the camera again and the effect starts a
    second timer over the first; the first outlives the [stopScanning] of
    the next detection and brings a second submission while the first is
    pending. *)
Theorem two_submissions_in_flight :
  let shot := Some (Symbol Sample.card_text) in
  let run := Scanner.run Sample.JSON_parse Sample.userAgent in
  Scanner.intervals (run [Scanner.PermissionSettled true]) = [(1%positive, 0)]
  ∧ (let s := run [Scanner.PermissionSettled true;
                   Scanner.IntervalFired 1 shot; Scanner.IntervalFired 1 shot;
                   Scanner.ImageLoaded 0] in
     Scanner.intervalRef s = None ∧ Scanner.intervals s = []
     ∧ Scanner.inflight s = [(Sample.card, 0)]
     ∧ Scanner.images s = [(Symbol Sample.card_text, 0)])
  ∧ Scanner.inflight
      (run [Scanner.PermissionSettled true;
            Scanner.IntervalFired 1 shot; Scanner.IntervalFired 1 shot;
            Scanner.ImageLoaded 0; Scanner.ImageLoaded 0])
    = [(Sample.card, 0); (Sample.card, 0)]
  ∧ (let s := run [Scanner.PermissionSettled true; Scanner.WebcamFailed "NotReadableError";
                   Scanner.TryAgainClicked; Scanner.PermissionSettled true] in
     Scanner.intervalRef s = Some 2%positive
     ∧ Scanner.intervals s = [(1%positive, 0); (2%positive, 0)])
  ∧ Scanner.inflight
      (run [Scanner.PermissionSettled true; Scanner.WebcamFailed "NotReadableError";
            Scanner.TryAgainClicked; Scanner.PermissionSettled true;
            Scanner.IntervalFired 2 shot; Scanner.ImageLoaded 0;
            Scanner.IntervalFired 1 shot; Scanner.ImageLoaded 0])
    = [(Sample.card, 0); (Sample.card, 0)].
Proof. cbv zeta. repeat split; vm_compute; reflexivity. Qed.

(** ** A rejected submission *)

(** An answer with status 409 is shown as a duplicate. *)
Lemma errorMessage_conflict (err : exn) (r : http_response) :
  response err = Some r → status r = 409%Z →
  Scanner.errorMessage err = VStr "Attendance already marked for this student today".
Proof. unfold Scanner.errorMessage. by intros -> ->. Qed.

(** From the wire to the message: when the backend passes the probe and
    answers the submission with status 409, the rejection reaches
    [handleQRCodeDetected] as it is and is shown as a duplicate. *)
Lemma conflict_answer_shown_as_duplicate (net : Api.backend)
    (ls ss : gmap string string) (userAgent : string)
    (payload : gmap string value) (body : value) (err : exn) (r : http_response) :
  Api.checkServerConnectivity (Api.health net) = true →
  Api.markAttendance_body userAgent payload = Ok body →
  (∀ config, Api.req_data config = Some body → Api.serve net config = Throw err) →
  response err = Some r → status r = 409%Z →
  snd (Api.markAttendance net ls ss userAgent payload) = Throw err
  ∧ Scanner.errorMessage err = VStr "Attendance already marked for this student today".
Proof.
  intros Hp Hb Hserve Hr Hs. split; [|by eapply errorMessage_conflict].
  unfold Api.markAttendance, Api.api_call. rewrite Hb. cbn [snd].
  pose proof (api_request_cases net ls ss "POST" "/students/mark-attendance" (Some body)) as H.
  rewrite Hp in H. destruct H as (config & -> & _ & _ & Hd). cbn [snd].
  rewrite (Hserve config Hd). f_equal. by eapply response_rejected_conflict.
Qed.

(** A rejected submission sets the message, shows it, reports the error
    and arms one timer of 3000 ms. *)
Lemma submission_failed_cooldown (c : nat) (err : exn) (s : Scanner.state) :
  let s' := Scanner.submission_failed c err s in
  Scanner.error s' = Scanner.errorMessage err
  ∧ Scanner.timeouts s' = Scanner.timeouts s ++ [(3000%Z, c)]
  ∧ Scanner.output s'
    = Scanner.output s ++ [ConsoleError "Error marking attendance";
                           ToastError (Scanner.errorMessage err); ScanError err]
  ∧ Scanner.loading s' = false
  ∧ Scanner.inflight s' = Scanner.inflight s.
Proof.
  cbv zeta. unfold Scanner.submission_failed. simpl.
  split; [done|]. split; [done|]. split; [by rewrite <- !(assoc_L (++))|]. done.
Qed.

(** The timer restarts the sampling when the [startScanning] it calls was
    created by a render that saw the permission granted; when that render
    saw no permission yet, it asks for the camera instead. *)
Lemma cooldown_elapsed_cases (c : nat) (s : Scanner.state) :
  let r := Scanner.bound_startScanning (Scanner.scope_at c s) in
  let s' := Scanner.cooldown_elapsed c s in
  Scanner.error s' = VNull
  ∧ (Scanner.seen_cameraPermission (Scanner.scope_at r s) = Some true →
     Scanner.scanning s' = true
     ∧ Scanner.intervalRef s' = Some (Scanner.next_timer s)
     ∧ Scanner.intervals s'
       = Scanner.intervals s
           ++ [(Scanner.next_timer s, Scanner.bound_capture (Scanner.scope_at r s))])
  ∧ (Scanner.seen_cameraPermission (Scanner.scope_at r s) ≠ Some true →
     Scanner.scanning s' = Scanner.scanning s
     ∧ Scanner.intervalRef s' = Scanner.intervalRef s
     ∧ Scanner.intervals s' = Scanner.intervals s
     ∧ Scanner.probes s' = S (Scanner.probes s)).
Proof.
  cbv zeta. unfold Scanner.cooldown_elapsed, Scanner.startScanning.
  change (Scanner.scope_at ?r (Scanner.set_error VNull s)) with (Scanner.scope_at r s).
  destruct (Scanner.seen_cameraPermission _) as [[|]|]; simpl; split; try done;
    split; try done; by intros [].
Qed.

(** *** Runs in which the camera is never refused

    In such a run every pending callback belongs to a render that saw no
    permission yet: the sampling timer is armed by the [startScanning] of
    the render that first saw the permission, and the
    [captureAndProcessFrame] bound there is still the one of an earlier
    render, because the permission is not among its dependencies. *)

Lemma stale_app rs rs' c : stale rs c → stale (rs ++ rs') c.
Proof. intros (sc & H & ?). exists sc. split; [|done]. by apply lookup_app_l_Some. Qed.

Lemma scope_ok_app rs rs' sc : scope_ok rs sc → scope_ok (rs ++ rs') sc.
Proof.
  intros [(?&?&?)|(? & sk & ? & ? & ?)]; [left|right].
  - eauto using stale_app.
  - split; [done|]. exists sk. split; [by apply lookup_app_l_Some|]. eauto using stale_app.
Qed.

Lemma scope_at_lookup r s sc :
  Scanner.renders s !! r = Some sc → Scanner.scope_at r s = sc.
Proof. unfold Scanner.scope_at. by intros ->. Qed.

Lemma startScanning_stale r s :
  closures_stale s → stale (Scanner.renders s) r →
  Scanner.startScanning r s = Scanner.checkCameraPermission s.
Proof.
  intros Hs (sc & Hsc & Hseen & _). unfold Scanner.startScanning.
  by rewrite (scope_at_lookup _ _ _ Hsc), Hseen.
Qed.

Ltac list_cases :=
  repeat match goal with
  | H : _ ∈ _ ++ _ |- _ => apply elem_of_app in H as [H|H]
  | H : _ ∈ [_] |- _ => apply list_elem_of_singleton in H
  | H : _ ∈ delete _ _ |- _ => apply list_elem_of_delete_inv in H
  | H : _ ∈ filter _ _ |- _ => apply list_elem_of_filter in H as [_ H]
  | H : (_, _) = (_, _) |- _ => injection H as -> ->
  end.

(** [startScanning] keeps the pending callbacks with early renders when
    the timer it may arm calls the [captureAndProcessFrame] of one. *)
Lemma startScanning_closures (r : nat) (s : Scanner.state) :
  closures_stale s →
  (∃ sc, Scanner.renders s !! r = Some sc ∧
     (Scanner.seen_cameraPermission sc = Some true → stale (Scanner.renders s) (Scanner.bound_capture sc))) →
  closures_stale (Scanner.startScanning r s)
  ∧ Scanner.renders (Scanner.startScanning r s) = Scanner.renders s
  ∧ Scanner.cameraPermission (Scanner.startScanning r s) = Scanner.cameraPermission s.
Proof.
  intros [H1 H2 H3 H4 H5 H6] (sc & Hsc & Hst). unfold Scanner.startScanning.
  rewrite (scope_at_lookup _ _ _ Hsc).
  destruct (Scanner.seen_cameraPermission sc) as [[|]|] eqn:Hseen; simpl;
    (split; [|done]); split; simpl; try done.
  intros id c Hin. list_cases; eauto.
Qed.

Lemma stale_first s : closures_stale s → stale (Scanner.renders s) 0.
Proof. intros [H1 _ _ _ _ _]. by exists Scanner.first_scope. Qed.

Lemma last_scope_lookup s sc :
  last (Scanner.renders s) = Some sc →
  Scanner.renders s !! Scanner.current s = Some sc.
Proof. intros H. unfold Scanner.current. by rewrite <- last_lookup. Qed.

Lemma submission_failed_closures c err s :
  closures_stale s → stale (Scanner.renders s) c →
  closures_stale (Scanner.submission_failed c err s).
Proof.
  intros [H1 H2 H3 H4 H5 H6] Hc. split; simpl; try done.
  intros d c' Hin. list_cases; eauto.
Qed.

Lemma stopScanning_closures s :
  closures_stale s → closures_stale (Scanner.stopScanning s).
Proof.
  intros [H1 H2 H3 H4 H5 H6]. unfold Scanner.stopScanning.
  destruct (Scanner.intervalRef s); split; simpl; try done.
  intros id c Hin. list_cases; eauto.
Qed.

Lemma handleQRCodeDetected_closures ua c qrData s :
  closures_stale s → stale (Scanner.renders s) c →
  closures_stale (Scanner.handleQRCodeDetected ua c qrData s).
Proof.
  intros Hs Hc. unfold Scanner.handleQRCodeDetected.
  assert (Hl : closures_stale (Scanner.set_loading true s)) by (by destruct Hs).
  destruct qrData as [| | | | | |payload];
    try (by apply submission_failed_closures).
  destruct (truthy _); [|by apply submission_failed_closures].
  destruct (Api.markAttendance_body ua payload).
  - destruct Hs as [H1 H2 H3 H4 H5 H6]. split; simpl; try done.
    intros p c' Hin. list_cases; eauto.
  - apply submission_failed_closures; [|done]. by destruct Hs.
Qed.

Lemma processImageData_closures parse frame s :
  closures_stale s →
  closures_stale (fst (Scanner.processImageData parse frame s))
  ∧ Scanner.renders (fst (Scanner.processImageData parse frame s)) = Scanner.renders s
  ∧ Scanner.cameraPermission (fst (Scanner.processImageData parse frame s))
    = Scanner.cameraPermission s.
Proof.
  intros Hs. unfold Scanner.processImageData.
  destruct frame as [|text|msg]; [done| |by destruct Hs].
  destruct (parse text) as [qrData|]; [|by destruct Hs].
  destruct (negb (truthy qrData) || _); by destruct Hs.
Qed.

Lemma handler_renders parse ua e s :
  Scanner.renders (Scanner.handle parse ua e s) = Scanner.renders s.
Proof.
  destruct e as [g|id shot|i|i outcome now|i| | | |msg|]; simpl; try done.
  - destruct (Scanner.probes s); [done|]. by destruct g.
  - destruct (filter _ _) as [|[? c] ?]; [done|].
    unfold Scanner.captureAndProcessFrame.
    destruct (negb _); [done|]. by destruct shot.
  - destruct (Scanner.images s !! i) as [[frame c]|]; [|done].
    unfold Scanner.image_loaded.
    pose proof (processImageData_timers parse frame
                  (Scanner.set_images (delete i (Scanner.images s)) s)) as _.
    unfold Scanner.processImageData.
    destruct frame as [|text|msg]; try done.
    destruct (parse text) as [qrData|]; [|done].
    destruct (negb (truthy qrData) || _); [done|].
    unfold Scanner.handleQRCodeDetected, Scanner.stopScanning.
    destruct qrData as [| | | | | |payload]; simpl;
      try (by destruct (Scanner.intervalRef s)).
    destruct (truthy _); [|by destruct (Scanner.intervalRef s)].
    by destruct (Api.markAttendance_body ua payload), (Scanner.intervalRef s).
  - destruct (Scanner.inflight s !! i) as [[payload c]|]; [|done].
    unfold Scanner.submission_settled. destruct outcome as [answer|err]; [|done].
    by destruct (truthy (data answer)).
  - destruct (Scanner.timeouts s !! i) as [[delay c]|]; [|done].
    unfold Scanner.cooldown_elapsed, Scanner.startScanning.
    by destruct (Scanner.seen_cameraPermission _) as [[|]|].
  - destruct (negb _ && _ && _); [|done]. unfold Scanner.startScanning.
    by destruct (Scanner.seen_cameraPermission _) as [[|]|].
  - by destruct (bool_decide _).
  - by destruct (Scanner.webcam_mounted s).
  - by destruct (Scanner.webcam_mounted s).
Qed.

Lemma handler_permission parse ua e s :
  never_refused e = true →
  Scanner.cameraPermission (Scanner.handle parse ua e s) = Scanner.cameraPermission s
  ∨ Scanner.cameraPermission (Scanner.handle parse ua e s) = Some true
    ∧ e ≠ Scanner.ParentRendered.
Proof.
  intros Hne.
  destruct e as [g|id shot|i|i outcome now|i| | | |msg|]; simpl; try (by left).
  - destruct (Scanner.probes s); [by left|]. destruct g; [by right|done].
  - left. destruct (filter _ _) as [|[? c] ?]; [done|].
    unfold Scanner.captureAndProcessFrame.
    destruct (negb _); [done|]. by destruct shot.
  - left. destruct (Scanner.images s !! i) as [[frame c]|]; [|done].
    unfold Scanner.image_loaded, Scanner.processImageData.
    destruct frame as [|text|msg]; try done.
    destruct (parse text) as [qrData|]; [|done].
    destruct (negb (truthy qrData) || _); [done|].
    unfold Scanner.handleQRCodeDetected, Scanner.stopScanning.
    destruct qrData as [| | | | | |payload]; simpl;
      try (by destruct (Scanner.intervalRef s)).
    destruct (truthy _); [|by destruct (Scanner.intervalRef s)].
    by destruct (Api.markAttendance_body ua payload), (Scanner.intervalRef s).
  - left. destruct (Scanner.inflight s !! i) as [[payload c]|]; [|done].
    unfold Scanner.submission_settled. destruct outcome as [answer|err]; [|done].
    by destruct (truthy (data answer)).
  - left. destruct (Scanner.timeouts s !! i) as [[delay c]|]; [|done].
    unfold Scanner.cooldown_elapsed, Scanner.startScanning.
    by destruct (Scanner.seen_cameraPermission _) as [[|]|].
  - left. destruct (negb _ && _ && _); [|done]. unfold Scanner.startScanning.
    by destruct (Scanner.seen_cameraPermission _) as [[|]|].
  - left. by destruct (bool_decide _).
  - left. by destruct (Scanner.webcam_mounted s).
Qed.

(** Every handler keeps the invariant. *)
Lemma handler_closures (parse : string → option value) (ua : string)
    (e : Scanner.event) (s : Scanner.state) :
  closures_stale s → rendered s → never_refused e = true →
  closures_stale (Scanner.handle parse ua e s).
Proof.
  intros Hs (sc0 & Hlast & Hseen0) Hne.
  destruct e as [g|id shot|i|i outcome now|i| | | |msg|]; simpl; try done.
  - destruct (Scanner.probes s); [done|]. destruct g; [|done]. by destruct Hs.
  - destruct (filter _ _) as [|[id' c] ?] eqn:Hf; [done|].
    assert (Hc : stale (Scanner.renders s) c).
    { destruct Hs as [_ _ H3 _ _ _]. apply (H3 id').
      assert (Hin : (id', c) ∈ filter (λ t, t.1 = id) (Scanner.intervals s))
        by (rewrite Hf; left).
      by apply list_elem_of_filter in Hin as [_ Hin]. }
    unfold Scanner.captureAndProcessFrame. destruct (negb _); [done|].
    destruct shot as [frame|]; [|done].
    destruct Hs as [H1 H2 H3 H4 H5 H6]. split; simpl; try done.
    intros f c' Hin. list_cases; eauto.
  - destruct (Scanner.images s !! i) as [[frame c]|] eqn:Hi; [|done].
    assert (Hc : stale (Scanner.renders s) c).
    { destruct Hs as [_ _ _ H4 _ _]. apply (H4 frame).
      by eapply list_elem_of_lookup_2. }
    assert (Hd : closures_stale (Scanner.set_images (delete i (Scanner.images s)) s)).
    { destruct Hs as [H1 H2 H3 H4 H5 H6]. split; simpl; try done.
      intros f c' Hin. list_cases; eauto. }
    unfold Scanner.image_loaded.
    destruct (processImageData_closures parse frame _ Hd) as (Hp & Hr & _).
    destruct (Scanner.processImageData parse frame _) as [s1 [qrData|]];
      simpl in Hp, Hr; [|done].
    apply handleQRCodeDetected_closures.
    + by apply stopScanning_closures.
    + unfold Scanner.stopScanning. destruct (Scanner.intervalRef s1); simpl; by rewrite Hr.
  - destruct (Scanner.inflight s !! i) as [[payload c]|] eqn:Hi; [|done].
    assert (Hc : stale (Scanner.renders s) c).
    { destruct Hs as [_ _ _ _ H5 _]. apply (H5 payload).
      by eapply list_elem_of_lookup_2. }
    assert (Hd : closures_stale (Scanner.set_inflight (delete i (Scanner.inflight s)) s)).
    { destruct Hs as [H1 H2 H3 H4 H5 H6]. split; simpl; try done.
      intros f c' Hin. list_cases; eauto. }
    unfold Scanner.submission_settled. destruct outcome as [answer|err].
    + destruct (truthy (data answer)); [by destruct Hd|].
      by apply submission_failed_closures.
    + by apply submission_failed_closures.
  - destruct (Scanner.timeouts s !! i) as [[delay c]|] eqn:Hi; [|done].
    assert (Hc : stale (Scanner.renders s) c).
    { destruct Hs as [_ _ _ _ _ H6]. apply (H6 delay).
      by eapply list_elem_of_lookup_2. }
    assert (Hd : closures_stale
                   (Scanner.set_error VNull
                      (Scanner.set_timeouts (delete i (Scanner.timeouts s)) s))).
    { destruct Hs as [H1 H2 H3 H4 H5 H6]. split; simpl; try done.
      intros f c' Hin. list_cases; eauto. }
    unfold Scanner.cooldown_elapsed.
    destruct Hc as (sc & Hsc & Hnone & Hb).
    change (Scanner.scope_at c (Scanner.set_timeouts (delete i (Scanner.timeouts s)) s))
      with (Scanner.scope_at c s).
    rewrite (scope_at_lookup _ _ _ Hsc), Hb.
    rewrite startScanning_stale; [by destruct Hd|done|].
    simpl. by apply stale_first.
  - destruct (negb _ && _ && _); [|done].
    rewrite (scope_at_lookup _ _ _ (last_scope_lookup _ _ Hlast)).
    destruct (cs_scopes s Hs _ _ (last_scope_lookup _ _ Hlast))
      as [(_ & Hb & _)|(_ & sk & Hsk & _ & Hst)].
    + rewrite Hb. rewrite startScanning_stale; [by destruct Hs|done|].
      by apply stale_first.
    + apply startScanning_closures; [done|]. by exists sk.
  - destruct (bool_decide _); [|done]. by destruct Hs.
  - destruct (Scanner.webcam_mounted s); [|done]. by destruct Hs.
Qed.

Lemma renders_lookup_snoc (rs : list Scanner.scope) (sc : Scanner.scope) r sc' :
  (rs ++ [sc]) !! r = Some sc' → rs !! r = Some sc' ∨ (r = length rs ∧ sc' = sc).
Proof.
  intros H. apply lookup_app_Some in H as [H|[Hle H]]; [by left|right].
  destruct (r - length rs) as [|n] eqn:Hn; simpl in H; [|done].
  injection H as <-. split; [lia|done].
Qed.

Lemma set_renders_closures s sc :
  closures_stale s →
  scope_ok (Scanner.renders s ++ [sc]) sc →
  closures_stale (Scanner.set_renders (Scanner.renders s ++ [sc]) s).
Proof.
  intros [H1 H2 H3 H4 H5 H6] Hsc. split; simpl; eauto using stale_app.
  - by apply lookup_app_l_Some.
  - intros r sc' [Hr|[_ ->]]%renders_lookup_snoc; [|done].
    apply scope_ok_app. eauto.
Qed.

(** A render keeps the invariant, also the one that first sees the
    permission and whose effect arms the sampling timer. *)
Lemma render_closures (new_props : bool) (s : Scanner.state) :
  closures_stale s →
  rendered s ∨ (granted_now s ∧ new_props = false) →
  closures_stale (Scanner.render new_props s) ∧ rendered (Scanner.render new_props s).
Proof.
  intros Hs [(sc0 & Hlast & Hseen)|[(sc0 & Hlast & Hseen & Hcp) ->]];
    unfold Scanner.render; rewrite Hlast.
  - rewrite Hseen, bool_decide_true by done. simpl.
    pose proof (cs_scopes s Hs _ _ (last_scope_lookup _ _ Hlast)) as Hok.
    split.
    + apply set_renders_closures; [done|].
      destruct Hok as [(Hn & Hb & Hst)|(Ht & sk & Hsk & Hskt & Hst)]; [left|right]; simpl.
      * split; [congruence|]. split; [done|].
        destruct new_props; [|by apply stale_app].
        eexists. split; [apply list_lookup_middle; done|]. simpl. split; [congruence|done].
      * split; [congruence|]. exists sk.
        split; [by apply lookup_app_l_Some|]. split; [done|]. by apply stale_app.
    + eexists. simpl. rewrite last_snoc. split; [done|]. simpl. done.
  - rewrite Hcp, Hseen, bool_decide_false by done. simpl.
    rewrite bool_decide_true by done.
    pose proof (cs_scopes s Hs _ _ (last_scope_lookup _ _ Hlast)) as Hok.
    destruct Hok as [(_ & _ & Hst)|(Ht & _)]; [|congruence].
    set (sc := {| Scanner.seen_cameraPermission := Some true;
                  Scanner.bound_startScanning := length (Scanner.renders s);
                  Scanner.bound_capture := Scanner.bound_capture sc0 |}).
    assert (Hl : (Scanner.renders s ++ [sc]) !! length (Scanner.renders s) = Some sc)
      by (by apply list_lookup_middle).
    assert (Hs1 : closures_stale (Scanner.set_renders (Scanner.renders s ++ [sc]) s)).
    { apply set_renders_closures; [done|]. right. split; [done|].
      exists sc. split; [done|]. split; [done|]. by apply stale_app. }
    destruct (startScanning_closures (length (Scanner.renders s)) _ Hs1)
      as (Hc & Hr & Hp).
    { exists sc. split; [done|]. intros _. by apply stale_app. }
    split; [done|].
    exists sc. rewrite Hr, Hp. simpl. rewrite last_snoc. by rewrite Hcp.
Qed.

Lemma step_closures parse ua s e :
  closures_stale s → rendered s → never_refused e = true →
  closures_stale (Scanner.step parse ua s e) ∧ rendered (Scanner.step parse ua s e).
Proof.
  intros Hs Hr Hne. unfold Scanner.step. apply render_closures.
  - by apply handler_closures.
  - destruct Hr as (sc0 & Hlast & Hseen).
    destruct (handler_permission parse ua e s Hne) as [Hp|[Hp He]].
    + left. exists sc0. by rewrite handler_renders, Hp.
    + destruct (Scanner.seen_cameraPermission sc0) as [[|]|] eqn:Hs0.
      * left. exists sc0. rewrite handler_renders, Hp. done.
      * exfalso.
        destruct (cs_scopes s Hs _ _ (last_scope_lookup _ _ Hlast))
          as [(?&_)|(?&_)]; congruence.
      * right. split; [|by destruct e].
        exists sc0. by rewrite handler_renders.
Qed.

Lemma mounted_closures : closures_stale Scanner.mounted ∧ rendered Scanner.mounted.
Proof.
  split.
  - split; simpl; try done; try (intros ? ? Hin; by apply elem_of_nil in Hin).
    intros r sc Hr. destruct r as [|r]; [|done]. injection Hr as <-.
    left. split; [done|]. split; [done|]. by exists Scanner.first_scope.
  - by eexists.
Qed.

(** The invariant holds along every run in which the camera is never
    refused. *)
Lemma run_closures (parse : string → option value) (ua : string)
    (events : list Scanner.event) :
  Forall (λ e, never_refused e = true) events →
  closures_stale (Scanner.run parse ua events) ∧ rendered (Scanner.run parse ua events).
Proof.
  unfold Scanner.run.
  induction events as [|e events IH] using rev_ind; intros Hev.
  - apply mounted_closures.
  - apply Forall_app in Hev as [Hev He]. rewrite Forall_singleton in He.
    rewrite foldl_app. simpl. destruct (IH Hev). by apply step_closures.
Qed.

(** In a run in which the camera is never refused, the callback of every
    pending cooldown does what [checkCameraPermission] does and nothing
    else: it asks for the camera and arms no timer. *)
Lemma cooldown_never_restarts (parse : string → option value) (ua : string)
    (events : list Scanner.event) (i : nat) (delay : Z) (c : nat) :
  Forall (λ e, never_refused e = true) events →
  let s := Scanner.run parse ua events in
  Scanner.timeouts s !! i = Some (delay, c) →
  Scanner.handle parse ua (Scanner.TimeoutFired i) s
  = Scanner.checkCameraPermission
      (Scanner.set_error VNull (Scanner.set_timeouts (delete i (Scanner.timeouts s)) s)).
Proof.
  intros Hev s Hi. destruct (run_closures parse ua events Hev) as [Hs Hr].
  fold s in Hs, Hr. simpl. rewrite Hi. unfold Scanner.cooldown_elapsed.
  assert (Hc : stale (Scanner.renders s) c).
  { destruct Hs as [_ _ _ _ _ H6]. apply (H6 delay). by eapply list_elem_of_lookup_2. }
  destruct Hc as (sc & Hsc & Hnone & Hb).
  change (Scanner.scope_at c (Scanner.set_timeouts (delete i (Scanner.timeouts s)) s))
    with (Scanner.scope_at c s).
  rewrite (scope_at_lookup _ _ _ Hsc), Hb.
  apply startScanning_stale.
  - destruct Hs as [H1 H2 H3 H4 H5 H6]. split; simpl; try done.
    intros d c' Hin. list_cases; eauto.
  - simpl. by apply stale_first.
Qed.

Lemma render_rendered new_props s :
  rendered s →
  Scanner.scanning (Scanner.render new_props s) = Scanner.scanning s
  ∧ Scanner.intervals (Scanner.render new_props s) = Scanner.intervals s
  ∧ Scanner.intervalRef (Scanner.render new_props s) = Scanner.intervalRef s.
Proof.
  intros (sc0 & Hlast & Hseen). unfold Scanner.render. rewrite Hlast, Hseen.
  by rewrite bool_decide_true.
Qed.

(** In such a run, once the permission is granted, nothing but the
    operator's "Scan Again" turns scanning on again: not the cooldown, not
    the answer to the permission request it makes, not a render of the
    parent. *)
Lemma only_the_operator_restarts (parse : string → option value) (ua : string)
    (events : list Scanner.event) (e : Scanner.event) :
  Forall (λ e, never_refused e = true) events →
  let s := Scanner.run parse ua events in
  Scanner.cameraPermission s = Some true →
  never_refused e = true → e ≠ Scanner.ScanAgainClicked →
  Scanner.scanning (Scanner.step parse ua s e) = true → Scanner.scanning s = true.
Proof.
  intros Hev s Hcp Hne Hscan. destruct (run_closures parse ua events Hev) as [Hs Hr].
  fold s in Hs, Hr. unfold Scanner.step.
  assert (Hr' : rendered (Scanner.handle parse ua e s)).
  { destruct Hr as (sc0 & Hlast & Hseen). exists sc0. rewrite handler_renders.
    split; [done|].
    destruct (handler_permission parse ua e s Hne) as [->|[-> _]]; congruence. }
  destruct (render_rendered (match e with Scanner.ParentRendered => true | _ => false end)
              _ Hr') as (-> & _ & _).
  destruct e as [g|id shot|i|i outcome now|i| | | |msg|]; simpl; try done.
  - destruct (Scanner.probes s); [done|]. by destruct g.
  - destruct (filter _ _) as [|[id' c] ?]; [done|].
    unfold Scanner.captureAndProcessFrame. destruct (negb _); [done|]. by destruct shot.
  - destruct (Scanner.images s !! i) as [[frame c]|]; [|done].
    unfold Scanner.image_loaded.
    pose proof (processImageData_timers parse frame
                  (Scanner.set_images (delete i (Scanner.images s)) s)) as Hp.
    cbv zeta in Hp.
    destruct (Scanner.processImageData parse frame _) as [s1 [qrData|]];
      simpl in Hp; destruct Hp as (_ & _ & _ & Hsc); [|by rewrite Hsc].
    destruct (handleQRCodeDetected_timers ua c qrData (Scanner.stopScanning s1))
      as (_ & _ & ->).
    by destruct (stopScanning_timers s1) as (_ & -> & _).
  - destruct (Scanner.inflight s !! i) as [[payload c]|]; [|done].
    unfold Scanner.submission_settled. destruct outcome as [answer|err]; [|done].
    by destruct (truthy (data answer)).
  - destruct (Scanner.timeouts s !! i) as [[delay c]|] eqn:Hi; [|done].
    pose proof (cooldown_never_restarts parse ua events i delay c Hev Hi) as Hcool.
    simpl in Hcool. fold s in Hcool. rewrite Hi in Hcool. by rewrite Hcool.
  - by destruct (bool_decide _).
  - by destruct (Scanner.webcam_mounted s).
Qed.

(** C5, at the first scan after the mount.  The permission is granted,
    the card is decoded and the backend answers 409.  The message shown is
    the one for a duplicate and a timer of 3000 ms is armed.  When it
    fires, the [startScanning] it reaches is the closure of the first
    render, kept alive by the [captureAndProcessFrame] that [useCallback]
    never replaced; that closure saw no permission yet, so it asks for the
    camera again instead of arming the sampling timer.  The permission is
    as before, no effect runs, and the scanner stays stopped with nothing
    pending that could restart it. *)
Theorem conflict_leaves_scanner_stopped :
  let shot := Some (Symbol Sample.card_text) in
  let run := Scanner.run Sample.JSON_parse Sample.userAgent in
  let rejected :=
    [Scanner.PermissionSettled true; Scanner.IntervalFired 1 shot; Scanner.ImageLoaded 0;
     Scanner.SubmissionSettled 0 (Throw Sample.conflict) "2025-01-01T12:00:00.000Z"] in
  (let s := run rejected in
   Scanner.error s = VStr "Attendance already marked for this student today"
   ∧ Scanner.timeouts s = [(3000%Z, 0)]
   ∧ Scanner.scanning s = false ∧ Scanner.loading s = false
   ∧ Scanner.seen_cameraPermission (Scanner.scope_at 0 s) = None)
  ∧ (let s := run (rejected ++ [Scanner.TimeoutFired 0]) in
     Scanner.error s = VNull
     ∧ Scanner.scanning s = false ∧ Scanner.intervalRef s = None
     ∧ Scanner.intervals s = [] ∧ Scanner.timeouts s = [] ∧ Scanner.probes s = 1)
  ∧ (let s := run (rejected ++ [Scanner.TimeoutFired 0; Scanner.PermissionSettled true]) in
     Scanner.cameraPermission s = Some true
     ∧ Scanner.scanning s = false ∧ Scanner.intervalRef s = None
     ∧ Scanner.intervals s = [] ∧ Scanner.timeouts s = [] ∧ Scanner.images s = []
     ∧ Scanner.probes s = 0 ∧ Scanner.inflight s = []).
Proof. vm_compute. done. Qed.

(** ** The services of the API client *)

(** Unfolds the computations on the browser. *)
Ltac run_browser :=
  unfold mbind, mret, Client.M_bind, Client.M_ret, Client.bind, Client.ret,
    Client.throw, Client.try_catch, Client.lift, Client.act, Client.read,
    Client.console, Client.toast, Client.toast_update, Client.local_set,
    Client.local_remove, Client.session_set, Client.session_remove,
    Client.toast_unreachable, Client.clear_session in *.

Lemma wire_app (t1 t2 : list Client.effect) :
  Client.wire (t1 ++ t2) = Client.wire t1 ++ Client.wire t2.
Proof. unfold Client.wire. by rewrite omap_app. Qed.

Lemma toasts_app (t1 t2 : list Client.effect) :
  Client.toasts (t1 ++ t2) = Client.toasts t1 ++ Client.toasts t2.
Proof. unfold Client.toasts. by rewrite omap_app. Qed.

Lemma questions_app (t1 t2 : list Client.effect) :
  Client.questions (t1 ++ t2) = Client.questions t1 ++ Client.questions t2.
Proof. unfold Client.questions. by rewrite omap_app. Qed.

(** What the rejection handler of the response interceptor does to the
    browser: it adds to the trace at most one toast and nothing else,
    leaves the session storage alone, and touches the local storage and
    the address of the window for an answer 401 only. *)
Lemma response_rejected_browser (js : Client.runtime) (url : string)
    (hdrs : gmap string string) (error : exn) (b : Client.browser) :
  let after := Client.response_rejected js url hdrs error b in
  snd after = Throw (Api.response_rejected error)
  ∧ Client.sessionStorage (fst after) = Client.sessionStorage b
  ∧ (∃ shown, Client.trace (fst after) = Client.trace b ++ shown
              ∧ (shown = [] ∨ ∃ k c, shown = [Client.Toast k c]))
  ∧ ((∃ r, response error = Some r ∧ status r = 401%Z
           ∧ Client.trace (fst after) = Client.trace b
           ∧ Client.localStorage (fst after)
             = delete "user" (delete "token" (Client.localStorage b))
           ∧ Client.href (fst after) = Some "/login")
     ∨ ((∀ r, response error = Some r → status r ≠ 401%Z)
        ∧ Client.localStorage (fst after) = Client.localStorage b
        ∧ Client.href (fst after) = Client.href b)).
Proof.
  cbv zeta. unfold Client.response_rejected, Api.response_rejected.
  destruct (response error) as [r|] eqn:Hr; run_browser.
  2:{ simpl. split; [done|]. split; [done|]. split; [eexists; split; [done|]; right; eauto|].
      right. done. }
  destruct (status r =? 0)%Z eqn:H0.
  { simpl. split; [done|]. split; [done|]. split; [eexists; split; [done|]; right; eauto|].
    right. split; [intros ? [= <-]; lia|]. done. }
  destruct (status r =? 401)%Z eqn:H401.
  { simpl. split; [done|]. split; [done|].
    split; [exists []; split; [by rewrite app_nil_r|by left]|].
    left. exists r. split; [done|]. split; [lia|]. done. }
  assert (Hn : ∀ r0, Some r = Some r0 → status r0 ≠ 401%Z) by (intros ? [= <-]; lia).
  assert (Hshown : ∀ (t : list Client.effect) k c,
            ∃ shown, t ++ [Client.Toast k c] = t ++ shown
                     ∧ (shown = [] ∨ ∃ k c, shown = [Client.Toast k c])).
  { intros t k c. eexists. split; [done|]. right. eauto. }
  destruct (status r =? 403)%Z.
  { simpl. split; [done|]. split; [done|]. split; [apply Hshown|]. right. done. }
  destruct ((status r =? 400)%Z && includes url "/reports/").
  { destruct (is_string _ "future_date"); [|destruct (is_string _ "date_range_invalid");
      [|destruct (is_string _ "no_data")]];
      simpl; (split; [done|]); (split; [done|]); (split; [apply Hshown|]); right; done. }
  destruct (status r =? 422)%Z.
  { simpl. split; [done|]. split; [done|]. split; [apply Hshown|]. right. done. }
  destruct (status r =? 429)%Z.
  { simpl. split; [done|]. split; [done|]. split; [apply Hshown|]. right. done. }
  destruct (500 <=? status r)%Z.
  { simpl. split; [done|]. split; [done|]. split; [apply Hshown|]. right. done. }
  simpl. split; [done|]. split; [done|].
  split; [exists []; split; [by rewrite app_nil_r|by left]|]. right. done.
Qed.

(** One call through the [api] instance, case by case. *)
Lemma api_cases (js : Client.runtime) (net : Client.server)
    (method url : string) (o : Client.options) (b : Client.browser) :
  let probed := Client.note (Client.Wire Client.probe) b in
  match Api.request_interceptor (Client.health net) (Client.localStorage b)
          (Client.sessionStorage b) (Client.config method url o) with
  | Throw e =>
      Client.api js net method url o b = Client.response_rejected js url ∅ e probed
  | Ok cfg =>
      let x := {| Client.sent := cfg; Client.params := Client.query o;
                  Client.responseType := Client.expect o |} in
      match Client.settled (Client.serve net x) with
      | Ok answer =>
          Client.api js net method url o b
          = (Client.note (Client.Wire x) probed, Ok answer)
      | Throw e =>
          Client.api js net method url o b
          = Client.response_rejected js url (Client.reply_headers (Client.serve net x)) e
              (Client.note (Client.Wire x) probed)
      end
  end.
Proof.
  cbv zeta. unfold Client.api. run_browser. simpl.
  destruct (Api.request_interceptor _ _ _ _) as [cfg|e]; [|done].
  simpl. by destruct (Client.settled _).
Qed.

(** What one call does to the browser: the probe goes on the wire, then
    at most the request, then at most one toast of the interceptor; the
    session storage is left alone, the local storage loses at most the
    token and the user (on an answer 401). *)
Lemma api_browser (js : Client.runtime) (net : Client.server)
    (method url : string) (o : Client.options) (b : Client.browser) :
  let after := fst (Client.api js net method url o b) in
  (∃ request shown,
     Client.trace after = Client.trace b ++ [Client.Wire Client.probe] ++ request ++ shown
     ∧ (request = [] ∨ ∃ x, request = [Client.Wire x])
     ∧ (shown = [] ∨ ∃ k c, shown = [Client.Toast k c]))
  ∧ Client.sessionStorage after = Client.sessionStorage b
  ∧ (Client.localStorage after = Client.localStorage b
     ∨ Client.localStorage after = delete "user" (delete "token" (Client.localStorage b))).
Proof.
  cbv zeta.
  pose proof (api_cases js net method url o b) as H. cbv zeta in H.
  destruct (Api.request_interceptor _ _ _ _) as [cfg|e].
  - destruct (Client.settled _) as [answer|e].
    + rewrite H. simpl. split; [|by auto].
      eexists [_], []. rewrite <- !(assoc_L (++)). simpl.
      split; [done|]. split; [right; eauto|by left].
    + rewrite H.
      match goal with |- context [Client.response_rejected ?p ?u ?h ?e ?b0] =>
        pose proof (response_rejected_browser p u h e b0) as (_ & Hs & (shown & Ht & Hshown) & Hc)
      end.
      cbv zeta in Hs, Ht, Hc. rewrite Hs, Ht. simpl.
      split; [|split; [done|]].
      * eexists [_], shown. rewrite <- !(assoc_L (++)). simpl.
        split; [done|]. split; [right; eauto|done].
      * destruct Hc as [(r & _ & _ & _ & -> & _)|(_ & -> & _)]; auto.
  - rewrite H.
    match goal with |- context [Client.response_rejected ?p ?u ?h ?e ?b0] =>
      pose proof (response_rejected_browser p u h e b0) as (_ & Hs & (shown & Ht & Hshown) & Hc)
    end.
    cbv zeta in Hs, Ht, Hc. rewrite Hs, Ht. simpl.
    split; [|split; [done|]].
    + exists [], shown. rewrite <- !(assoc_L (++)). simpl.
      split; [done|]. split; [by left|done].
    + destruct Hc as [(r & _ & _ & _ & -> & _)|(_ & -> & _)]; auto.
Qed.

Lemma stored_token_none (storage : gmap string string) :
  storage !! "token" = None → Api.stored_token storage = None.
Proof. unfold Api.stored_token. by intros ->. Qed.

(** X1. [authService.logout] leaves no credentials behind, whatever the
    backend does with the request and even when it cannot be reached:
    afterwards the local storage holds neither a token nor a user, the
    session storage holds no token, every other key of the two storages
    is as it was, and the request interceptor adds no [Authorization]
    header to the requests that follow. *)
Theorem logout_clears_session (js : Client.runtime) (net : Client.server)
    (b : Client.browser) :
  let after := fst (Client.logout js net b) in
  Client.localStorage after !! "token" = None
  ∧ Client.localStorage after !! "user" = None
  ∧ Client.sessionStorage after !! "token" = None
  ∧ (∀ k, k ≠ "token" → k ≠ "user" →
       Client.localStorage after !! k = Client.localStorage b !! k)
  ∧ (∀ k, k ≠ "token" → Client.sessionStorage after !! k = Client.sessionStorage b !! k)
  ∧ (∀ probe cfg, Api.checkServerConnectivity probe = true →
       Api.request_interceptor probe (Client.localStorage after)
         (Client.sessionStorage after) cfg = Ok cfg).
Proof.
  cbv zeta.
  pose proof (api_browser js net "POST" "/admin/logout" Client.plain b)
    as (_ & Hs & Hl).
  cbv zeta in Hs, Hl.
  assert (Hgoal : ∀ b1,
    Client.sessionStorage b1 = Client.sessionStorage b →
    (Client.localStorage b1 = Client.localStorage b
     ∨ Client.localStorage b1 = delete "user" (delete "token" (Client.localStorage b))) →
    let ls := delete "user" (delete "token" (Client.localStorage b1)) in
    let ss := delete "token" (Client.sessionStorage b1) in
    ls !! "token" = None ∧ ls !! "user" = None ∧ ss !! "token" = None
    ∧ (∀ k, k ≠ "token" → k ≠ "user" → ls !! k = Client.localStorage b !! k)
    ∧ (∀ k, k ≠ "token" → ss !! k = Client.sessionStorage b !! k)
    ∧ (∀ probe cfg, Api.checkServerConnectivity probe = true →
         Api.request_interceptor probe ls ss cfg = Ok cfg)).
  { intros b1 Hs1 Hl1. cbv zeta.
    assert (H1 : delete "user" (delete "token" (Client.localStorage b1)) !! "token" = None)
      by by simplify_map_eq.
    assert (H2 : delete "token" (Client.sessionStorage b1) !! "token" = None)
      by by simplify_map_eq.
    split; [done|]. split; [by simplify_map_eq|]. split; [done|].
    split; [|split].
    - intros k ? ?. destruct Hl1 as [->| ->]; by simplify_map_eq.
    - intros k ?. rewrite Hs1. by simplify_map_eq.
    - intros probe cfg Hp. unfold Api.request_interceptor. rewrite Hp. simpl.
      by rewrite (stored_token_none _ H1), (stored_token_none _ H2). }
  unfold Client.logout. run_browser.
  destruct (Client.api js net "POST" "/admin/logout" Client.plain b)
    as [b1 [response|error]]; simpl in *.
  - exact (Hgoal b1 Hs Hl).
  - destruct (JS.response error); simpl; exact (Hgoal b1 Hs Hl).
Qed.

Lemma interceptor_healthy (probe : option http_response) (ls ss : gmap string string)
    (c : Api.request) :
  Api.checkServerConnectivity probe = true →
  ∃ cfg, Api.request_interceptor probe ls ss c = Ok cfg
         ∧ Api.req_method cfg = Api.req_method c
         ∧ Api.req_url cfg = Api.req_url c
         ∧ Api.req_data cfg = Api.req_data c.
Proof.
  intros Hp. unfold Api.request_interceptor. rewrite Hp. simpl.
  destruct (Api.stored_token ls); [|destruct (Api.stored_token ss)]; eauto.
Qed.

Lemma interceptor_down (probe : option http_response) (ls ss : gmap string string)
    (c : Api.request) :
  Api.checkServerConnectivity probe = false →
  Api.request_interceptor probe ls ss c = Throw (Error Api.not_responding).
Proof. intros Hp. unfold Api.request_interceptor. by rewrite Hp. Qed.

Lemma interceptor_token (probe : option http_response) (ls ss : gmap string string)
    (c : Api.request) (t : string) :
  Api.checkServerConnectivity probe = true →
  ls !! "token" = Some t → t ≠ "" →
  Api.request_interceptor probe ls ss c
  = Ok {| Api.req_method := Api.req_method c; Api.req_url := Api.req_url c;
          Api.req_timeout := Api.req_timeout c;
          Api.req_headers := <["Authorization" := "Bearer " +:+ t]> (Api.req_headers c);
          Api.req_data := Api.req_data c |}.
Proof.
  intros Hp Ht Hne. unfold Api.request_interceptor, Api.stored_token.
  rewrite Hp, Ht. simpl. by destruct (String.eqb_spec t "").
Qed.

(** X2. A login that the backend answers with a token (under [token], or
    else under [accessToken]) keeps it in the local storage, and from
    then on the request interceptor sends it along as
    [Authorization: Bearer <token>] with every request, whatever the
    session storage holds. *)
Theorem login_token_reaches_requests (js : Client.runtime)
    (JSON_stringify : value → string) (net : Client.server)
    (credentials : gmap string value) (r : http_response) (t : string)
    (b : Client.browser) :
  Api.checkServerConnectivity (Client.health net) = true →
  (∀ x, Client.settled (Client.serve net x) = Ok r) →
  or_else (opt_member (data r) "token") (opt_member (data r) "accessToken") = VStr t →
  t ≠ "" →
  let after := Client.login js JSON_stringify net (VObj credentials) b in
  snd after = Ok r
  ∧ Client.localStorage (fst after) !! "token" = Some t
  ∧ ∀ probe cfg, Api.checkServerConnectivity probe = true →
      Api.request_interceptor probe (Client.localStorage (fst after))
        (Client.sessionStorage (fst after)) cfg
      = Ok {| Api.req_method := Api.req_method cfg; Api.req_url := Api.req_url cfg;
              Api.req_timeout := Api.req_timeout cfg;
              Api.req_headers :=
                <["Authorization" := "Bearer " +:+ t]> (Api.req_headers cfg);
              Api.req_data := Api.req_data cfg |}.
Proof.
  intros Hup Hserve Htoken Hne. cbv zeta.
  assert (Hdata : truthy (data r) = true).
  { destruct (data r); try done; simpl in Htoken; discriminate. }
  pose proof (api_cases js net "POST" "/admin/login"
                (Client.with_body (VObj credentials))
                (Client.note (Client.Console Client.LOG "Attempting login with:") b)) as Hc.
  cbv zeta in Hc.
  destruct (interceptor_healthy (Client.health net)
              (Client.localStorage (Client.note (Client.Console Client.LOG
                 "Attempting login with:") b))
              (Client.sessionStorage (Client.note (Client.Console Client.LOG
                 "Attempting login with:") b))
              (Client.config "POST" "/admin/login" (Client.with_body (VObj credentials)))
              Hup) as (cfg & Hcfg & _).
  rewrite Hcfg, Hserve in Hc.
  unfold Client.login. run_browser. simpl. rewrite Hc. simpl.
  rewrite Hdata, Htoken. simpl.
  destruct (String.eqb_spec t ""); [done|]. simpl.
  assert (Hgoal : ∀ ls ss, ls !! "token" = Some t →
            ∀ probe c, Api.checkServerConnectivity probe = true →
              Api.request_interceptor probe ls ss c
              = Ok {| Api.req_method := Api.req_method c; Api.req_url := Api.req_url c;
                      Api.req_timeout := Api.req_timeout c;
                      Api.req_headers :=
                        <["Authorization" := "Bearer " +:+ t]> (Api.req_headers c);
                      Api.req_data := Api.req_data c |}).
  { intros ls ss Hl probe c Hp. by apply interceptor_token. }
  destruct (truthy (or_else _ (opt_member (data r) "userData"))); simpl.
  - split; [done|]. split; [by simplify_map_eq|].
    apply Hgoal. by simplify_map_eq.
  - split; [done|]. split; [by simplify_map_eq|].
    apply Hgoal. by simplify_map_eq.
Qed.

(** The statement above for a backend that answers every request with
    [{token: 'abc', user: {name: 'Ann'}}]. *)
Lemma login_token_reaches_requests_witness :
  let net := {| Client.health := Some {| status := 200;
                                         data := VObj {[ "status" := VStr "ok" ]} |};
                Client.serve := fun _ =>
                  {| Client.settled :=
                       Ok {| status := 200;
                             data := VObj {[ "token" := VStr "abc";
                                             "user" := VObj {[ "name" := VStr "Ann" ]} ]} |};
                     Client.reply_headers := ∅ |} |} in
  let after := Client.login Client.sample_runtime (fun _ => "{}") net
                 (VObj {[ "email" := VStr "a@b.c"; "password" := VStr "secret" ]})
                 {| Client.localStorage := ∅; Client.sessionStorage := ∅;
                    Client.href := None; Client.trace := [] |} in
  Client.localStorage (fst after) !! "token" = Some "abc".
Proof.
  cbv zeta.
  refine (proj1 (proj2 (login_token_reaches_requests Client.sample_runtime (fun _ => "{}")
    _ _ _ "abc" _ _ _ _ _))); try done.
Defined.

(** X3. The rejection handler of the response interceptor always rejects
    in its turn: with "Server connection failed" for an error that has no
    response (or status 0), with the error itself otherwise.  It puts
    nothing on the wire and shows at most one toast; for an answer it has
    no branch for (such as 404 or 409, or 400 outside the reports) it
    shows none and leaves the browser as it was. *)
Theorem interceptor_hands_rejection_on (js : Client.runtime) (url : string)
    (hdrs : gmap string string) (error : exn) (b : Client.browser) :
  let after := Client.response_rejected js url hdrs error b in
  snd after = Throw (match response error with
                     | Some r => if (status r =? 0)%Z then Error "Server connection failed"
                                 else error
                     | None => Error "Server connection failed"
                     end)
  ∧ Client.wire (Client.trace (fst after)) = Client.wire (Client.trace b)
  ∧ (∃ shown, Client.toasts (Client.trace (fst after))
              = Client.toasts (Client.trace b) ++ shown ∧ length shown ≤ 1)
  ∧ (∀ r, response error = Some r →
          status r ∉ [0; 401; 403; 422; 429]%Z → (status r < 500)%Z →
          (status r = 400%Z → includes url "/reports/" = false) →
          after = (b, Throw error)).
Proof.
  cbv zeta.
  pose proof (response_rejected_browser js url hdrs error b)
    as (Hr & _ & (shown & Ht & Hshown) & _).
  cbv zeta in Hr, Ht. split; [exact Hr|]. rewrite Ht, wire_app, toasts_app.
  split; [|split].
  - destruct Hshown as [->|(k & c & ->)]; simpl; by rewrite app_nil_r.
  - eexists. split; [done|]. destruct Hshown as [->|(k & c & ->)]; simpl; lia.
  - intros r Hresp Hquiet H500 H400.
    unfold Client.response_rejected. rewrite Hresp. run_browser.
    assert (status r ≠ 0 ∧ status r ≠ 401 ∧ status r ≠ 403 ∧ status r ≠ 422
            ∧ status r ≠ 429)%Z as (? & ? & ? & ? & ?).
    { repeat split; intros E; apply Hquiet; rewrite E; repeat constructor. }
    destruct (Z.eqb_spec (status r) 0); [done|].
    destruct (Z.eqb_spec (status r) 401); [done|].
    destruct (Z.eqb_spec (status r) 403); [done|].
    destruct (Z.eqb_spec (status r) 400) as [E|E]; simpl.
    + rewrite (H400 E).
      destruct (Z.eqb_spec (status r) 422); [done|].
      destruct (Z.eqb_spec (status r) 429); [done|].
      destruct (Z.leb_spec 500 (status r)); [lia|]. done.
    + destruct (Z.eqb_spec (status r) 422); [done|].
      destruct (Z.eqb_spec (status r) 429); [done|].
      destruct (Z.leb_spec 500 (status r)); [lia|]. done.
Qed.

(** X4. An answer 401 makes the interceptor remove the token and the
    user from the local storage and send the window to [/login], without
    a toast; the session storage is not touched.  A token kept there (a
    temporary login) therefore outlives the answer: the interceptor goes
    on sending it with the requests that follow, and sends none when the
    session storage holds none. *)
Theorem unauthorized_answer_spares_session_token (js : Client.runtime)
    (url : string) (hdrs : gmap string string) (error : exn) (r : http_response)
    (b : Client.browser) :
  response error = Some r → status r = 401%Z →
  let after := fst (Client.response_rejected js url hdrs error b) in
  Client.localStorage after !! "token" = None
  ∧ Client.localStorage after !! "user" = None
  ∧ Client.href after = Some "/login"
  ∧ Client.toasts (Client.trace after) = Client.toasts (Client.trace b)
  ∧ Client.sessionStorage after = Client.sessionStorage b
  ∧ ∀ probe cfg, Api.checkServerConnectivity probe = true →
      Api.request_interceptor probe (Client.localStorage after)
        (Client.sessionStorage after) cfg
      = Ok (match Api.stored_token (Client.sessionStorage b) with
            | Some t =>
                {| Api.req_method := Api.req_method cfg; Api.req_url := Api.req_url cfg;
                   Api.req_timeout := Api.req_timeout cfg;
                   Api.req_headers :=
                     <["Authorization" := "Bearer " +:+ t]> (Api.req_headers cfg);
                   Api.req_data := Api.req_data cfg |}
            | None => cfg
            end).
Proof.
  intros Hresp H401. cbv zeta.
  pose proof (response_rejected_browser js url hdrs error b)
    as (_ & Hs & _ & Hc).
  cbv zeta in Hs, Hc.
  destruct Hc as [(r' & _ & _ & Ht & Hl & Hh)|(Hn & _)]; [|by destruct (Hn r Hresp)].
  rewrite Hl, Hh, Ht, Hs.
  assert (H1 : delete "user" (delete "token" (Client.localStorage b)) !! "token" = None)
    by by simplify_map_eq.
  split; [done|]. split; [by simplify_map_eq|]. split; [done|]. split; [done|].
  split; [done|].
  intros probe cfg Hp. unfold Api.request_interceptor. rewrite Hp. simpl.
  rewrite (stored_token_none _ H1). by destruct (Api.stored_token _).
Qed.

(** The statement above for a browser that holds a token in each of the
    two storages. *)
Lemma unauthorized_answer_spares_session_token_witness :
  let b := {| Client.localStorage := {[ "token" := "kept"; "user" := "{}" ]};
              Client.sessionStorage := {[ "token" := "temporary" ]};
              Client.href := None; Client.trace := [] |} in
  let error := {| message := "Request failed with status code 401";
                  response := Some {| status := 401; data := VNull |} |} in
  let after := fst (Client.response_rejected Client.sample_runtime "/admin/me" ∅ error b) in
  Client.localStorage after !! "token" = None
  ∧ Client.sessionStorage after = {[ "token" := "temporary" ]}.
Proof.
  cbv zeta.
  pose proof (unauthorized_answer_spares_session_token Client.sample_runtime "/admin/me" ∅
    {| message := "Request failed with status code 401";
       response := Some {| status := 401; data := VNull |} |}
    {| status := 401; data := VNull |}
    {| Client.localStorage := {[ "token" := "kept"; "user" := "{}" ]};
       Client.sessionStorage := {[ "token" := "temporary" ]};
       Client.href := None; Client.trace := [] |} eq_refl eq_refl)
    as (H1 & _ & _ & _ & H2 & _).
  split; [exact H1|exact H2].
Defined.

Lemma minutes_bounds (n : Z) : (60 * (Client.minutes n - 1) < n ≤ 60 * Client.minutes n)%Z.
Proof.
  unfold Client.minutes.
  pose proof (Z.div_mod (- n) 60 ltac:(lia)).
  pose proof (Z.mod_pos_bound (- n) 60 ltac:(lia)). lia.
Qed.

(** X5. An answer 429 is announced with one warning that tells how many
    minutes to wait.  When the number [parseInt] reads from the
    [retry-after] header is below 2^53 in size, the minutes are those
    seconds divided by 60 and rounded up, so that the wait announced is
    never shorter than the one the backend asked for and exceeds it by
    less than a minute; without a usable header (none, one that is no
    number, or 0) the warning says 1 minute. *)
Theorem rate_limit_wait_covers_retry_after (js : Client.runtime) (url : string)
    (hdrs : gmap string string) (error : exn) (r : http_response) (b : Client.browser) :
  response error = Some r → status r = 429%Z →
  (∀ n, Client.parseInt js (from_option VStr VUndef (hdrs !! "retry-after")) = Some n →
        (Z.abs n < 2 ^ 53)%Z) →
  let after := Client.response_rejected js url hdrs error b in
  let asked := Client.parseInt js (from_option VStr VUndef (hdrs !! "retry-after")) in
  ∃ m : Z,
    after = (Client.note (Client.Toast Client.TWarning
                            (VStr ("Too many attempts. Please wait " +:+ pretty m
                                   +:+ " minutes."))) b,
             Throw error)
    ∧ match asked with
      | Some n => if (n =? 0)%Z then m = 1%Z else (60 * (m - 1) < n ≤ 60 * m)%Z
      | None => m = 1%Z
      end.
Proof.
  intros Hresp H429 Hsafe. cbv zeta.
  unfold Client.response_rejected. rewrite Hresp, H429. run_browser. simpl.
  destruct (Client.parseInt js _) as [n|] eqn:Hasked.
  - specialize (Hsafe n eq_refl). destruct (Z.eqb_spec n 0).
    + exists 1%Z. done.
    + exists (Client.minutes n). split; [|apply minutes_bounds].
      unfold Client.minutes_text.
      by destruct (Z.ltb_spec (Z.abs n) (2 ^ 53)); [|lia].
  - exists 1%Z. done.
Qed.

(** The statement above for a header [retry-after: 90]. *)
Lemma rate_limit_wait_covers_retry_after_witness :
  ∃ m : Z,
    Client.response_rejected
      Client.sample_runtime
      "/admin/login" {[ "retry-after" := "90" ]}
      {| message := "Request failed with status code 429";
         response := Some {| status := 429; data := VNull |} |}
      {| Client.localStorage := ∅; Client.sessionStorage := ∅;
         Client.href := None; Client.trace := [] |}
    = (Client.note (Client.Toast Client.TWarning
                      (VStr ("Too many attempts. Please wait " +:+ pretty m +:+ " minutes.")))
         {| Client.localStorage := ∅; Client.sessionStorage := ∅;
            Client.href := None; Client.trace := [] |},
       Throw {| message := "Request failed with status code 429";
                response := Some {| status := 429; data := VNull |} |})
    ∧ (60 * (m - 1) < 90 ≤ 60 * m)%Z.
Proof.
  destruct (rate_limit_wait_covers_retry_after
    Client.sample_runtime
    "/admin/login" {[ "retry-after" := "90" ]}
    {| message := "Request failed with status code 429";
       response := Some {| status := 429; data := VNull |} |}
    {| status := 429; data := VNull |}
    {| Client.localStorage := ∅; Client.sessionStorage := ∅;
       Client.href := None; Client.trace := [] |} eq_refl eq_refl) as (m & H1 & H2).
  - intros n Hn. vm_compute in Hn. injection Hn as <-. lia.
  - exists m. split; [exact H1|exact H2].
Defined.


(** The wire after the console lines and toasts that end a service. *)
Ltac same_wire :=
  repeat (rewrite wire_app; simpl); rewrite ?app_nil_r; try done.


(** X7. [authService.refreshToken] hands back the very token the request
    interceptor sends along: the one of the local storage, or else the
    one of the session storage; and it rejects exactly when the
    interceptor would add no [Authorization] header.  It changes nothing
    in the browser but the console. *)
Theorem refreshToken_returns_the_token_in_use (b : Client.browser)
    (probe : option http_response) (cfg : Api.request) :
  Api.checkServerConnectivity probe = true →
  let after := Client.refreshToken b in
  Client.localStorage (fst after) = Client.localStorage b
  ∧ Client.sessionStorage (fst after) = Client.sessionStorage b
  ∧ Client.wire (Client.trace (fst after)) = Client.wire (Client.trace b)
  ∧ match snd after with
    | Ok v =>
        ∃ t, v = VObj {[ "data" := VObj {[ "token" := VStr t ]} ]}
             ∧ Api.request_interceptor probe (Client.localStorage b)
                 (Client.sessionStorage b) cfg
               = Ok {| Api.req_method := Api.req_method cfg; Api.req_url := Api.req_url cfg;
                       Api.req_timeout := Api.req_timeout cfg;
                       Api.req_headers :=
                         <["Authorization" := "Bearer " +:+ t]> (Api.req_headers cfg);
                       Api.req_data := Api.req_data cfg |}
    | Throw e =>
        e = Error "No token available to refresh"
        ∧ Api.request_interceptor probe (Client.localStorage b)
            (Client.sessionStorage b) cfg = Ok cfg
    end.
Proof.
  intros Hp. cbv zeta. unfold Client.refreshToken, Client.current_token. run_browser.
  unfold Api.request_interceptor. rewrite Hp. simpl.
  destruct (Api.stored_token (Client.localStorage b)) as [t|]; simpl.
  { split; [done|]. split; [done|]. split; [same_wire|]. eauto. }
  destruct (Api.stored_token (Client.sessionStorage b)) as [t|]; simpl.
  { split; [done|]. split; [done|]. split; [same_wire|]. eauto. }
  done.
Qed.

(** The statement above for a browser with a token in the session
    storage only. *)
Lemma refreshToken_returns_the_token_in_use_witness :
  let b := {| Client.localStorage := ∅; Client.sessionStorage := {[ "token" := "temporary" ]};
              Client.href := None; Client.trace := [] |} in
  let cfg := Api.api_config "GET" "/admin/me" None in
  let probe := Some {| status := 200; data := VObj {[ "status" := VStr "ok" ]} |} in
  match snd (Client.refreshToken b) with
  | Ok v =>
      ∃ t, v = VObj {[ "data" := VObj {[ "token" := VStr t ]} ]}
           ∧ Api.request_interceptor probe (Client.localStorage b)
               (Client.sessionStorage b) cfg
             = Ok {| Api.req_method := Api.req_method cfg; Api.req_url := Api.req_url cfg;
                     Api.req_timeout := Api.req_timeout cfg;
                     Api.req_headers :=
                       <["Authorization" := "Bearer " +:+ t]> (Api.req_headers cfg);
                     Api.req_data := Api.req_data cfg |}
  | Throw e =>
      e = Error "No token available to refresh"
      ∧ Api.request_interceptor probe (Client.localStorage b)
          (Client.sessionStorage b) cfg = Ok cfg
  end.
Proof.
  exact (proj2 (proj2 (proj2 (refreshToken_returns_the_token_in_use
    {| Client.localStorage := ∅; Client.sessionStorage := {[ "token" := "temporary" ]};
       Client.href := None; Client.trace := [] |}
    (Some {| status := 200; data := VObj {[ "status" := VStr "ok" ]} |})
    (Api.api_config "GET" "/admin/me" None) eq_refl)))).
Defined.

(** *** The query of the attendance history *)











(** *** The pages of the attendance history *)



(** *** The page list *)

Lemma seqZ_sorted (m n : Z) : StronglySorted Z.lt (seqZ m n).
Proof.
  destruct (Z.le_gt_cases n 0) as [Hn|Hn]; [rewrite seqZ_nil by done; constructor|].
  rewrite <- (Z2Nat.id n) by lia. generalize (Z.to_nat n) as k. clear.
  intros k. revert m. induction k as [|k IH]; intros m; [constructor|].
  rewrite seqZ_cons by lia.
  replace (Z.pred (Z.of_nat (S k))) with (Z.of_nat k) by lia.
  apply SSorted_cons; [apply IH|].
  apply Forall_seqZ. lia.
Qed.

Lemma omap_pages (l : list Z) :
  omap (fun i => match i with Pagination.Page n => Some n | Pagination.Dots => None end)
       (Pagination.Page <$> l) = l.
Proof. induction l as [|x l IH]; csimpl; [done|]. by rewrite IH. Qed.

(** X10. The list of pages of [Pagination], for [totalPages] pages of
    which [currentPage] is shown.  With 5 pages or fewer every page is
    listed and there are no dots.  With more, the pages listed are the
    first, the last, the current one and its two neighbours, and the dots
    stand for the others.  The page numbers come in increasing order,
    none twice, and the list has at most 7 entries. *)
Theorem page_list_shape (c t : Z) :
  (1 ≤ c ≤ t)%Z → (1 < t)%Z →
  let l := Pagination.getPageNumbers c t in
  let pages := omap (fun i => match i with Pagination.Page n => Some n
                                          | Pagination.Dots => None end) l in
  (∀ n, Pagination.Page n ∈ l
        ↔ (1 ≤ n ≤ t)%Z ∧ ((t ≤ 5)%Z ∨ n = 1%Z ∨ n = t ∨ (c - 1 ≤ n ≤ c + 1)%Z))
  ∧ StronglySorted Z.lt pages
  ∧ (Pagination.Dots ∈ l ↔ (5 < t)%Z)
  ∧ length l ≤ 7.
Proof.
  intros Hc Ht. cbv zeta. unfold Pagination.getPageNumbers.
  destruct (Z.leb_spec t 5) as [H5|H5].
  - rewrite omap_pages. split; [|split; [apply seqZ_sorted|split]].
    + intros n. rewrite list_elem_of_fmap. setoid_rewrite elem_of_seqZ.
      split; [intros (y & [= <-] & ?); lia|intros (? & _); exists n; split; [done|lia]].
    + rewrite list_elem_of_fmap. split; [by intros (y & ? & _)|lia].
    + rewrite length_fmap, length_seqZ. lia.
  - set (s := Z.max 2 (c - 1)). set (e := Z.min (t - 1) (c + 1)).
    assert (2 ≤ s)%Z by lia. assert (e ≤ t - 1)%Z by lia.
    split; [|split; [|split]].
    + intros n. rewrite !elem_of_app, list_elem_of_fmap, !list_elem_of_singleton.
      setoid_rewrite elem_of_seqZ.
      split.
      * intros [[= ->]|[Hd|[(y & [= <-] & ?)|[Hd|[= ->]]]]]; try lia.
        -- destruct (2 <? s)%Z; [apply list_elem_of_singleton in Hd; done|by apply elem_of_nil in Hd].
        -- destruct (e <? t - 1)%Z; [apply list_elem_of_singleton in Hd; done|by apply elem_of_nil in Hd].
      * intros (Hn & [?|[->|[->|?]]]); [lia|by left| by do 4 right|].
        destruct (Z.eq_dec n 1%Z) as [->|]; [by left|].
        destruct (Z.eq_dec n t) as [->|]; [by do 4 right|].
        right. right. left. exists n. split; [done|lia].
    + rewrite !omap_app, omap_pages. simpl.
      assert (omap (fun i => match i with Pagination.Page n => Some n
                                        | Pagination.Dots => None end)
                (if (2 <? s)%Z then [Pagination.Dots] else []) = []) as ->
        by by destruct (2 <? s)%Z.
      assert (omap (fun i => match i with Pagination.Page n => Some n
                                        | Pagination.Dots => None end)
                (if (e <? t - 1)%Z then [Pagination.Dots] else []) = []) as ->
        by by destruct (e <? t - 1)%Z.
      simpl. apply SSorted_cons.
      * apply StronglySorted_app_2; [|apply seqZ_sorted|repeat constructor].
        intros x1 x2 Hx1%elem_of_seqZ Hx2%list_elem_of_singleton. lia.
      * apply Forall_app. split; [apply Forall_seqZ; lia|]. repeat constructor. lia.
    + split; [lia|]. intros _. rewrite !elem_of_app.
      destruct (Z.ltb_spec 2 s); [right; left; by apply list_elem_of_singleton|].
      destruct (Z.ltb_spec e (t - 1)); [do 3 right; left; by apply list_elem_of_singleton|].
      lia.
    + rewrite !length_app, length_fmap, length_seqZ. simpl.
      destruct (2 <? s)%Z; destruct (e <? t - 1)%Z; simpl; lia.
Qed.

(** The statement above for page 4 of 9. *)
Lemma page_list_shape_witness :
  Pagination.getPageNumbers 4 9
  = [Pagination.Page 1; Pagination.Dots; Pagination.Page 3; Pagination.Page 4;
     Pagination.Page 5; Pagination.Dots; Pagination.Page 9]
  ∧ (Pagination.Dots ∈ Pagination.getPageNumbers 4 9 ↔ (5 < 9)%Z).
Proof.
  split; [reflexivity|].
  exact (proj1 (proj2 (proj2 (page_list_shape 4 9 ltac:(lia) ltac:(lia))))).
Defined.

(** *** Deleting attendance records *)

Lemma api_summary (js : Client.runtime) (net : Client.server)
    (method url : string) (o : Client.options) (b : Client.browser) :
  let after := fst (Client.api js net method url o b) in
  ∃ rest shown,
    Client.wire (Client.trace after) = Client.wire (Client.trace b) ++ Client.probe :: rest
    ∧ Client.toasts (Client.trace after) = Client.toasts (Client.trace b) ++ shown
    ∧ Client.questions (Client.trace after) = Client.questions (Client.trace b).
Proof.
  cbv zeta.
  pose proof (api_browser js net method url o b)
    as ((request & shown & Ht & Hreq & Hshown) & _).
  cbv zeta in Ht. rewrite Ht, !wire_app, !toasts_app, !questions_app.
  exists (Client.wire request), (Client.toasts shown).
  destruct Hshown as [->|(k & c & ->)]; destruct Hreq as [->|(x & ->)]; simpl;
    rewrite ?app_nil_r; done.
Qed.

(** Reads the wire, the toasts and the questions off a trace that ends
    with notes. *)
Ltac read_trace :=
  simpl; rewrite ?wire_app, ?toasts_app, ?questions_app; simpl; rewrite ?app_nil_r.

(** X11. Deleting an attendance record, or clearing the history of a
    student, waits for the operator: the handlers of the history page ask
    their question once, and when the answer is no nothing is put on the
    wire, no toast is shown and the list is not fetched again.  When the
    answer is yes the probe goes out and at least one toast tells how it
    went, whatever the backend does.  The handlers never reject, and they
    fetch the list again only after a confirmed request. *)
Theorem deletion_waits_for_confirmation (js : Client.runtime) (confirmed : bool)
    (net : Client.server) (studentId recordId : value) (b : Client.browser) :
  let waits question after :=
    (∃ refreshed : bool, snd after = Ok refreshed ∧ (refreshed = true → confirmed = true))
    ∧ Client.questions (Client.trace (fst after))
      = Client.questions (Client.trace b) ++ [question]
    ∧ (if confirmed
       then (∃ rest, Client.wire (Client.trace (fst after))
                     = Client.wire (Client.trace b) ++ Client.probe :: rest)
            ∧ length (Client.toasts (Client.trace b))
              < length (Client.toasts (Client.trace (fst after)))
       else Client.wire (Client.trace (fst after)) = Client.wire (Client.trace b)
            ∧ Client.toasts (Client.trace (fst after)) = Client.toasts (Client.trace b)
            ∧ snd after = Ok false) in
  waits "Are you sure you want to delete this attendance record? This action cannot be undone."
    (HistoryPage.handleDeleteRecord js confirmed net studentId recordId b)
  ∧ waits "Are you sure you want to clear all attendance history for this student? This action cannot be undone."
      (HistoryPage.handleClearHistory js confirmed net studentId b).
Proof.
  cbv zeta. split.
  - unfold HistoryPage.handleDeleteRecord, Client.deleteAttendanceRecord. run_browser.
    destruct confirmed; simpl.
    2:{ simplify_map_eq. read_trace. split; [eauto|]. done. }
    match goal with |- context [Client.api ?p ?n ?m ?u ?o ?b0] =>
      destruct (api_summary p n m u o b0) as (rest & shown & Hw & Ht & Hq);
      destruct (Client.api p n m u o b0) as [b1 [r|e]]
    end; simpl in *; revert Hw Ht Hq; read_trace; intros Hw Ht Hq.
    + destruct (member (data r) "cancelled") as [cancelled|e]; simpl.
      * destruct (truthy cancelled); simpl;
          [|destruct (is_string (opt_member (data r) "status") "success"); simpl];
          read_trace; rewrite Hw, Ht, Hq, ?length_app; simpl;
          (split; [eauto|]); (split; [done|]); (split; [eauto|lia]).
      * read_trace. rewrite Hw, Ht, Hq, ?length_app. simpl.
        split; [eauto|]. split; [done|]. split; [eauto|lia].
    + read_trace. rewrite Hw, Ht, Hq, ?length_app. simpl.
      split; [eauto|]. split; [done|]. split; [eauto|lia].
  - unfold HistoryPage.handleClearHistory, Client.clearAttendanceHistory. run_browser.
    destruct confirmed; simpl.
    2:{ simplify_map_eq. read_trace. split; [eauto|]. done. }
    match goal with |- context [Client.api ?p ?n ?m ?u ?o ?b0] =>
      destruct (api_summary p n m u o b0) as (rest & shown & Hw & Ht & Hq);
      destruct (Client.api p n m u o b0) as [b1 [r|e]]
    end; simpl in *; revert Hw Ht Hq; read_trace; intros Hw Ht Hq.
    + destruct (member (data r) "cancelled") as [cancelled|e]; simpl.
      * destruct (truthy cancelled); simpl;
          [|destruct (is_string (opt_member (data r) "status") "success"); simpl];
          read_trace; rewrite Hw, Ht, Hq, ?length_app; simpl;
          (split; [eauto|]); (split; [done|]); (split; [eauto|lia]).
      * read_trace. rewrite Hw, Ht, Hq, ?length_app. simpl.
        split; [eauto|]. split; [done|]. split; [eauto|lia].
    + read_trace. rewrite Hw, Ht, Hq, ?length_app. simpl.
      split; [eauto|]. split; [done|]. split; [eauto|lia].
Qed.


(** A call to a backend whose probe fails: the probe alone goes out, one
    toast says that the server cannot be reached, and the caller receives
    "Server connection failed". *)
Lemma api_down (js : Client.runtime) (net : Client.server)
    (method url : string) (o : Client.options) (b : Client.browser) :
  Api.checkServerConnectivity (Client.health net) = false →
  Client.api js net method url o b
  = (Client.note (Client.Toast Client.TError
       (VStr "Cannot connect to server. Please check your connection and try again."))
       (Client.note (Client.Wire Client.probe) b),
     Throw (Error "Server connection failed")).
Proof.
  intros Hp. pose proof (api_cases js net method url o b) as H. cbv zeta in H.
  rewrite (interceptor_down _ _ _ _ Hp) in H. rewrite H. done.
Qed.



(** *** Reports *)

(** X13. [reportService.generateReport] sends a request for the four
    report types of its table only: for any other name (that is not a
    member every object inherits) it rejects with "Unknown report type"
    and puts nothing on the wire.  The deprecated
    [attendanceService.generateReport] takes the name of an endpoint and
    strips "AttendanceReport" from it; with the last part of the path of
    the daily, weekly or monthly endpoint it reaches that endpoint again,
    but the last part of the path of the individual report,
    "individualStudentReport", is not a name of the table and is
    rejected. *)
Theorem report_types_and_endpoint_names (js : Client.runtime)
    (get_no_string : Client.M http_response) (net : Client.server)
    (reportType : string) (params : value) (headers : gmap string string)
    (b : Client.browser) :
  (reportType ∉ Client.Object_prototype →
   match Client.reportEndpoints !! reportType with
   | None =>
       Client.generateReport js get_no_string net reportType params headers b
       = (b, Throw (Error ("Unknown report type: " +:+ reportType)))
   | Some url =>
       ∃ rest, Client.wire (Client.trace
                 (fst (Client.generateReport js get_no_string net reportType
                         params headers b)))
               = Client.wire (Client.trace b) ++ Client.probe :: rest
               ∧ ∀ x, x ∈ rest → Api.req_url (Client.sent x) = Api.API_URL +:+ url
                                  ∧ Client.responseType x = Some "blob"
   end)
  ∧ (∀ url, Client.reportEndpoints !! reportType = Some url →
     let name := Text.slice (String.length "/reports/") url in
     let logged :=
       Client.note (Client.Console Client.WARN
         "attendanceService.generateReport is deprecated. Please use reportService.generateReport instead.")
         (Client.note (Client.Console Client.LOG
            ("Generating " +:+ name +:+ " with params:")) b) in
     Client.attendance_generateReport js get_no_string net name params headers b
     = if String.eqb reportType "individual"
       then (logged, Throw (Error "Unknown report type: individualStudentReport"))
       else Client.generateReport js get_no_string net reportType params headers
              logged).
Proof.
  split.
  - intros Hown. unfold Client.generateReport.
    destruct (Client.reportEndpoints !! reportType) as [url|] eqn:Hurl.
    + pose proof (api_cases js net "GET" url
        {| Client.body := None; Client.query := params;
           Client.headers := headers ∪ <["Accept" :=
             "application/vnd.openxmlformats-officedocument.spreadsheetml.sheet"]>
             Client.format_headers;
           Client.expect := Some "blob" |} b) as H.
      cbv zeta in H.
      destruct (Api.request_interceptor _ _ _ _) as [cfg|e] eqn:Hcfg.
      * apply request_interceptor_keeps in Hcfg as (_ & Hu & _).
        eexists [_]. split.
        -- destruct (Client.settled _) as [answer|e]; rewrite H.
           ++ simpl. rewrite <- !(assoc_L (++)), !wire_app. done.
           ++ match goal with |- context [Client.response_rejected ?p ?u ?h ?e0 ?b0] =>
                pose proof (response_rejected_browser p u h e0 b0)
                  as (_ & _ & (shown & Ht & Hshown) & _)
              end.
              cbv zeta in Ht. rewrite Ht. simpl.
              rewrite <- !(assoc_L (++)), !wire_app.
              destruct Hshown as [->|(k & c & ->)]; simpl; by rewrite ?app_nil_r.
        -- intros x Hx%list_elem_of_singleton. subst x. simpl. by rewrite Hu.
      * exists []. split; [|by intros x Hx%elem_of_nil].
        rewrite H.
        match goal with |- context [Client.response_rejected ?p ?u ?h ?e0 ?b0] =>
          pose proof (response_rejected_browser p u h e0 b0)
            as (_ & _ & (shown & Ht & Hshown) & _)
        end.
        cbv zeta in Ht. rewrite Ht. simpl. rewrite !wire_app.
        destruct Hshown as [->|(k & c & ->)]; simpl; by rewrite ?app_nil_r.
    + rewrite bool_decide_eq_false_2 by done. done.
  - intros url Hurl. cbv zeta.
    unfold Client.reportEndpoints in Hurl.
    apply lookup_insert_Some in Hurl as [[<- <-]|[_ Hurl]]; [reflexivity|].
    apply lookup_insert_Some in Hurl as [[<- <-]|[_ Hurl]]; [reflexivity|].
    apply lookup_insert_Some in Hurl as [[<- <-]|[_ Hurl]]; [reflexivity|].
    apply lookup_singleton_Some in Hurl as [<- <-]. reflexivity.
Qed.

(** The statement above for a name that is in no table. *)
Lemma report_types_and_endpoint_names_witness :
  Client.generateReport Client.sample_runtime (Client.throw (Error "no URL"))
    {| Client.health := None;
       Client.serve := fun _ => {| Client.settled := Throw (Error "unused");
                                   Client.reply_headers := ∅ |} |}
    "yearly" VUndef ∅
    {| Client.localStorage := ∅; Client.sessionStorage := ∅;
       Client.href := None; Client.trace := [] |}
  = ({| Client.localStorage := ∅; Client.sessionStorage := ∅;
        Client.href := None; Client.trace := [] |},
     Throw (Error "Unknown report type: yearly")).
Proof.
  refine (proj1 (report_types_and_endpoint_names Client.sample_runtime
    (Client.throw (Error "no URL"))
    {| Client.health := None;
       Client.serve := fun _ => {| Client.settled := Throw (Error "unused");
                                   Client.reply_headers := ∅ |} |}
    "yearly" VUndef ∅
    {| Client.localStorage := ∅; Client.sessionStorage := ∅;
       Client.href := None; Client.trace := [] |}) _).
  unfold Client.Object_prototype. intros H.
  repeat (apply elem_of_cons in H as [H|H]; [discriminate H|]).
  by apply elem_of_nil in H.
Defined.

(** *** Checking out *)

Lemma find_today_first (local_midnight : value → option Z) (today : Z)
    (before : list value) (record : value) (after : list value) (date : value) :
  Forall (fun r => ∃ d, member r "date" = Ok d ∧ local_midnight d ≠ Some today) before →
  member record "date" = Ok date → local_midnight date = Some today →
  Client.find_today local_midnight today (before ++ record :: after) = Ok (Some record).
Proof.
  intros Hbefore Hdate Htoday.
  induction Hbefore as [|r before (d & Hd & Hne) _ IH]; simpl.
  - rewrite Hdate. by rewrite bool_decide_eq_true_2.
  - rewrite Hd. by rewrite bool_decide_eq_false_2.
Qed.

(** X14. [attendanceService.canCheckOut] decides by the first record of
    the attendance history that is dated today, and by that one alone:
    the student can be checked out exactly when that record has the
    status ['entered'] or ['present'] and no [leaveTime], whatever the
    records after it say (a second entry of the same day is not looked
    at). *)
Theorem canCheckOut_first_record_of_today (local_midnight : value → option Z) (today : Z)
    (student : gmap string value) (before : list value) (record : gmap string value)
    (after : list value) (date : value) :
  student !! "attendanceHistory" = Some (VArr (before ++ VObj record :: after)) →
  Forall (fun r => ∃ d, member r "date" = Ok d ∧ local_midnight d ≠ Some today) before →
  record !! "date" = Some date → local_midnight date = Some today →
  Client.canCheckOut local_midnight today (VObj student)
  = Ok (VBool ((is_string (default VUndef (record !! "status")) "entered"
                || is_string (default VUndef (record !! "status")) "present")
               && negb (truthy (default VUndef (record !! "leaveTime"))))).
Proof.
  intros Hhistory Hbefore Hdate Htoday.
  unfold Client.canCheckOut. simpl. rewrite Hhistory. simpl.
  rewrite (find_today_first local_midnight today before (VObj record) after date Hbefore);
    [done| |done].
  simpl. by rewrite Hdate.
Qed.

(** The statement above for a student who entered, left and entered
    again today (day 20000); the time of a date is carried as a number. *)
Lemma canCheckOut_first_record_of_today_witness :
  let day v := match v with VNum t => Some (t / 86400000 * 86400000)%Z | _ => None end in
  let yesterday : gmap string value :=
    {[ "date" := VNum 1727913600000; "status" := VStr "entered" ]} in
  let first : gmap string value :=
    {[ "date" := VNum 1728000000000; "status" := VStr "left";
       "leaveTime" := VStr "12:00" ]} in
  let second : gmap string value :=
    {[ "date" := VNum 1728000001000; "status" := VStr "entered" ]} in
  Client.canCheckOut day 1728000000000
    (VObj {[ "attendanceHistory" := VArr ([VObj yesterday] ++ VObj first :: [VObj second]) ]})
  = Ok (VBool ((is_string (default VUndef (first !! "status")) "entered"
                || is_string (default VUndef (first !! "status")) "present")
               && negb (truthy (default VUndef (first !! "leaveTime"))))).
Proof.
  cbv zeta.
  apply (canCheckOut_first_record_of_today
    (fun v => match v with VNum t => Some (t / 86400000 * 86400000)%Z | _ => None end)
    1728000000000
    {[ "attendanceHistory" :=
         VArr ([VObj {[ "date" := VNum 1727913600000; "status" := VStr "entered" ]}]
               ++ VObj {[ "date" := VNum 1728000000000; "status" := VStr "left";
                          "leaveTime" := VStr "12:00" ]}
                  :: [VObj {[ "date" := VNum 1728000001000; "status" := VStr "entered" ]}]) ]}
    [VObj {[ "date" := VNum 1727913600000; "status" := VStr "entered" ]}]
    {[ "date" := VNum 1728000000000; "status" := VStr "left"; "leaveTime" := VStr "12:00" ]}
    [VObj {[ "date" := VNum 1728000001000; "status" := VStr "entered" ]}]
    (VNum 1728000000000)).
  - reflexivity.
  - repeat constructor. exists (VNum 1727913600000). split; [reflexivity|]. simpl. discriminate.
  - reflexivity.
  - reflexivity.
Defined.

(** *** Messages *)

(** The requests of one call: after the probe, the request itself when
    the backend is healthy, and nothing when it is not. *)
Lemma api_requests (js : Client.runtime) (net : Client.server)
    (method url : string) (o : Client.options) (b : Client.browser) :
  ∃ rest,
    Client.wire (Client.trace (fst (Client.api js net method url o b)))
    = Client.wire (Client.trace b) ++ Client.probe :: rest
    ∧ (∀ x, x ∈ rest →
         Api.req_method (Client.sent x) = method
         ∧ Api.req_url (Client.sent x) = Api.API_URL +:+ url
         ∧ Api.req_data (Client.sent x) = Client.body o
         ∧ Client.params x = Client.query o
         ∧ Client.responseType x = Client.expect o)
    ∧ (if Api.checkServerConnectivity (Client.health net)
       then ∃ x, rest = [x] else rest = []).
Proof.
  pose proof (api_cases js net method url o b) as H. cbv zeta in H.
  destruct (Api.checkServerConnectivity (Client.health net)) eqn:Hp.
  - destruct (interceptor_healthy (Client.health net) (Client.localStorage b)
                (Client.sessionStorage b) (Client.config method url o) Hp)
      as (cfg & Hcfg & Hm & Hu & Hd).
    rewrite Hcfg in H.
    exists [{| Client.sent := cfg; Client.params := Client.query o;
               Client.responseType := Client.expect o |}].
    split; [|split; [|eauto]].
    + destruct (Client.settled _) as [answer|e]; rewrite H.
      * simpl. rewrite <- !(assoc_L (++)), !wire_app. done.
      * match goal with |- context [Client.response_rejected ?p ?u ?h ?e0 ?b0] =>
          pose proof (response_rejected_browser p u h e0 b0)
            as (_ & _ & (shown & Ht & Hshown) & _)
        end.
        cbv zeta in Ht. rewrite Ht. simpl. rewrite <- !(assoc_L (++)), !wire_app.
        destruct Hshown as [->|(k & c & ->)]; simpl; by rewrite ?app_nil_r.
    + intros x Hx%list_elem_of_singleton. subst x. simpl. by rewrite Hm, Hu, Hd.
  - rewrite (api_down _ _ _ _ _ _ Hp). exists []. simpl.
    split; [|split; [by intros x Hx%elem_of_nil|done]].
    rewrite !wire_app. simpl. by rewrite app_nil_r.
Qed.


Lemma wire_cons (e : Client.effect) (l : list Client.effect) :
  Client.wire (e :: l)
  = match e with Client.Wire x => x :: Client.wire l | _ => Client.wire l end.
Proof. by destruct e. Qed.

Lemma wire_fmap (l : list Client.exchange) : Client.wire (Client.Wire <$> l) = l.
Proof. induction l as [|x l IH]; [done|]. unfold Client.wire in *. csimpl. by rewrite IH. Qed.

(** The trace of one call. *)
Lemma api_trace (js : Client.runtime) (net : Client.server)
    (method url : string) (o : Client.options) (b : Client.browser) :
  ∃ rest shown,
    Client.trace (fst (Client.api js net method url o b))
    = Client.trace b ++ Client.Wire Client.probe :: (Client.Wire <$> rest) ++ shown
    ∧ (∀ x, x ∈ rest →
         Api.req_method (Client.sent x) = method
         ∧ Api.req_url (Client.sent x) = Api.API_URL +:+ url
         ∧ Api.req_data (Client.sent x) = Client.body o)
    ∧ (shown = [] ∨ ∃ k c, shown = [Client.Toast k c])
    ∧ (∀ r, snd (Client.api js net method url o b) = Ok r →
         shown = [] ∧ ∃ x, rest = [x] ∧ Client.settled (Client.serve net x) = Ok r).
Proof.
  pose proof (api_cases js net method url o b) as H. cbv zeta in H.
  destruct (Api.request_interceptor _ _ _ _) as [cfg|e] eqn:Hcfg.
  - apply request_interceptor_keeps in Hcfg as (Hm & Hu & _ & Hd).
    assert (Hprops : ∀ x, x ∈ [{| Client.sent := cfg; Client.params := Client.query o;
                                   Client.responseType := Client.expect o |}] →
              Api.req_method (Client.sent x) = method
              ∧ Api.req_url (Client.sent x) = Api.API_URL +:+ url
              ∧ Api.req_data (Client.sent x) = Client.body o).
    { intros x Hx%list_elem_of_singleton. subst x. simpl. by rewrite Hm, Hu, Hd. }
    destruct (Client.settled _) as [answer|e] eqn:Hs; rewrite H.
    + eexists [_], []. simpl. rewrite <- !(assoc_L (++)). simpl.
      split; [done|]. split; [exact Hprops|]. split; [by left|].
      intros r [= <-]. split; [done|]. eauto.
    + match goal with |- context [Client.response_rejected ?p ?u ?h ?e0 ?b0] =>
        pose proof (response_rejected_browser p u h e0 b0)
          as (Hr & _ & (shown & Ht & Hshown) & _)
      end.
      cbv zeta in Ht, Hr. rewrite Ht. eexists [_], shown. simpl.
      rewrite <- !(assoc_L (++)). simpl. split; [done|]. split; [exact Hprops|].
      split; [done|]. intros r Hr'. congruence.
  - rewrite H.
    match goal with |- context [Client.response_rejected ?p ?u ?h ?e0 ?b0] =>
      pose proof (response_rejected_browser p u h e0 b0)
        as (Hr & _ & (shown & Ht & Hshown) & _)
    end.
    cbv zeta in Ht, Hr. rewrite Ht. exists [], shown. simpl.
    rewrite <- !(assoc_L (++)). simpl. split; [done|].
    split; [by intros x Hx%elem_of_nil|]. split; [done|]. intros r Hr'. congruence.
Qed.


Ltac wire_norm :=
  repeat first [rewrite wire_app | rewrite wire_cons | rewrite wire_fmap]; simpl.

(** X17. [messagingService.refreshQRCode] fetches the new code only
    after the backend has confirmed the refresh: whenever a request for
    [/whatsapp/qr] goes out, it is the last of three requests, each
    behind its probe; the first asked for the status and was answered,
    and the second, the [POST] to [/whatsapp/qr/refresh], was answered
    with a body whose [success] is truthy. *)
Theorem refreshed_code_follows_the_refresh (js : Client.runtime) (now : string)
    (net1 net2 net3 : Client.server) (b : Client.browser) :
  let after := Client.refreshQRCode js now net1 net2 net3 b in
  ∃ added,
    Client.trace (fst after) = Client.trace b ++ added
    ∧ ∀ x, x ∈ Client.wire added →
           Api.req_url (Client.sent x) = Api.API_URL +:+ "/whatsapp/qr" →
           ∃ asked refresh answer confirmed,
             Client.wire added
             = [Client.probe; asked; Client.probe; refresh; Client.probe; x]
             ∧ Client.settled (Client.serve net1 asked) = Ok answer
             ∧ Api.req_url (Client.sent asked) = Api.API_URL +:+ "/whatsapp/status"
             ∧ Api.req_method (Client.sent refresh) = "POST"
             ∧ Api.req_url (Client.sent refresh) = Api.API_URL +:+ "/whatsapp/qr/refresh"
             ∧ Client.settled (Client.serve net2 refresh) = Ok confirmed
             ∧ truthy (opt_member (data confirmed) "success") = true.
Proof.
  cbv zeta. unfold Client.refreshQRCode. run_browser.
  assert (Hprobe : Api.req_url (Client.sent Client.probe) ≠ Api.API_URL +:+ "/whatsapp/qr")
    by discriminate.
  assert (Hno : ∀ (l : list Client.exchange) (url : string),
            url ≠ "/whatsapp/qr" →
            (∀ x, x ∈ l → Api.req_url (Client.sent x) = Api.API_URL +:+ url) →
            ∀ x, x ∈ l → Api.req_url (Client.sent x) ≠ Api.API_URL +:+ "/whatsapp/qr").
  { intros l url Hne Hl x Hin Hx. rewrite (Hl x Hin) in Hx.
    apply Hne. unfold Api.API_URL in Hx. by simplify_eq. }
  (* the status *)
  destruct (api_trace js net1 "GET" "/whatsapp/status" Client.plain b)
    as (rest1 & shown1 & Ht1 & Hx1 & Hs1 & Hok1).
  assert (Hw1 : Client.wire shown1 = []) by (destruct Hs1 as [->|(k & c & ->)]; done).
  assert (Hu1 : ∀ x, x ∈ rest1 →
            Api.req_url (Client.sent x) ≠ Api.API_URL +:+ "/whatsapp/qr").
  { apply (Hno rest1 "/whatsapp/status"); [done|].
    intros x Hin. by destruct (Hx1 x Hin) as (_ & ? & _). }
  destruct (Client.api js net1 "GET" "/whatsapp/status" Client.plain b)
    as [b1 [r1|e1]]; simpl in Ht1, Hok1 |- *.
  2:{ eexists. split; [by rewrite Ht1, <- ?(assoc_L (++))|].
      intros x Hin Hx. exfalso. revert Hin. wire_norm. rewrite Hw1, ?app_nil_r.
      intros [->|Hin]%elem_of_cons; [done|]. by apply (Hu1 x). }
  destruct (Hok1 r1 eq_refl) as (-> & asked & -> & Hasked).
  assert (Hu1' : Api.req_url (Client.sent asked) = Api.API_URL +:+ "/whatsapp/status").
  { by destruct (Hx1 asked ltac:(by apply list_elem_of_singleton)) as (_ & ? & _). }
  specialize (Hu1 asked ltac:(by apply list_elem_of_singleton)).
  clear Hx1 Hok1 Hs1 Hw1.
  (* the refresh *)
  destruct (api_trace js net2 "POST" "/whatsapp/qr/refresh" Client.plain b1)
    as (rest2 & shown2 & Ht2 & Hx2 & Hs2 & Hok2).
  assert (Hw2 : Client.wire shown2 = []) by (destruct Hs2 as [->|(k & c & ->)]; done).
  assert (Hu2 : ∀ x, x ∈ rest2 →
            Api.req_url (Client.sent x) ≠ Api.API_URL +:+ "/whatsapp/qr").
  { apply (Hno rest2 "/whatsapp/qr/refresh"); [done|].
    intros x Hin. by destruct (Hx2 x Hin) as (_ & ? & _). }
  destruct (Client.api js net2 "POST" "/whatsapp/qr/refresh" Client.plain b1)
    as [b2 [r2|e2]]; simpl in Ht2, Hok2 |- *.
  2:{ eexists. split; [by rewrite Ht2, Ht1, <- ?(assoc_L (++))|].
      intros x Hin Hx. exfalso. revert Hin. wire_norm. rewrite Hw2, ?app_nil_r.
      intros [->|[->|[->|Hin]%elem_of_cons]%elem_of_cons]%elem_of_cons; [done|done|done|].
      by apply (Hu2 x). }
  destruct (Hok2 r2 eq_refl) as (-> & refresh & -> & Hrefresh).
  destruct (Hx2 refresh ltac:(by apply list_elem_of_singleton)) as (Hm2' & Hu2' & _).
  specialize (Hu2 refresh ltac:(by apply list_elem_of_singleton)).
  clear Hx2 Hok2 Hs2 Hw2.
  destruct (member (data r2) "success") as [success|e] eqn:Hsuccess; simpl.
  2:{ eexists. split; [by rewrite Ht2, Ht1, <- ?(assoc_L (++))|].
      intros x Hin Hx. exfalso. revert Hin. wire_norm.
      by intros [->|[->|[->|[->|Hin%elem_of_nil]%elem_of_cons]%elem_of_cons]%elem_of_cons]%elem_of_cons. }
  destruct (truthy success) eqn:Htruthy; simpl.
  2:{ eexists. split; [by rewrite Ht2, Ht1, <- ?(assoc_L (++))|].
      intros x Hin Hx. exfalso. revert Hin. wire_norm.
      by intros [->|[->|[->|[->|Hin%elem_of_nil]%elem_of_cons]%elem_of_cons]%elem_of_cons]%elem_of_cons. }
  assert (Hconfirmed : truthy (opt_member (data r2) "success") = true).
  { destruct (data r2); simpl in *; try done; by simplify_eq. }
  (* the code *)
  destruct (api_trace js net3 "GET" "/whatsapp/qr" Client.plain b2)
    as (rest3 & shown3 & Ht3 & Hx3 & Hs3 & Hok3).
  assert (Hw3 : Client.wire shown3 = []) by (destruct Hs3 as [->|(k & c & ->)]; done).
  assert (Hshape : rest3 = [] ∨ ∃ y, rest3 = [y]).
  { pose proof (api_requests js net3 "GET" "/whatsapp/qr" Client.plain b2)
      as (rest & Hw & _ & Hrest).
    rewrite Ht3 in Hw. revert Hw. wire_norm. rewrite Hw3, ?app_nil_r.
    intros Hw. apply (inj (app _)) in Hw. injection Hw as ->.
    destruct (Api.checkServerConnectivity _); [right|left]; eauto. }
  assert (Hlast : ∀ x,
            x ∈ [Client.probe; asked; Client.probe; refresh; Client.probe] ++ rest3 →
            Api.req_url (Client.sent x) = Api.API_URL +:+ "/whatsapp/qr" →
            ∃ asked0 refresh0 answer confirmed,
              [Client.probe; asked; Client.probe; refresh; Client.probe] ++ rest3
              = [Client.probe; asked0; Client.probe; refresh0; Client.probe; x]
              ∧ Client.settled (Client.serve net1 asked0) = Ok answer
              ∧ Api.req_url (Client.sent asked0) = Api.API_URL +:+ "/whatsapp/status"
              ∧ Api.req_method (Client.sent refresh0) = "POST"
              ∧ Api.req_url (Client.sent refresh0) = Api.API_URL +:+ "/whatsapp/qr/refresh"
              ∧ Client.settled (Client.serve net2 refresh0) = Ok confirmed
              ∧ truthy (opt_member (data confirmed) "success") = true).
  { intros x Hin Hx. revert Hin. simpl.
    intros [->|[->|[->|[->|[->|Hin]%elem_of_cons]%elem_of_cons]%elem_of_cons]%elem_of_cons]%elem_of_cons;
      try done.
    destruct Hshape as [->|(y & ->)]; [by apply elem_of_nil in Hin|].
    apply list_elem_of_singleton in Hin as ->.
    by exists asked, refresh, r1, r2. }
  destruct (Client.api js net3 "GET" "/whatsapp/qr" Client.plain b2)
    as [b3 [r3|e3]]; simpl in Ht3 |- *.
  - destruct (member (data r3) "qrCode"); simpl.
    + eexists. split; [by rewrite Ht3, Ht2, Ht1, <- ?(assoc_L (++))|].
      intros x. wire_norm. rewrite Hw3, ?app_nil_r. apply Hlast.
    + eexists. split; [by rewrite Ht3, Ht2, Ht1, <- ?(assoc_L (++))|].
      intros x. wire_norm. rewrite Hw3, ?app_nil_r. apply Hlast.
  - eexists. split; [by rewrite Ht3, Ht2, Ht1, <- ?(assoc_L (++))|].
    intros x. wire_norm. rewrite Hw3, ?app_nil_r. apply Hlast.
Qed.

(** *** [qrCodeService.markAttendance] with its toasts and console lines *)

(** The configuration of a call with a body only is the one of the
    plain client. *)
Lemma config_with_body (method url : string) (v : value) :
  Client.config method url (Client.with_body v) = Api.api_config method url (Some v).
Proof. unfold Client.config, Api.api_config. simpl. by rewrite (left_id_L ∅ (∪)). Qed.

(** X18. [qrCodeService.markAttendance] run in the browser, with the
    toasts of the interceptor and the console lines of the service,
    puts on the wire exactly the requests of [Api.markAttendance], none
    of them with [params] or a [responseType], and ends as it does: the
    toasts and the console lines change neither the requests nor the
    outcome.  The session storage is left as it was. *)
Theorem markAttendance_requests_and_outcome (js : Client.runtime)
    (userAgent : string) (net : Client.server) (qrData : gmap string value)
    (b : Client.browser) :
  let full := Client.markAttendance js userAgent net qrData b in
  let plain := Api.markAttendance (Client.backend_of net) (Client.localStorage b)
                 (Client.sessionStorage b) userAgent qrData in
  snd full = snd plain
  ∧ Client.sessionStorage (fst full) = Client.sessionStorage b
  ∧ ∃ added,
      Client.trace (fst full) = Client.trace b ++ added
      ∧ Client.sent <$> Client.wire added = fst plain
      ∧ Forall (fun x => Client.params x = VUndef ∧ Client.responseType x = None)
               (Client.wire added).
Proof.
  cbv zeta. unfold Client.markAttendance, Api.markAttendance. run_browser.
  destruct (Api.markAttendance_body userAgent qrData) as [enriched|e]; simpl.
  2:{ split; [done|]. split; [done|]. eexists. split; [done|]. split; [done|].
      repeat constructor. }
  pose proof (api_cases js net "POST" "/students/mark-attendance"
                (Client.with_body enriched) b) as H.
  cbv zeta in H. rewrite config_with_body in H.
  unfold Api.api_call, Api.api_request. simpl.
  destruct (Api.request_interceptor _ _ _ _) as [cfg|e] eqn:Hcfg; simpl in *.
  - destruct (Client.settled _) as [answer|e] eqn:Hs; rewrite H; simpl.
    + split; [done|]. split; [done|]. eexists. rewrite <- !(assoc_L (++)).
      split; [done|]. wire_norm. split; [done|]. repeat constructor.
    + match goal with |- context [Client.response_rejected ?p ?u ?h ?e0 ?b0] =>
        pose proof (response_rejected_browser p u h e0 b0)
          as (Hr & Hss & (shown & Ht & Hshown) & _)
      end.
      cbv zeta in Hr, Hss, Ht.
      destruct (Client.response_rejected _ _ _ _ _) as [b' [r|e']]; simpl in *; [done|].
      injection Hr as ->. split; [done|]. split; [done|].
      eexists. rewrite Ht, <- !(assoc_L (++)). split; [done|]. wire_norm.
      assert (Client.wire shown = []) as ->
        by (destruct Hshown as [->|(k & c & ->)]; done).
      split; [done|]. repeat constructor.
  - rewrite H.
    match goal with |- context [Client.response_rejected ?p ?u ?h ?e0 ?b0] =>
      pose proof (response_rejected_browser p u h e0 b0)
        as (Hr & Hss & (shown & Ht & Hshown) & _)
    end.
    cbv zeta in Hr, Hss, Ht.
    destruct (Client.response_rejected _ _ _ _ _) as [b' [r|e']]; simpl in *; [done|].
    injection Hr as ->. split; [done|]. split; [done|].
    eexists. rewrite Ht, <- !(assoc_L (++)). split; [done|]. wire_norm.
    assert (Client.wire shown = []) as ->
      by (destruct Hshown as [->|(k & c & ->)]; done).
    split; [done|]. repeat constructor.
Qed.

(** ** Runs of the camera hook *)

(** [stopScanner] leaves the data and the console alone. *)
Lemma stopScanner_quiet (h : Hook.hook) :
  (Hook.scannedData (Hook.stopScanner h), Hook.console (Hook.stopScanner h))
  = (Hook.scannedData h, Hook.console h).
Proof.
  unfold Hook.stopScanner. cbv zeta.
  destruct (Hook.animationRef h); simpl;
    destruct (Hook.streamRef h); simpl; by destruct (Hook.videoRef h).
Qed.

(** What no event of the hook changes. *)
Lemma hook_handle_quiet (JSON_parse : string → option value) (e : HookRun.event)
    (s : HookRun.state) :
  Hook.scannedData (HookRun.hook s) = None →
  Hook.console (HookRun.hook s) = [] →
  Hook.scannedData (HookRun.hook (HookRun.handle JSON_parse e s)) = None
  ∧ Hook.console (HookRun.hook (HookRun.handle JSON_parse e s)) = [].
Proof.
  intros Hd Hc. destruct s as [h n]. simpl in *.
  destruct e as [| |camera| |id ready frame| |]; simpl.
  - done.
  - done.
  - destruct n; [done|]. destruct camera as [more|msg]; simpl; [|done].
    unfold Hook.startScanner_granted.
    destruct (Media.getUserMedia more (Hook.media h)) as [stream world]. simpl.
    by destruct (Hook.videoRef h).
  - unfold Hook.loadedmetadata. destruct (Hook.videoRef h) as [v|]; [|done].
    by destruct (Hook.onloadedmetadata v).
  - by destruct (bool_decide _).
  - pose proof (stopScanner_quiet h) as [= -> ->]. done.
  - unfold Hook.unmount. pose proof (stopScanner_quiet (Hook.detach h)) as [= -> ->]. done.
Qed.

(** X19. [useQRScanner] never hands out scanned data.  [startScanner]
    is memoised without dependencies, so the frames it schedules run the
    [processFrame] of the first render, which saw [scanning] as [false]
    and returns at once: whatever the component does and whatever the
    camera shows, [scannedData] stays [null] and no detection is
    logged. *)
Theorem useQRScanner_never_reports_a_code (JSON_parse : string → option value)
    (events : list HookRun.event) :
  Hook.scannedData (HookRun.hook (HookRun.run JSON_parse events)) = None
  ∧ Hook.console (HookRun.hook (HookRun.run JSON_parse events)) = [].
Proof.
  unfold HookRun.run.
  assert (H : ∀ s, Hook.scannedData (HookRun.hook s) = None →
                   Hook.console (HookRun.hook s) = [] →
                   Hook.scannedData
                     (HookRun.hook (foldl (λ s e, HookRun.handle JSON_parse e s) s events)) = None
                   ∧ Hook.console
                       (HookRun.hook (foldl (λ s e, HookRun.handle JSON_parse e s) s events)) = []).
  { induction events as [|e events IH]; intros s Hd Hc; [done|].
    simpl. destruct (hook_handle_quiet JSON_parse e s Hd Hc). by apply IH. }
  by apply H.
Qed.

(** ** The object URLs of the file scanner *)

Lemma none_live_one_preview (s : Upload.state) : none_live s → one_preview s.
Proof. intros H u Hu. by destruct (H u). Qed.

Lemma revokeObjectURL_live (u v : nat) (s : Upload.state) :
  Upload.urls (Upload.revokeObjectURL u s) !! v = Some true →
  Upload.urls s !! v = Some true ∧ v ≠ u.
Proof.
  simpl. intros H. destruct (decide (u = v)) as [->|Hne].
  - apply list_lookup_insert_Some in H as [(_ & ? & _)|(? & _)]; done.
  - by rewrite list_lookup_insert_ne in H.
Qed.

Lemma revoke_seen_current (s : Upload.state) :
  one_preview s → none_live (Upload.revoke_seen (Upload.previewUrl s) s).
Proof.
  intros H v Hv. unfold Upload.revoke_seen in Hv.
  destruct (Upload.previewUrl s) as [u|] eqn:Hp.
  - apply revokeObjectURL_live in Hv as [Hv Hne]. apply H in Hv. congruence.
  - apply H in Hv. congruence.
Qed.

Lemma setPreviewUrl_None (s : Upload.state) :
  one_preview s → none_live (Upload.setPreviewUrl None s).
Proof.
  intros H v Hv. unfold Upload.setPreviewUrl in Hv. cbv zeta in Hv.
  destruct (Upload.previewUrl s) as [u|] eqn:Hp.
  - rewrite bool_decide_eq_false_2 in Hv by done. simpl in Hv.
    destruct (decide (u = v)) as [->|Hne].
    + apply list_lookup_insert_Some in Hv as [(_ & ? & _)|(? & _)]; done.
    + rewrite list_lookup_insert_ne in Hv by done. apply H in Hv. congruence.
  - rewrite bool_decide_eq_true_2 in Hv by done. simpl in Hv. apply H in Hv. congruence.
Qed.

Lemma revokeObjectURL_one_preview (u : nat) (s : Upload.state) :
  one_preview s → one_preview (Upload.revokeObjectURL u s).
Proof. intros H v Hv. apply revokeObjectURL_live in Hv as [Hv _]. by apply H. Qed.

Lemma resetScanner_one_preview (p : option nat) (s : Upload.state) :
  one_preview s → one_preview (Upload.resetScanner p s).
Proof.
  intros H. unfold Upload.resetScanner. cbv zeta. destruct p as [u|]; [|exact H].
  apply none_live_one_preview, setPreviewUrl_None, revokeObjectURL_one_preview. exact H.
Qed.

Lemma handleFileChange_one_preview (f : option Upload.file) (created : bool)
    (s : Upload.state) :
  one_preview s → one_preview (Upload.handleFileChange f created s).
Proof.
  intros H. unfold Upload.handleFileChange. cbv zeta.
  set (s1 := Upload.set_core _ s).
  assert (Hnone : none_live (Upload.revoke_seen (Upload.previewUrl s) s1)).
  { apply (revoke_seen_current s1). exact H. }
  set (s2 := Upload.revoke_seen (Upload.previewUrl s) s1) in *.
  assert (Hcore : ∀ c, none_live (Upload.set_core c s2)) by (intros c; exact Hnone).
  destruct (Upload.validateFile f (Upload.core s2)) as [c [|]]; destruct f as [f|];
    try (apply none_live_one_preview, Hcore).
  destruct created.
  2:{ apply none_live_one_preview. exact Hnone. }
  simpl. intros v Hv. unfold Upload.setPreviewUrl in Hv |- *. cbv zeta in Hv |- *.
  simpl in Hv |- *.
  assert (Hlast : v = length (Upload.urls s2)).
  { destruct (bool_decide _) in Hv; simpl in Hv.
    - apply lookup_app_Some in Hv as [Hv|[Hle Hv]]; [by destruct (Hnone v)|].
      apply list_lookup_singleton_Some in Hv as [Hv _]. lia.
    - destruct (Upload.previewUrl s2) as [w|]; simpl in Hv.
      + destruct (decide (w = v)) as [->|Hne].
        * apply list_lookup_insert_Some in Hv as [(_ & ? & _)|(? & _)]; done.
        * rewrite list_lookup_insert_ne in Hv by done.
          apply lookup_app_Some in Hv as [Hv|[Hle Hv]]; [by destruct (Hnone v)|].
          apply list_lookup_singleton_Some in Hv as [Hv _]. lia.
      + apply lookup_app_Some in Hv as [Hv|[Hle Hv]]; [by destruct (Hnone v)|].
        apply list_lookup_singleton_Some in Hv as [Hv _]. lia. }
  subst v. destruct (bool_decide _); [done|].
  by destruct (Upload.previewUrl s2).
Qed.

Lemma upload_handle_one_preview (JSON_parse : string → option value)
    (URL_searchParams : string → option (string → option string)) (userAgent : string)
    (e : Upload.event) (s : Upload.state) :
  one_preview s → one_preview (Upload.handle JSON_parse URL_searchParams userAgent e s).
Proof.
  intros H. destruct e as [f created|i ok|i img|i outcome now|]; simpl.
  - by apply handleFileChange_one_preview.
  - destruct (Upload.reads s !! i) as [p|]; [|done].
    unfold Upload.read_settled. by destruct ok.
  - destruct (Upload.loads s !! i) as [p|]; [|done].
    unfold Upload.image_settled. destruct img as [|[msg|] frame]; [done|done|].
    cbv zeta. by destruct (_ <? _)%nat.
  - destruct (Digital.inflight (Upload.core s) !! i) as [payload|]; [|done].
    destruct (Upload.seen s !! i) as [p|]; [|done].
    unfold Upload.answered. cbv zeta. destruct outcome as [answer|err]; [|done].
    destruct (truthy (data answer)); [|done].
    destruct p as [u|]; [|done].
    apply none_live_one_preview, setPreviewUrl_None, revokeObjectURL_one_preview. exact H.
  - destruct (_ && _); [|done]. by apply resetScanner_one_preview.
Qed.

(** X20. The file scanner does not leak object URLs.  Whatever files
    are chosen and however the pending reads, images and submissions
    settle, the only object URL not yet revoked is the one in
    [previewUrl]; when the component unmounts, none is left. *)
Theorem object_urls_are_revoked (JSON_parse : string → option value)
    (URL_searchParams : string → option (string → option string)) (userAgent : string)
    (events : list Upload.event) :
  let s := Upload.run JSON_parse URL_searchParams userAgent events in
  (∀ u, Upload.urls s !! u = Some true → Upload.previewUrl s = Some u)
  ∧ (∀ u, Upload.urls (Upload.unmount s) !! u ≠ Some true).
Proof.
  cbv zeta.
  assert (H : one_preview (Upload.run JSON_parse URL_searchParams userAgent events)).
  { unfold Upload.run.
    assert (Hfold : ∀ s, one_preview s →
              one_preview (foldl (λ s e, Upload.handle JSON_parse URL_searchParams userAgent e s)
                             s events)).
    { induction events as [|e events IH]; intros s Hs; [done|].
      simpl. by apply IH, upload_handle_one_preview. }
    apply Hfold. by intros u Hu. }
  split; [exact H|]. by apply revoke_seen_current.
Qed.

(** [validateFile] tells the same of a file whatever the state. *)
Lemma validateFile_verdict (f : option Upload.file) (c c' : Digital.state) :
  snd (Upload.validateFile f c) = snd (Upload.validateFile f c').
Proof.
  unfold Upload.validateFile. destruct f as [f|]; [|done].
  destruct (negb _); [done|]. by destruct (_ <? _)%Z.
Qed.

(** X21. A file that [validateFile] turns down takes the preview with
    it: [handleFileChange] has revoked the object URL on screen before
    it looks at the new file, and leaves [previewUrl] as it was, so the
    component goes on showing an image whose URL is revoked, beside the
    error. *)
Theorem rejected_file_leaves_a_revoked_preview (f : option Upload.file) (created : bool)
    (s : Upload.state) (u : nat) :
  Upload.previewUrl s = Some u →
  u < length (Upload.urls s) →
  snd (Upload.validateFile f (Upload.core s)) = false →
  let s' := Upload.handleFileChange f created s in
  Upload.previewUrl s' = Some u
  ∧ Upload.urls s' !! u = Some false
  ∧ Upload.fileInfo s' = Upload.fileInfo s
  ∧ truthy (Digital.error (Upload.core s')) = true.
Proof.
  intros Hp Hu Hf. cbv zeta. unfold Upload.handleFileChange. cbv zeta.
  rewrite Hp. simpl Upload.revoke_seen.
  match goal with |- context [Upload.validateFile f ?c] =>
    rewrite (validateFile_verdict f (Upload.core s) c) in Hf;
    assert (Herr : truthy (Digital.error (fst (Upload.validateFile f c))) = true)
  end.
  { revert Hf. unfold Upload.validateFile. destruct f as [f|]; [|done].
    destruct (negb _); [done|]. by destruct (_ <? _)%Z. }
  destruct (Upload.validateFile f _) as [c verdict]. simpl in Hf, Herr. subst verdict.
  assert (Hrev : <[u := false]> (Upload.urls s) !! u = Some false)
    by by apply list_lookup_insert_eq.
  by destruct f.
Qed.

Lemma rejected_file_leaves_a_revoked_preview_witness :
  let s := Upload.handleFileChange
             (Some {| Upload.file_name := "card.png"; Upload.file_type := "image/png";
                      Upload.file_size := 2048 |}) true Upload.initial in
  let s' := Upload.handleFileChange
              (Some {| Upload.file_name := "notes.pdf"; Upload.file_type := "application/pdf";
                       Upload.file_size := 2048 |}) true s in
  Upload.previewUrl s' = Some 0
  ∧ Upload.urls s' !! 0 = Some false
  ∧ Upload.fileInfo s' = Upload.fileInfo s
  ∧ truthy (Digital.error (Upload.core s')) = true.
Proof.
  cbv zeta.
  apply (rejected_file_leaves_a_revoked_preview
           (Some {| Upload.file_name := "notes.pdf"; Upload.file_type := "application/pdf";
                    Upload.file_size := 2048 |}) true _ 0).
  - reflexivity.
  - vm_compute. lia.
  - reflexivity.
Defined.

(** X22. The reset at the end of a successful scan is the one of the
    render in which the file was chosen.  It clears the file
    information and the progress, but the preview only if another
    preview was on screen when the file was chosen: after the first
    file the image stays, after a later one it goes. *)
Theorem successful_scan_resets_with_the_preview_it_saw
    (JSON_parse : string → option value)
    (URL_searchParams : string → option (string → option string)) (userAgent : string)
    (s : Upload.state) (i : nat) (payload : gmap string value) (p : option nat)
    (answer : http_response) (now : string) :
  Digital.inflight (Upload.core s) !! i = Some payload →
  Upload.seen s !! i = Some p →
  truthy (data answer) = true →
  let s' := Upload.handle JSON_parse URL_searchParams userAgent
              (Upload.Answered i (Ok answer) now) s in
  Upload.fileInfo s' = None
  ∧ Digital.loading (Upload.core s') = false
  ∧ Upload.previewUrl s' = match p with Some _ => None | None => Upload.previewUrl s end.
Proof.
  intros Hi Hs Ha. cbv zeta. simpl. rewrite Hi, Hs.
  unfold Upload.answered. cbv zeta. rewrite Ha.
  unfold Digital.submission_settled. rewrite ?Ha.
  destruct p as [u|]; [|done].
  unfold Upload.setPreviewUrl. cbv zeta. simpl.
  destruct (bool_decide _); [done|]. by destruct (Upload.previewUrl s).
Qed.

Lemma successful_scan_resets_with_the_preview_it_saw_witness :
  let s := Upload.run Sample.JSON_parse Sample.URL_searchParams Sample.userAgent
             [Upload.FileChosen
                (Some {| Upload.file_name := "card.png"; Upload.file_type := "image/png";
                         Upload.file_size := 2048 |}) true;
              Upload.ReadSettled 0 true;
              Upload.ImageSettled 0 (Upload.Drawn None (Symbol Sample.card_text))] in
  let s' := Upload.handle Sample.JSON_parse Sample.URL_searchParams Sample.userAgent
              (Upload.Answered 0 (Ok {| status := 200; data := VObj ∅ |}) "2025-01-01T00:00:00.000Z")
              s in
  Upload.fileInfo s' = None
  ∧ Digital.loading (Upload.core s') = false
  ∧ Upload.previewUrl s' = Upload.previewUrl s.
Proof.
  cbv zeta.
  apply (successful_scan_resets_with_the_preview_it_saw
           Sample.JSON_parse Sample.URL_searchParams Sample.userAgent _ 0 Sample.card None
           {| status := 200; data := VObj ∅ |} "2025-01-01T00:00:00.000Z").
  - vm_compute. reflexivity.
  - vm_compute. reflexivity.
  - reflexivity.
Defined.

(** ** What the reader shows *)

Lemma scan_failed_hasPermission (err : exn) (s : Reader.state) :
  Reader.hasPermission (Reader.scan_failed err s) = Reader.hasPermission s.
Proof. done. Qed.

Lemma handleScan_hasPermission (JSON_parse : string → option value) (userAgent : string)
    (seen_loading : bool) (text : option string) (s : Reader.state) :
  Reader.hasPermission (Reader.handleScan JSON_parse userAgent seen_loading text s)
  = Reader.hasPermission s.
Proof.
  unfold Reader.handleScan. destruct text as [text|]; [|done].
  destruct seen_loading; [done|]. cbv zeta.
  destruct (Reader.parse JSON_parse text) as [qrData|e]; [|done].
  destruct (member qrData "indexNumber") as [indexNumber|e]; [|done].
  destruct qrData; try done.
  destruct (negb _ || negb _); [done|].
  by destruct (Api.markAttendance_body _ _).
Qed.

Lemma scan_settled_hasPermission (card : gmap string value)
    (outcome : result http_response) (now : string) (s : Reader.state) :
  Reader.hasPermission (Reader.scan_settled card outcome now s) = Reader.hasPermission s.
Proof.
  unfold Reader.scan_settled. destruct outcome as [answer|err]; [|done].
  cbv zeta. by destruct (truthy (data answer)).
Qed.

(** The permission is written by the probe of the mount alone. *)
Lemma reader_handle_hasPermission (JSON_parse : string → option value) (userAgent : string)
    (e : ReaderView.event) (s : ReaderView.state) :
  ReaderView.probing s = false →
  ReaderView.probing (ReaderView.handle JSON_parse userAgent e s) = false
  ∧ Reader.hasPermission (ReaderView.reader (ReaderView.handle JSON_parse userAgent e s))
    = Reader.hasPermission (ReaderView.reader s).
Proof.
  intros Hp. destruct e as [granted|seen_loading text|msg|i outcome now| |]; simpl.
  - by rewrite Hp.
  - destruct (match ReaderView.render _ with ReaderView.Frame true => true | _ => false end);
      [|done].
    simpl. by rewrite handleScan_hasPermission.
  - by destruct (match ReaderView.render _ with ReaderView.Frame true => true | _ => false end).
  - destruct (Reader.inflight (ReaderView.reader s) !! i) as [card|]; [|done].
    simpl. by rewrite scan_settled_hasPermission.
  - by destruct (match ReaderView.render _ with ReaderView.Failed => true | _ => false end).
  - by destruct (match ReaderView.render _ with ReaderView.Recorded => true | _ => false end).
Qed.

(** While the probe of the mount is pending, no permission is known. *)
Lemma reader_run_probing (JSON_parse : string → option value) (userAgent : string)
    (events : list ReaderView.event) (s : ReaderView.state) :
  (ReaderView.probing s = true → Reader.hasPermission (ReaderView.reader s) = None) →
  let s' := foldl (λ s e, ReaderView.handle JSON_parse userAgent e s) s events in
  ReaderView.probing s' = true → Reader.hasPermission (ReaderView.reader s') = None.
Proof.
  revert s. induction events as [|e events IH]; intros s Hs; [done|].
  simpl. apply IH. destruct (ReaderView.probing s) eqn:Hp.
  - specialize (Hs eq_refl).
    destruct e as [granted|seen_loading text|msg|i outcome now| |]; simpl; rewrite ?Hp.
    + done.
    + destruct (match ReaderView.render _ with ReaderView.Frame true => true | _ => false end);
        simpl; [|by rewrite Hp]. by rewrite handleScan_hasPermission.
    + destruct (match ReaderView.render _ with ReaderView.Frame true => true | _ => false end);
        simpl; by rewrite ?Hp.
    + destruct (Reader.inflight (ReaderView.reader s) !! i) as [card|]; simpl; [|by rewrite Hp].
      by rewrite scan_settled_hasPermission.
    + destruct (match ReaderView.render _ with ReaderView.Failed => true | _ => false end);
        simpl; by rewrite ?Hp.
    + destruct (match ReaderView.render _ with ReaderView.Recorded => true | _ => false end);
        simpl; by rewrite ?Hp.
  - destruct (reader_handle_hasPermission JSON_parse userAgent e s Hp) as [Hp' _].
    by rewrite Hp'.
Qed.

(** X23. A refused camera is final for the reader.  Once the probe of
    the mount has been refused, nothing the component can do afterwards
    brings the frame with [QrReader] or a recorded attendance back on
    screen: Try Again clears the error and uncovers the notice that has
    no button, and an answer that arrives late is stored but not
    shown. *)
Theorem refused_camera_is_final (JSON_parse : string → option value) (userAgent : string)
    (events more : list ReaderView.event) :
  Reader.hasPermission (ReaderView.reader (ReaderView.run JSON_parse userAgent events))
  = Some false →
  let s' := foldl (λ s e, ReaderView.handle JSON_parse userAgent e s)
              (ReaderView.run JSON_parse userAgent events) more in
  Reader.hasPermission (ReaderView.reader s') = Some false
  ∧ match ReaderView.render (ReaderView.reader s') with
    | ReaderView.Processing | ReaderView.Failed | ReaderView.Denied => True
    | ReaderView.Recorded | ReaderView.Frame _ => False
    end.
Proof.
  intros Hdenied. cbv zeta.
  assert (Hp : ReaderView.probing (ReaderView.run JSON_parse userAgent events) = false).
  { pose proof (reader_run_probing JSON_parse userAgent events ReaderView.mounted
                  (λ _, eq_refl)) as H.
    cbv zeta in H. fold (ReaderView.run JSON_parse userAgent events) in H.
    destruct (ReaderView.probing _); [|done]. specialize (H eq_refl). congruence. }
  assert (Hkeep : Reader.hasPermission
                    (ReaderView.reader
                       (foldl (λ s e, ReaderView.handle JSON_parse userAgent e s)
                          (ReaderView.run JSON_parse userAgent events) more)) = Some false).
  { revert Hdenied Hp. generalize (ReaderView.run JSON_parse userAgent events).
    induction more as [|e more IH]; intros s Hd Hp; [done|].
    simpl. destruct (reader_handle_hasPermission JSON_parse userAgent e s Hp) as [Hp' Hh].
    apply IH; [by rewrite Hh|done]. }
  split; [exact Hkeep|].
  unfold ReaderView.render. rewrite Hkeep.
  destruct (Reader.loading _); [done|]. destruct (truthy (Reader.error _)); done.
Qed.

Lemma refused_camera_is_final_witness :
  let s' := foldl (λ s e, ReaderView.handle Sample.JSON_parse Sample.userAgent e s)
              (ReaderView.run Sample.JSON_parse Sample.userAgent
                 [ReaderView.PermissionSettled false])
              [ReaderView.TryAgainClicked] in
  Reader.hasPermission (ReaderView.reader s') = Some false
  ∧ match ReaderView.render (ReaderView.reader s') with
    | ReaderView.Processing | ReaderView.Failed | ReaderView.Denied => True
    | ReaderView.Recorded | ReaderView.Frame _ => False
    end.
Proof.
  apply (refused_camera_is_final Sample.JSON_parse Sample.userAgent
           [ReaderView.PermissionSettled false] [ReaderView.TryAgainClicked]).
  reflexivity.
Defined.

(** ** The parameters of a report and the profile *)

Lemma format_if_lookup (Date_time : value → option Z) (toISOString : Z → string)
    (k j : string) (m : gmap string value) :
  Client.format_if Date_time toISOString k m !! j
  = if decide (j = k)
    then (λ v, if truthy v then VStr (Client.getFormattedDate Date_time toISOString v) else v)
         <$> m !! k
    else m !! j.
Proof.
  unfold Client.format_if. destruct (decide (j = k)) as [->|Hne].
  - destruct (m !! k) as [v|] eqn:Hv; [|by rewrite Hv].
    simpl. destruct (truthy v); [by rewrite lookup_insert_eq|by rewrite Hv].
  - destruct (m !! k) as [v|]; [|done].
    destruct (truthy v); [by rewrite lookup_insert_ne|done].
Qed.

(** X24. [attendanceService.formatReportParams] sets the four
    [include...] flags to [true] whatever the caller passed for them,
    rewrites [date], [startDate] and [endDate] with [getFormattedDate]
    where they are present and truthy (an unreadable date becomes the
    empty string), adds none of the three that was absent, and hands
    every other parameter on as it was; the report type plays no
    part. *)
Theorem formatReportParams_flags_dates_and_rest (Date_time : value → option Z)
    (toISOString : Z → string) (reportType : value) (params : gmap string value)
    (k : string) :
  let out := Client.formatReportParams Date_time toISOString reportType params in
  (k ∈ ["includeEntryTime"; "includeLeaveTime"; "includeDuration"; "includeLocation"] →
   out !! k = Some (VBool true))
  ∧ (k ∈ ["date"; "startDate"; "endDate"] →
     out !! k
     = (λ v, if truthy v then VStr (Client.getFormattedDate Date_time toISOString v) else v)
       <$> params !! k)
  ∧ (k ∉ ["includeEntryTime"; "includeLeaveTime"; "includeDuration"; "includeLocation";
          "date"; "startDate"; "endDate"] →
     out !! k = params !! k).
Proof.
  cbv zeta. unfold Client.formatReportParams.
  split; [|split].
  - rewrite !elem_of_cons, elem_of_nil.
    intros [->|[->|[->|[->|[]]]]]; by simplify_map_eq.
  - rewrite !elem_of_cons, elem_of_nil.
    intros [->|[->|[->|[]]]];
      rewrite !lookup_insert_ne by done; rewrite !format_if_lookup;
      repeat (destruct (decide _) as [?|?]; try done).
  - rewrite !not_elem_of_cons. intros (? & ? & ? & ? & ? & ? & ? & _).
    rewrite !lookup_insert_ne by done. rewrite !format_if_lookup.
    repeat (destruct (decide _) as [?|?]; try done).
Qed.

(** X25. After an answer that carries the updated administrator,
    [authService.updateProfile] writes it beside the token: into the
    local storage when a token is kept there, otherwise into the session
    storage when the token is there, and nowhere when neither holds a
    token.  The other storage is left as it was. *)
Theorem updateProfile_writes_beside_the_token (js : Client.runtime)
    (JSON_stringify : value → string) (net : Client.server) (changes : value)
    (b b' : Client.browser) (r : http_response) :
  Client.updateProfile js JSON_stringify net changes b = (b', Ok r) →
  truthy (data r) = true →
  truthy (or_else (opt_member (data r) "admin") (opt_member (data r) "user")) = true →
  let user := JSON_stringify (or_else (opt_member (data r) "admin")
                                      (opt_member (data r) "user")) in
  match Api.stored_token (Client.localStorage b), Api.stored_token (Client.sessionStorage b) with
  | Some _, _ =>
      Client.localStorage b' = <["user" := user]> (Client.localStorage b)
      ∧ Client.sessionStorage b' = Client.sessionStorage b
  | None, Some _ =>
      Client.sessionStorage b' = <["user" := user]> (Client.sessionStorage b)
      ∧ Client.localStorage b' = Client.localStorage b
  | None, None =>
      Client.localStorage b' = Client.localStorage b
      ∧ Client.sessionStorage b' = Client.sessionStorage b
  end.
Proof.
  intros Hrun Hdata Huser. cbv zeta. revert Hrun.
  unfold Client.updateProfile. run_browser. simpl.
  pose proof (api_cases js net "PATCH" "/admin/profile" (Client.with_body changes)
                (Client.note (Client.Console Client.LOG "Updating profile with data:") b)) as H.
  cbv zeta in H. simpl in H.
  destruct (Api.request_interceptor _ _ _ _) as [cfg|e].
  - destruct (Client.settled _) as [answer|e].
    + rewrite H. simpl. 
      destruct (truthy (data answer) && truthy _) eqn:Hboth; simpl.
      * destruct (Api.stored_token (Client.localStorage b)) as [t|] eqn:Hl; simpl.
        -- rewrite ?bool_decide_eq_true_2 by eauto. simpl. by intros [= <- <-].
        -- rewrite ?bool_decide_eq_false_2 by (intros [? ?]; done).
           destruct (Api.stored_token (Client.sessionStorage b)) as [t|] eqn:Hs; simpl.
           ++ rewrite ?bool_decide_eq_true_2 by eauto. simpl. by intros [= <- <-].
           ++ rewrite ?bool_decide_eq_false_2 by (intros [? ?]; done). simpl.
              by intros [= <- <-].
      * intros [= <- <-]. rewrite Hdata, Huser in Hboth. done.
    + rewrite H.
      match goal with |- context [Client.response_rejected ?p ?u ?h ?e0 ?b0] =>
        pose proof (response_rejected_browser p u h e0 b0) as (Hr & _)
      end.
      cbv zeta in Hr.
      destruct (Client.response_rejected _ _ _ _ _) as [b0 [r0|e0]]; simpl in *; [done|].
      run_browser. by destruct (response e0).
  - rewrite H.
    match goal with |- context [Client.response_rejected ?p ?u ?h ?e0 ?b0] =>
      pose proof (response_rejected_browser p u h e0 b0) as (Hr & _)
    end.
    cbv zeta in Hr.
    destruct (Client.response_rejected _ _ _ _ _) as [b0 [r0|e0]]; simpl in *; [done|].
      run_browser. by destruct (response e0).
Qed.

(** The statement above for a temporary login: the token is in the
    session storage only. *)
Lemma updateProfile_writes_beside_the_token_witness :
  let b := {| Client.localStorage := ∅;
              Client.sessionStorage := {[ "token" := "temporary" ]};
              Client.href := None; Client.trace := [] |} in
  let answer := {| status := 200;
                   data := VObj {[ "admin" := VObj {[ "name" := VStr "Ann" ]} ]} |} in
  let net := {| Client.health := Some {| status := 200;
                                         data := VObj {[ "status" := VStr "ok" ]} |};
                Client.serve := λ _, {| Client.settled := Ok answer;
                                        Client.reply_headers := ∅ |} |} in
  let after := fst (Client.updateProfile Client.sample_runtime (λ _, "{}") net (VObj ∅) b) in
  Client.sessionStorage after = <["user" := "{}"]> (Client.sessionStorage b)
  ∧ Client.localStorage after = Client.localStorage b.
Proof.
  cbv zeta.
  set (b := {| Client.localStorage := ∅;
               Client.sessionStorage := {[ "token" := "temporary" ]};
               Client.href := None; Client.trace := [] |}).
  set (answer := {| status := 200;
                    data := VObj {[ "admin" := VObj {[ "name" := VStr "Ann" ]} ]} |}).
  set (net := {| Client.health := Some {| status := 200;
                                          data := VObj {[ "status" := VStr "ok" ]} |};
                 Client.serve := λ _, {| Client.settled := Ok answer;
                                         Client.reply_headers := ∅ |} |}).
  assert (Hrun : Client.updateProfile Client.sample_runtime (λ _, "{}") net (VObj ∅) b
                 = (fst (Client.updateProfile Client.sample_runtime (λ _, "{}") net (VObj ∅) b),
                    Ok answer))
    by (vm_compute; reflexivity).
  exact (updateProfile_writes_beside_the_token Client.sample_runtime (λ _, "{}") net (VObj ∅) b _
           answer Hrun eq_refl eq_refl).
Defined.
